(** * Seymour screen-masking integration: the Home Assistant glue

    A shallow embedding of the platform code of the integration
    (__init__.py, entity.py, remote.py, select.py, sensor.py, switch.py,
    config_flow.py) and the properties its specification states about it.

    The glue drives the device-protocol client [pySeymour.device] through
    method calls and reads its state records.  The client itself is a
    collaborator of the code embedded here: its operations are an interface
    ([DeviceModule]) and its state records are the fields the glue touches. *)

From Stdlib Require Import ZArith Floats Ascii String.
From stdpp Require Import gmap strings list pretty.

Local Open Scope string_scope.
Local Open Scope Z_scope.

(* ===================================================================== *)
(** ** Python values, exceptions and results                              *)
(* ===================================================================== *)

Module Py.

(** The dynamically typed values that travel through service data and
    through the attributes of the state records: [None], booleans,
    integers, floats and strings.  (Lists and dicts can travel through
    service data too; they are equal to none of the literals the glue
    compares with, and are left out.) *)
Inductive PyVal : Type :=
| VNone
| VBool (b : bool)
| VInt (z : Z)
| VFloat (f : float)
| VStr (s : string).

#[global] Instance float_eq_dec : EqDecision float.
Proof.
  intros x y. destruct (PrimFloat.Leibniz.eqb x y) eqn:Heq.
  - left. by apply FloatAxioms.Leibniz.eqb_spec.
  - right. intros Hxy. apply FloatAxioms.Leibniz.eqb_spec in Hxy. congruence.
Defined.

#[global] Instance PyVal_eq_dec : EqDecision PyVal.
Proof. solve_decision. Defined.

(** The integer a float is equal to, when it is finite and has no
    fractional part: the float is [(-1)^s * m * 2^e]. *)
Definition float_as_Z (f : float) : option Z :=
  match Prim2SF f with
  | S754_zero _ => Some 0
  | S754_finite s m e =>
      let sign (z : Z) := if s then - z else z in
      if 0 <=? e then Some (sign (Z.pos m * 2 ^ e))
      else if Z.pos m mod 2 ^ (- e) =? 0 then Some (sign (Z.pos m / 2 ^ (- e)))
      else None
  | S754_infinity _ | S754_nan => None
  end.

(** [x == y].  [bool] is a subclass of [int] ([True == 1]); an integer
    and a float are compared by their exact values ([994 == 994.0]);
    two floats as IEEE 754 has it; a string or [None] is equal only to
    itself. *)
Definition py_eq (x y : PyVal) : bool :=
  match x, y with
  | VNone, VNone => true
  | VStr a, VStr b => String.eqb a b
  | VBool a, VBool b => Bool.eqb a b
  | VBool a, VInt z | VInt z, VBool a => Z.b2z a =? z
  | VInt a, VInt b => a =? b
  | VBool a, VFloat f | VFloat f, VBool a =>
      match float_as_Z f with Some z => Z.b2z a =? z | None => false end
  | VInt a, VFloat f | VFloat f, VInt a =>
      match float_as_Z f with Some z => a =? z | None => false end
  | VFloat f, VFloat g => PrimFloat.eqb f g
  | _, _ => false
  end.

(** [x in l], for a list [l]: some element is equal to [x].  (Python
    tests identity before equality, which adds nothing for the lists of
    integers, strings and [None] the glue builds.) *)
Definition py_in (x : PyVal) (l : list PyVal) : bool := existsb (py_eq x) l.

(** [bool(v)]: [None], [False], [0], [0.0] and the empty string are
    falsy. *)
Definition truthy (v : PyVal) : bool :=
  match v with
  | VNone => false
  | VBool b => b
  | VInt z => negb (z =? 0)
  | VFloat f => negb (PrimFloat.eqb f 0)
  | VStr s => negb (String.eqb s "")
  end.

(** The exception classes the glue raises or catches. *)
Inductive ExnClass : Type :=
| BaseException | Exception
| OSError | TimeoutError | ConnectionError | SerialException
| ValueError | UnicodeDecodeError
| LookupError | KeyError
| TypeError | AttributeError
| HomeAssistantError | ServiceNotFound
| Invalid | MultipleInvalid.

#[global] Instance ExnClass_eq_dec : EqDecision ExnClass.
Proof. solve_decision. Defined.

(** The direct base class: builtins as in CPython, [SerialException]
    as in pyserial (derived from IOError, an alias of OSError),
    [MultipleInvalid] and [Invalid] as in voluptuous. *)
Definition base (c : ExnClass) : option ExnClass :=
  match c with
  | BaseException => None
  | Exception => Some BaseException
  | OSError => Some Exception
  | TimeoutError => Some OSError
  | ConnectionError => Some OSError
  | SerialException => Some OSError
  | ValueError => Some Exception
  | UnicodeDecodeError => Some ValueError
  | LookupError => Some Exception
  | KeyError => Some LookupError
  | TypeError => Some Exception
  | AttributeError => Some Exception
  | HomeAssistantError => Some Exception
  | ServiceNotFound => Some HomeAssistantError
  | Invalid => Some Exception
  | MultipleInvalid => Some Invalid
  end.

Fixpoint mro_from (depth : nat) (c : ExnClass) : list ExnClass :=
  match depth with
  | O => [c]
  | S d => c :: match base c with
                | Some b => mro_from d b
                | None => []
                end
  end.

Definition mro (c : ExnClass) : list ExnClass := mro_from 4 c.

Record exn : Type := mkExn { exn_class : ExnClass; exn_msg : string }.

(** [isinstance(e, c)], the test an [except c] clause performs. *)
Definition isinstance (e : exn) (c : ExnClass) : bool :=
  bool_decide (c ∈ mro (exn_class e)).

(** The outcome of running a piece of code: a value or a raised
    exception. *)
Inductive res (A : Type) : Type :=
| Return (a : A)
| Raise (e : exn).
Arguments Return {A} a.
Arguments Raise {A} e.

Definition is_raise {A} (r : res A) : bool :=
  match r with Raise _ => true | Return _ => false end.

End Py.
Export Py.

(* ===================================================================== *)
(** ** voluptuous schemas                                                 *)
(* ===================================================================== *)

Module vol.

(** The validators the integration uses: [vol.In(container)], which
    tests [x in container], and [vol.Any(lit, ...)] over literals, which
    tests [x == lit] for each; both compare with [==]. *)
Inductive Validator : Type :=
| In (container : list PyVal)
| Any (alternatives : list PyVal).

(** Schema keys: [vol.Required(key)] and [vol.Optional(key, default=d)]. *)
Inductive Marker : Type :=
| Required (key : string)
| Optional (key : string) (default : PyVal).

Definition Schema : Type := list (Marker * Validator).

Definition marker_key (m : Marker) : string :=
  match m with Required k => k | Optional k _ => k end.

Definition check (v : Validator) (x : PyVal) : bool :=
  match v with
  | In container => py_in x container
  | Any alternatives => existsb (py_eq x) alternatives
  end.

Fixpoint validator_for (s : Schema) (k : string) : option Validator :=
  match s with
  | [] => None
  | (m, v) :: s' =>
      if String.eqb (marker_key m) k then Some v else validator_for s' k
  end.

(** Missing keys that carry a default are filled in before validation. *)
Fixpoint insert_defaults (s : Schema) (data : gmap string PyVal)
  : gmap string PyVal :=
  match s with
  | [] => data
  | (Optional k d, _) :: s' =>
      let data' := insert_defaults s' data in
      match data' !! k with
      | Some _ => data'
      | None => <[k := d]> data'
      end
  | (Required _, _) :: s' => insert_defaults s' data
  end.

(** One provided pair is fine when its key is in the schema (extra keys
    are not allowed) and its value passes that key's validator. *)
Definition pair_ok (s : Schema) (k : string) (x : PyVal) : Prop :=
  match validator_for s k with
  | Some v => check v x = true
  | None => False
  end.

#[global] Instance pair_ok_dec s k x : Decision (pair_ok s k x).
Proof. unfold pair_ok. destruct (validator_for s k); apply _. Defined.

Definition required_present (s : Schema) (data : gmap string PyVal) : bool :=
  forallb (fun '(m, _) =>
             match m with
             | Required k => bool_decide (is_Some (data !! k))
             | Optional _ _ => true
             end) s.

Definition accepts (s : Schema) (data : gmap string PyVal) : bool :=
  let data' := insert_defaults s data in
  bool_decide (map_Forall (pair_ok s) data') && required_present s data'.

(** Calling a schema on a dict: the validated dict (defaults included),
    or [MultipleInvalid]. *)
Definition validate (s : Schema) (data : gmap string PyVal)
  : res (gmap string PyVal) :=
  if accepts s data
  then Return (insert_defaults s data)
  else Raise (mkExn MultipleInvalid "invalid service data").

End vol.

(* ===================================================================== *)
(** ** The state records of the device client                             *)
(* ===================================================================== *)

(** Modelled from the spec: the record types of [pySeymour.device], whose
    declarations are not part of the glue.  Section 3 of the specification
    lists their fields; optional attributes are [PyVal]s ([VNone] when
    unset), counts are natural numbers, lookup tables are finite maps.
    [MotorInfo] is the target of one motor within a ratio. *)
Record MotorInfo : Type := mkMotorInfo {
  position : option Z;
  adjustment : option Z;
}.

(** Modelled from the spec: [RatioInfo], one entry of the ratio table,
    with its per-motor targets keyed by motor index. *)
Record RatioInfo : Type := mkRatioInfo {
  label : string;
  width : PyVal;
  height : PyVal;
  diagonal : PyVal;
  ratio_motors : gmap Z MotorInfo;
}.

(** Modelled from the spec: [SystemInfo], the identity of the
    controller; [mask_ids] lists the motor letters ("T,B,L,R" or "TBLR"). *)
Record SystemInfo : Type := mkSystemInfo {
  serial_number : string;
  screen_model : string;
  protocol_version : string;
  screen_width : PyVal;
  screen_height : PyVal;
  mask_ids : string;
}.

(** Modelled from the spec: [MaskRatioSettings], the ratio table, the
    label tables and the three current selections. *)
Record MaskRatioSettings : Type := mkMaskRatioSettings {
  num_ratios : N;
  ratios : gmap Z RatioInfo;
  motors : gmap string string;
  movement_codes : gmap string string;
  current_ratio : PyVal;
  current_motor_id : PyVal;
  current_movement_code : PyVal;
}.

(** Modelled from the spec: [MotorPositions]; [num_motors] is a count,
    zero until the positions are first populated. *)
Record MotorPositions : Type := mkMotorPositions {
  num_motors : N;
  position_of : gmap string Z;
}.

(** Modelled from the spec: [RatioStatus]. *)
Record RatioStatus : Type := mkRatioStatus {
  ratio_id : PyVal;
  status_code : PyVal;
}.

(** Modelled from the spec: the four state records a
    [SeymourScreenController] exposes to the glue. *)
Record Device : Type := mkDevice {
  system_info : SystemInfo;
  mask_ratio_settings : MaskRatioSettings;
  current_motor_positions : MotorPositions;
  current_ratio_status : RatioStatus;
}.

(** [device.mask_ratio_settings.current_movement_code = v] *)
Definition set_current_movement_code (v : PyVal) (d : Device) : Device :=
  let s := mask_ratio_settings d in
  mkDevice (system_info d)
    (mkMaskRatioSettings (num_ratios s) (ratios s) (motors s)
       (movement_codes s) (current_ratio s) (current_motor_id s) v)
    (current_motor_positions d) (current_ratio_status d).

(** Looking a value up in an int-keyed dict: a key is hit by what is
    equal to it, an integer, a boolean ([True] is 1) or a float without
    fractional part. *)
Definition dict_get {V : Type} (d : gmap Z V) (k : PyVal) : option V :=
  match k with
  | VInt z => d !! z
  | VBool b => d !! Z.b2z b
  | VFloat f => float_as_Z f ≫= fun z => d !! z
  | VNone | VStr _ => None
  end.

(** Looking a value up in a str-keyed dict. *)
Definition str_dict_get {V : Type} (d : gmap string V) (k : PyVal) : option V :=
  match k with
  | VStr s => d !! s
  | _ => None
  end.

(* ===================================================================== *)
(** ** Observable events and the world the glue runs in                   *)
(* ===================================================================== *)

Inductive LogLevel : Type := DEBUG | INFO | WARNING | ERROR.

(** The entity classes of the platforms, all derived from
    [SeymourEntity], and what an entity object carries. *)
Inductive EntityClass : Type :=
| SeymourButton | SeymourRemote | SeymourSelect | SeymourSensor | SeymourSwitch.

Record Entity : Type := mkEntity {
  entity_class : EntityClass;
  description_key : string;
  attr_unique_id : string;
  attr_options : list string;
}.

Inductive Platform : Type := BUTTON | REMOTE | SELECT | SENSOR.

(** What an execution of the glue does to its surroundings, in order. *)
Inductive Event : Type :=
| DeviceCall (method : string) (args : list PyVal)
| Log (level : LogLevel) (fmt : string)
| Sleep (seconds : float)
| StoreEntry
| ListenStop
| ForwardEntrySetups (platforms : list Platform)
| DispatcherSend (signal : string) (args : list PyVal)
| SetStates (entity : nat)
| WriteHaState (entity : nat).

(** The device client as the glue sees it.  [Env] is everything the glue
    cannot observe (the wire, the reader task, the client's private
    state).  [device_call] is an awaited method call [device.m(args)];
    [background] is what the client's reader task does to the state
    while the caller is suspended in [asyncio.sleep]; the remaining
    fields are the constants of [pySeymour.constants]. *)
Class DeviceModule (Env : Type) : Type := {
  device_call : string → list PyVal → Env → Device → Env * Device * res PyVal;
  background : float → Env → Device → Env * Device;
  MOTOR_IDS : gmap string string;
  STATUS_CODES : list (PyVal * string);
}.

Section Runtime.
Context {Env : Type} `{!DeviceModule Env}.

(** [w_entities] are the entity objects created so far, addressed by
    position; [w_dispatcher] holds the dispatcher connections, each a
    signal name with the entity whose [_update] closure is connected. *)
Record World : Type := mkWorld {
  w_env : Env;
  w_device : Device;
  w_entities : list Entity;
  w_dispatcher : list (string * nat);
  w_trace : list Event;
}.

(** Code that may touch the world and may raise. *)
Definition M (A : Type) : Type := World → World * res A.

Definition ret {A} (a : A) : M A := fun w => (w, Return a).

Definition raise {A} (c : ExnClass) (msg : string) : M A :=
  fun w => (w, Raise (mkExn c msg)).

Definition bind {A B} (m : M A) (k : A → M B) : M B :=
  fun w =>
    match m w with
    | (w', Return a) => k a w'
    | (w', Raise e) => (w', Raise e)
    end.

Definition lift {A} (r : res A) : M A := fun w => (w, r).

Definition emit (ev : Event) : M unit :=
  fun w => (mkWorld (w_env w) (w_device w) (w_entities w) (w_dispatcher w)
              (w_trace w ++ [ev]), Return tt).

Definition log (level : LogLevel) (fmt : string) : M unit :=
  emit (Log level fmt).

(** The world with the events [evs] appended to its trace. *)
Definition push (evs : list Event) (w : World) : World :=
  mkWorld (w_env w) (w_device w) (w_entities w) (w_dispatcher w)
    (w_trace w ++ evs).

Definition get_device : M Device := fun w => (w, Return (w_device w)).

Definition modify_device (f : Device → Device) : M unit :=
  fun w => (mkWorld (w_env w) (f (w_device w)) (w_entities w)
              (w_dispatcher w) (w_trace w), Return tt).

Definition modify_entities (f : list Entity → list Entity) : M unit :=
  fun w => (mkWorld (w_env w) (w_device w) (f (w_entities w))
              (w_dispatcher w) (w_trace w), Return tt).

Definition get_dispatcher : M (list (string * nat)) :=
  fun w => (w, Return (w_dispatcher w)).

Definition modify_dispatcher
    (f : list (string * nat) → list (string * nat)) : M unit :=
  fun w => (mkWorld (w_env w) (w_device w) (w_entities w)
              (f (w_dispatcher w)) (w_trace w), Return tt).

(** [await device.method(args)] *)
Definition await_device (method : string) (args : list PyVal) : M PyVal :=
  fun w =>
    let '(env', dev', r) := device_call method args (w_env w) (w_device w) in
    (mkWorld env' dev' (w_entities w) (w_dispatcher w)
       (w_trace w ++ [DeviceCall method args]), r).

(** [await asyncio.sleep(seconds)] *)
Definition asyncio_sleep (seconds : float) : M unit :=
  fun w =>
    let '(env', dev') := background seconds (w_env w) (w_device w) in
    (mkWorld env' dev' (w_entities w) (w_dispatcher w)
       (w_trace w ++ [Sleep seconds]), Return tt).

(** [try: body  except c1 as e: h1 e  except c2 as e: h2 e ...]: the
    first clause whose class the exception is an instance of handles
    it; with no such clause it propagates. *)
Fixpoint select_handler {A} (clauses : list (ExnClass * (exn → M A)))
    (e : exn) : option (M A) :=
  match clauses with
  | [] => None
  | (c, h) :: rest =>
      if isinstance e c then Some (h e) else select_handler rest e
  end.

Definition try_except {A} (body : M A)
    (clauses : list (ExnClass * (exn → M A))) : M A :=
  fun w =>
    match body w with
    | (w', Return a) => (w', Return a)
    | (w', Raise e) =>
        match select_handler clauses e with
        | Some h => h w'
        | None => (w', Raise e)
        end
    end.

(** [for x in xs: body x] *)
Fixpoint for_each {A} (xs : list A) (body : A → M unit) : M unit :=
  match xs with
  | [] => ret tt
  | x :: xs' => bind (body x) (fun _ => for_each xs' body)
  end.

End Runtime.

Arguments World Env : clear implicits.
Arguments M Env A : clear implicits.

Declare Scope glue_scope.
Delimit Scope glue_scope with glue.
Notation "x <~ m ;; k" := (bind m (fun x => k))
  (at level 100, m at next level, right associativity) : glue_scope.
Notation "m ;;; k" := (bind m (fun _ => k))
  (at level 100, right associativity) : glue_scope.

(** [call.data.get(key)] *)
Definition data_get (data : gmap string PyVal) (key : string) : PyVal :=
  default VNone (data !! key).

(* ===================================================================== *)
(** ** Python string methods used by the glue                             *)
(* ===================================================================== *)

Module pystr.

(** [c.upper()] on one 7-bit character. *)
Definition upper_char (c : ascii) : ascii :=
  let n := Ascii.N_of_ascii c in
  if ((97 <=? n) && (n <=? 122))%N then Ascii.ascii_of_N (n - 32) else c.

Fixpoint upper (s : string) : string :=
  match s with
  | EmptyString => EmptyString
  | String c s' => String (upper_char c) (upper s')
  end.

(** [c.lower()] on one 7-bit character. *)
Definition lower_char (c : ascii) : ascii :=
  let n := Ascii.N_of_ascii c in
  if ((65 <=? n) && (n <=? 90))%N then Ascii.ascii_of_N (n + 32) else c.

Fixpoint lower (s : string) : string :=
  match s with
  | EmptyString => EmptyString
  | String c s' => String (lower_char c) (lower s')
  end.

(** The 7-bit characters [str.strip()] removes. *)
Definition is_whitespace (c : ascii) : bool :=
  let n := Ascii.N_of_ascii c in
  (((9 <=? n) && (n <=? 13)) || ((28 <=? n) && (n <=? 32)))%N.

Fixpoint lstrip (s : string) : string :=
  match s with
  | EmptyString => EmptyString
  | String c s' => if is_whitespace c then lstrip s' else s
  end.

Definition strip (s : string) : string :=
  String.rev (lstrip (String.rev (lstrip s))).

(** [s.split(sep)] for a separator of one character: empty pieces are
    kept. *)
Fixpoint split_go (sep : ascii) (cur : string) (s : string) : list string :=
  match s with
  | EmptyString => [String.rev cur]
  | String c s' =>
      if Ascii.eqb c sep then String.rev cur :: split_go sep EmptyString s'
      else split_go sep (String c cur) s'
  end.

Definition split (sep : ascii) (s : string) : list string :=
  split_go sep EmptyString s.

(** [sub in s] *)
Definition contains (sub s : string) : bool :=
  match s with
  | EmptyString => String.eqb sub ""
  | _ => bool_decide (is_Some (String.index 0 sub s))
  end.

Definition startswith (s p : string) : bool := String.prefix p s.

Definition endswith (s p : string) : bool :=
  String.prefix (String.rev p) (String.rev s).

(** [list(s)]: the characters of [s], each a string of length one. *)
Definition chars (s : string) : list string :=
  (fun ch => String ch EmptyString) <$> String.list_ascii_of_string s.

(** [l.index(x)], when [x] is in [l]. *)
Fixpoint list_index (x : string) (l : list string) : option nat :=
  match l with
  | [] => None
  | y :: l' => if String.eqb y x then Some O else S <$> list_index x l'
  end.

End pystr.

(* ===================================================================== *)
(** ** Home Assistant's service registry                                  *)
(* ===================================================================== *)

Module services.
Section Services.
Context {Env : Type} `{!DeviceModule Env}.
Local Open Scope glue_scope.

(** What [hass.services.async_register(domain, name, handler, schema)]
    stores under [name].  (The registry lower-cases the name it stores;
    every name the glue registers is in lower case already.) *)
Record Service : Type := mkService {
  handler : gmap string PyVal → M Env unit;
  schema : option vol.Schema;
}.

(** Running a registered service: the data goes through the registered
    schema first, and the handler runs on the validated data; an invalid
    call raises out of the schema and the handler is not run. *)
Definition run_service (svc : Service) (data : gmap string PyVal) : M Env unit :=
  processed <~ match schema svc with
               | Some s => lift (vol.validate s data)
               | None => ret data
               end ;;
  handler svc processed.

(** [hass.services.async_call(domain, name, data)]: the name is looked
    up as it is given and, when that finds nothing, in lower case; a
    name that is not registered either way raises [ServiceNotFound]. *)
Definition async_call (registry : gmap string Service) (name : string)
    (data : gmap string PyVal) : M Env unit :=
  match registry !! name with
  | Some svc => run_service svc data
  | None =>
      match registry !! pystr.lower name with
      | Some svc => run_service svc data
      | None => raise ServiceNotFound (pystr.lower name)
      end
  end.

End Services.
End services.

(* ===================================================================== *)
(** ** remote.py                                                          *)
(* ===================================================================== *)

Module remote.

Definition VALID_COMMANDS : gset string :=
  {[ "clear"; "halt"; "home"; "diagnostics" ]}.

(** The [command] argument of [async_send_command]: annotated [str],
    called by Home Assistant's remote platform with a list of strings. *)
Inductive Command : Type :=
| CmdStr (s : string)
| CmdList (l : list string).

(** [for cmd in command]: a string yields its characters as strings of
    length one, a list yields its elements. *)
Definition iterate (command : Command) : list string :=
  match command with
  | CmdStr s => (fun ch => String ch EmptyString) <$> String.list_ascii_of_string s
  | CmdList l => l
  end.

(** [command == "set_aspect_ratio"] *)
Definition is_set_aspect_ratio (command : Command) : bool :=
  match command with
  | CmdStr s => String.eqb s "set_aspect_ratio"
  | CmdList _ => false
  end.

Section Remote.
Context {Env : Type} `{!DeviceModule Env}.
Local Open Scope glue_scope.

Definition async_send_command (command : Command) (AR : PyVal) : M Env unit :=
  if is_set_aspect_ratio command then
    if negb (truthy AR) then
      raise HomeAssistantError "AR parameter is required for select_ar command"
    else
      log DEBUG "Sending command: %s with AR: %s" ;;;
      try_except
        (_ <~ await_device "select_ratio" [AR] ;; ret tt)
        [ (ConnectionError, fun conn_err =>
             log ERROR "Connection error while sending select_ratio: %s");
          (ValueError, fun val_err =>
             log ERROR "Invalid value for AR in select_ratio: %s");
          (HomeAssistantError, fun ha_err =>
             log ERROR "Home Assistant specific error in select_ratio: %s") ]
  else
    for_each (iterate command) (fun cmd =>
      if negb (bool_decide (cmd ∈ VALID_COMMANDS)) then
        raise HomeAssistantError (cmd +:+ " is not a known command")
      else
        log DEBUG "Sending Remote Command: %s" ;;;
        _ <~ await_device cmd [] ;; ret tt).

Definition move_motors_service (data : gmap string PyVal) : M Env unit :=
  let direction := data_get data "direction" in
  let motor_id := data_get data "motor_id" in
  let motor_description :=
    default motor_id (VStr <$> str_dict_get MOTOR_IDS motor_id) in
  let movement_code := data_get data "movement_code" in
  log DEBUG "Moving motor(s) '%s' (%s) in direction: %s with movement code: %s" ;;;
  try_except
    (modify_device (set_current_movement_code movement_code) ;;;
     if bool_decide (direction = VStr "in") then
       _ <~ await_device "move_motors" [VStr "in"; motor_id] ;; ret tt
     else if bool_decide (direction = VStr "out") then
       _ <~ await_device "move_motors" [VStr "out"; motor_id] ;; ret tt
     else
       log ERROR "Invalid direction: %s")
    [ (ConnectionError, fun conn_err =>
         log ERROR "Connection error while moving motor(s) '%s': %s");
      (ValueError, fun val_err =>
         log ERROR "Invalid motor value or direction for movement: %s") ].

Definition home_motors_service (data : gmap string PyVal) : M Env unit :=
  let motor_id := data_get data "motor_id" in
  log DEBUG "Homing motor(s) '%s' (%s)" ;;;
  try_except
    (_ <~ await_device "home" [motor_id] ;; ret tt)
    [ (ConnectionError, fun conn_err =>
         log ERROR "Connection error while homing motor(s) '%s': %s");
      (ValueError, fun val_err =>
         log ERROR "Invalid motor value for homing: %s") ].

Definition halt_motors_service (data : gmap string PyVal) : M Env unit :=
  let motor_id := data_get data "motor_id" in
  log DEBUG "Halting motor(s) '%s' (%s)" ;;;
  try_except
    (_ <~ await_device "halt" [motor_id] ;; ret tt)
    [ (ConnectionError, fun conn_err =>
         log ERROR "Connection error while halting motor(s) '%s': %s");
      (ValueError, fun val_err =>
         log ERROR "Invalid motor value for halting: %s") ].

Definition calibrate_motors_service (data : gmap string PyVal) : M Env unit :=
  let motor_id := data_get data "motor_id" in
  log DEBUG "Calibrating Motor(s) '%s' (%s)" ;;;
  try_except
    (_ <~ await_device "calibrate" [motor_id] ;; ret tt)
    [ (ConnectionError, fun conn_err =>
         log ERROR "Connection error while calibrating motor(s) '%s': %s");
      (ValueError, fun val_err =>
         log ERROR "Invalid motor value for calibrating: %s") ].

Definition update_ratio_service (data : gmap string PyVal) : M Env unit :=
  let ratio_id := data_get data "ratio_id" in
  log DEBUG "Updating ratio with ratio_id: %s" ;;;
  try_except
    (_ <~ await_device "update" [ratio_id] ;; ret tt)
    [ (ConnectionError, fun conn_err =>
         log ERROR "Connection error while updating ratio with ID '%s': %s");
      (ValueError, fun val_err =>
         log ERROR "Invalid ratio ID for update: %s") ].

(** [list(MOTOR_IDS.keys())] *)
Definition motor_id_keys : list PyVal :=
  VStr <$> (map_to_list MOTOR_IDS).*1.

Definition motor_schema : vol.Schema :=
  [ (vol.Required "motor_id", vol.In motor_id_keys) ].

Definition move_motors_schema : vol.Schema :=
  [ (vol.Required "direction", vol.In [VStr "in"; VStr "out"]);
    (vol.Required "motor_id", vol.In motor_id_keys);
    (vol.Optional "movement_code" VNone, vol.Any [VNone; VStr "J"; VStr "P"]) ].

(** The keys of [device.mask_ratio_settings.ratios], the list the
    set-up loop collects. *)
Definition ratio_id_list (device : Device) : list Z :=
  (map_to_list (ratios (mask_ratio_settings device))).*1.

(** [ratio_id_list + list(range(990, 1000))] *)
Definition options (device : Device) : list PyVal :=
  (VInt <$> ratio_id_list device) ++ (VInt <$> seqZ 990 10).

Definition update_ratio_schema (device : Device) : vol.Schema :=
  [ (vol.Required "ratio_id", vol.In (options device)) ].

(** The services [async_setup_entry] registers, in its order: one
    [set_aspect_ratio_<key>] per ratio of the table (no schema), then
    the motor services and [update_ratio] with their schemas. *)
Definition async_setup_entry (device : Device)
  : gmap string services.Service :=
  let per_ratio :=
    foldl (fun reg ratio_key =>
             <[ "set_aspect_ratio_" +:+ pretty ratio_key :=
                services.mkService
                  (fun call => async_send_command
                                 (CmdStr "set_aspect_ratio") (VInt ratio_key))
                  None ]> reg)
          ∅ (ratio_id_list device) in
  <[ "update_ratio" :=
     services.mkService update_ratio_service
       (Some (update_ratio_schema device)) ]>
  (<[ "calibrate_motors" :=
      services.mkService calibrate_motors_service (Some motor_schema) ]>
  (<[ "halt_motors" :=
      services.mkService halt_motors_service (Some motor_schema) ]>
  (<[ "home_motors" :=
      services.mkService home_motors_service (Some motor_schema) ]>
  (<[ "move_motors" :=
      services.mkService move_motors_service (Some move_motors_schema) ]>
   per_ratio)))).

End Remote.
End remote.

(* ===================================================================== *)
(** ** const.py                                                           *)
(* ===================================================================== *)

Module const.
Definition DOMAIN : string := "seymour".
Definition NAME : string := "Seymour Screen Masking".
Definition MANUFACTURER : string := "Seymour Screen Excellence".
Definition SEYMOUR_UPDATE_SIGNAL : string := "seymour_update".
End const.

(* ===================================================================== *)
(** ** select.py                                                          *)
(* ===================================================================== *)

Module select.

(** [SeymourSelect.set_states]: the options are re-read from the
    tables of the device.  (A [gmap] lists its values in key order,
    a Python dict in insertion order.) *)
Definition set_states (device : Device) (self : Entity) : Entity :=
  let s := mask_ratio_settings device in
  let with_options (o : list string) :=
    mkEntity (entity_class self) (description_key self)
      (attr_unique_id self) o in
  if String.eqb (description_key self) "ratio" then
    with_options (label <$> (map_to_list (ratios s)).*2)
  else if String.eqb (description_key self) "motor_id" then
    with_options (map_to_list (motors s)).*2
  else if String.eqb (description_key self) "movement_code" then
    with_options (map_to_list (movement_codes s)).*2
  else self.

(** [SeymourSelect.current_option].  For the ratio select the lookup is
    guarded by [current_ratio in ratios]; inside the guard
    [current_ratio] is an integer key, [int()] leaves it as it is and
    [ratios.get] finds it. *)
Definition current_option (device : Device) (self : Entity) : res string :=
  let s := mask_ratio_settings device in
  if String.eqb (description_key self) "ratio" then
    if bool_decide (is_Some (dict_get (ratios s) (current_ratio s))) then
      match dict_get (ratios s) (current_ratio s) with
      | Some info => Return (label info)
      | None => Raise (mkExn AttributeError
                         "'NoneType' object has no attribute 'label'")
      end
    else Return ""
  else if String.eqb (description_key self) "motor_id" then
    Return (default "" (str_dict_get (motors s) (current_motor_id s)))
  else if String.eqb (description_key self) "movement_code" then
    if bool_decide (current_movement_code s ≠ VNone) then
      Return (default "" (str_dict_get (movement_codes s)
                            (current_movement_code s)))
    else Return "Move Motor(s) to Limit"
  else Return "".

(** The descriptions of the three selects: key, name and icon. *)
Definition SELECTS : list (string * string * string) :=
  [ ("motor_id", "Select Motor to be Controlled", "mdi:engine");
    ("movement_code", "Select Motor Movement Mode", "mdi:cog");
    ("ratio", "Set Screen Mask Aspect Ratio", "mdi:aspect-ratio") ].

(** [SeymourSelect.icon]: the movement-mode select shows its mode,
    every other case shows the icon of the description. *)
Definition icon (device : Device) (self : Entity) (description_icon : string)
  : string :=
  if String.eqb (description_key self) "movement_code" then
    let movement_code := current_movement_code (mask_ratio_settings device) in
    if bool_decide (movement_code = VStr "J") then "mdi:run"
    else if bool_decide (movement_code = VStr "P") then "mdi:percent"
    else description_icon
  else description_icon.

Section Select.
Context {Env : Type} `{!DeviceModule Env}.
Local Open Scope glue_scope.

(** The loop of [async_select_option] over [ratios.items()]: the first
    ratio whose label is the option ends the method, with a call of
    [select_ratio] when the device has that method and with an error
    line when it has not.  [hasattr] is [hasattr(self.device, name)]. *)
Fixpoint select_ratio_by_label (hasattr : string → bool) (option : PyVal)
    (items : list (Z * RatioInfo)) : M Env unit :=
  match items with
  | [] => ret tt
  | (key, value) :: rest =>
      if bool_decide (VStr (label value) = option) then
        if hasattr "select_ratio" then
          _ <~ await_device "select_ratio" [VInt key] ;; ret tt
        else log ERROR "Device does not support ratio selection"
      else select_ratio_by_label hasattr option rest
  end.

(** The loop over [motors.items()]: a motor with the label of the option
    ends the method only when the device has [select_motor]. *)
Fixpoint select_motor_by_label (hasattr : string → bool) (option : PyVal)
    (items : list (string * string)) : M Env unit :=
  match items with
  | [] => ret tt
  | (key, value) :: rest =>
      if bool_decide (VStr value = option) then
        if hasattr "select_motor" then
          _ <~ await_device "select_motor" [VStr key] ;; ret tt
        else select_motor_by_label hasattr option rest
      else select_motor_by_label hasattr option rest
  end.

(** The loop over [movement_codes.items()]. *)
Fixpoint select_mode_by_label (option : PyVal)
    (items : list (string * string)) : M Env unit :=
  match items with
  | [] => ret tt
  | (key, value) :: rest =>
      if bool_decide (VStr value = option) then
        _ <~ await_device "select_movement_mode" [VStr key] ;; ret tt
      else select_mode_by_label option rest
  end.

(** [SeymourSelect.async_select_option].  (The tables are walked in key
    order here, in insertion order by Python.) *)
Definition async_select_option (hasattr : string → bool) (self : Entity)
    (option : PyVal) : M Env unit :=
  device <~ get_device ;;
  let s := mask_ratio_settings device in
  if String.eqb (description_key self) "ratio" then
    select_ratio_by_label hasattr option (map_to_list (ratios s))
  else if String.eqb (description_key self) "motor_id" then
    select_motor_by_label hasattr option (map_to_list (motors s))
  else if String.eqb (description_key self) "movement_code" then
    if bool_decide (option = VNone) || bool_decide (option = VStr "N") then
      _ <~ await_device "select_movement_mode" [VNone] ;; ret tt
    else select_mode_by_label option (map_to_list (movement_codes s))
  else log ERROR "Invalid option selected: %s".

End Select.

End select.

(* ===================================================================== *)
(** ** sensor.py                                                          *)
(* ===================================================================== *)

Module sensor.

Record SeymourSensorEntityDescription : Type := mkDescription {
  key : string;
  name : string;
  motor_id : option string;
  motor_index : option Z;
  value_fn : Device → res PyVal;
}.

(** [d[k].attr] on the ratio table: a missing key raises [KeyError]. *)
Definition subscript_ratio (device : Device) (attr : RatioInfo → PyVal)
  : res PyVal :=
  let s := mask_ratio_settings device in
  match dict_get (ratios s) (current_ratio s) with
  | Some info => Return (attr info)
  | None => Raise (mkExn KeyError "current_ratio")
  end.

(** [d.get(k, default)] on an association list. *)
Fixpoint assoc_get (l : list (PyVal * string)) (k : PyVal) : option string :=
  match l with
  | [] => None
  | (k', v) :: l' => if py_eq k' k then Some v else assoc_get l' k
  end.

Section Sensor.
Context {Env : Type} `{!DeviceModule Env}.
Local Open Scope glue_scope.

Definition SENSOR_TYPES : list SeymourSensorEntityDescription :=
  [ mkDescription "current_ratio_id" "Current Aspect Ratio" None None
      (fun device => Return (ratio_id (current_ratio_status device)));
    mkDescription "current_status_code" "Current Status" None None
      (fun device =>
         Return (VStr (default "Unknown"
                         (assoc_get STATUS_CODES
                            (status_code (current_ratio_status device))))));
    mkDescription "num_motors" "Number of Motors" None None
      (fun device =>
         Return (VInt (Z.of_N (num_motors (current_motor_positions device)))));
    mkDescription "num_ratios" "Number of Ratios" None None
      (fun device =>
         Return (VInt (Z.of_N (num_ratios (mask_ratio_settings device)))));
    mkDescription "width" "Screen Width" None None
      (fun device => subscript_ratio device width);
    mkDescription "height" "Screen Height" None None
      (fun device => subscript_ratio device height);
    mkDescription "diagonal" "Screen Diagonal" None None
      (fun device => subscript_ratio device diagonal) ].

(** The body of the [try] of [native_value], for a per-motor sensor. *)
Definition motor_value (description : SeymourSensorEntityDescription)
    (motor : string) (device : Device) : M Env PyVal :=
  let current_ratio_id := current_ratio (mask_ratio_settings device) in
  match dict_get (ratios (mask_ratio_settings device)) current_ratio_id with
  | None => log WARNING "Current ratio '%s' not found" ;;; ret VNone
  | Some current_ratio =>
      let raw_mask_ids := mask_ids (system_info device) in
      if String.eqb raw_mask_ids "" then
        log WARNING "Mask IDs are missing or empty" ;;; ret VNone
      else
        let mask_ids_list :=
          if pystr.contains "," raw_mask_ids then
            (fun id => pystr.upper (pystr.strip id))
              <$> pystr.split ","%char raw_mask_ids
          else pystr.chars (pystr.upper raw_mask_ids) in
        let motor_label := pystr.upper motor in
        match pystr.list_index motor_label mask_ids_list with
        | None =>
            log WARNING "Motor label '%s' is not in mask IDs %s" ;;; ret VNone
        | Some i =>
            let motor_index := Z.of_nat i + 1 in
            match ratio_motors current_ratio !! motor_index with
            | None =>
                log WARNING
                  "Motor info not found for motor index '%d' in ratio '%s'" ;;;
                ret VNone
            | Some motor_info =>
                if pystr.contains "position" (key description) then
                  match position motor_info with
                  | Some p => ret (VInt p)
                  | None =>
                      log WARNING
                        "Position is not set for motor index '%d' in ratio '%s'" ;;;
                      ret VNone
                  end
                else if pystr.contains "adjustment" (key description) then
                  match adjustment motor_info with
                  | Some a => ret (VInt a)
                  | None =>
                      log WARNING
                        "Adjustment is not set for motor index '%d' in ratio '%s'" ;;;
                      ret VNone
                  end
                else
                  log WARNING
                    "Sensor key '%s' does not match 'position' or 'adjustment'" ;;;
                  ret VNone
            end
        end
  end.

(** [SeymourSensor.native_value]: per-motor sensors (a non-empty
    [motor_id] and a [motor_index]) compute their value under a [try];
    every other sensor returns [value_fn(device)] as it is. *)
Definition native_value (description : SeymourSensorEntityDescription)
  : M Env PyVal :=
  device <~ get_device ;;
  match motor_id description, motor_index description with
  | Some motor, Some _ =>
      if String.eqb motor "" then lift (value_fn description device)
      else
        try_except (motor_value description motor device)
          [ (ValueError, fun error =>
               log ERROR
                 "ValueError while calculating motor index for motor ID '%s': %s" ;;;
               ret VNone);
            (KeyError, fun error =>
               log ERROR
                 "KeyError while retrieving motor data for motor index '%s': %s" ;;;
               ret VNone);
            (TypeError, fun error =>
               log ERROR
                 "TypeError while retrieving motor data for motor index '%s': %s" ;;;
               ret VNone) ]
  | _, _ => lift (value_fn description device)
  end.

(** [ord(c)] *)
Definition ord (c : ascii) : Z := Z.of_N (Ascii.N_of_ascii c).

(** The two descriptions [async_setup_entry] appends for one character
    of [mask_ids]. *)
Definition motor_descriptions (motor_id : ascii)
  : list SeymourSensorEntityDescription :=
  let motor_label := pystr.upper (String motor_id EmptyString) in
  let motor_desc := default motor_label (MOTOR_IDS !! motor_label) in
  [ mkDescription ("motor_" +:+ motor_label +:+ "_position")
      ("Motor " +:+ motor_desc +:+ " Position")
      (Some motor_label) (Some (ord (pystr.upper_char motor_id) - ord "A"))
      (fun device => Return VNone);
    mkDescription ("motor_" +:+ motor_label +:+ "_adjustment")
      ("Motor " +:+ motor_desc +:+ " Adjustment")
      (Some motor_label) (Some (ord (pystr.upper_char motor_id) - ord "A"))
      (fun device => Return VNone) ].

(** The description appended for one key of
    [current_motor_positions.motors]. *)
Definition position_description (motor_id : string)
  : SeymourSensorEntityDescription :=
  let motor_desc := default motor_id (MOTOR_IDS !! motor_id) in
  mkDescription ("motor_" +:+ motor_id +:+ "_current_position")
    ("Current " +:+ motor_desc +:+ " Motor Position")
    (Some motor_id) None
    (fun device =>
       Return (match position_of (current_motor_positions device) !! motor_id with
               | Some p => VInt p
               | None => VNone
               end)).

(** The descriptions of the sensors [async_setup_entry] creates, in
    order: the fixed ones, two per character of [mask_ids], one per
    motor with a known position. *)
Definition async_setup_entry (device : Device)
  : list SeymourSensorEntityDescription :=
  SENSOR_TYPES
  ++ (if negb (String.eqb (mask_ids (system_info device)) "") then
        String.list_ascii_of_string (mask_ids (system_info device))
          ≫= motor_descriptions
      else [])
  ++ (position_description
        <$> (map_to_list (position_of (current_motor_positions device))).*1).

End Sensor.
End sensor.

(* ===================================================================== *)
(** ** switch.py and entity.py                                            *)
(* ===================================================================== *)

Module switch.

(** [SeymourSwitch.set_states]: for the jog switch the body is [pass]. *)
Definition set_states (device : Device) (self : Entity) : Entity :=
  if String.eqb (description_key self) "jog_mode" then self else self.

End switch.

Module entity.

(** [SeymourEntity.set_states]: the base method has no body. *)
Definition set_states (device : Device) (self : Entity) : Entity := self.

(** Which [set_states] a call on [self] resolves to: the select and the
    switch override it, the button, the remote and the sensor inherit
    the base method. *)
Definition resolve_set_states (device : Device) (self : Entity) : Entity :=
  match entity_class self with
  | SeymourSelect => select.set_states device self
  | SeymourSwitch => switch.set_states device self
  | SeymourButton | SeymourRemote | SeymourSensor =>
      set_states device self
  end.

Section Entity.
Context {Env : Type} `{!DeviceModule Env}.
Local Open Scope glue_scope.

(** [self.set_states()] on the entity at position [self]. *)
Definition call_set_states (self : nat) : M Env unit :=
  device <~ get_device ;;
  emit (SetStates self) ;;;
  modify_entities (alter (resolve_set_states device) self).

(** [self.async_write_ha_state()] *)
Definition async_write_ha_state (self : nat) : M Env unit :=
  emit (WriteHaState self).

(** The closure [_update] of [async_added_to_hass]; it has no
    parameter. *)
Definition _update (self : nat) : M Env unit :=
  call_set_states self ;;;
  async_write_ha_state self.

(** [async_dispatcher_connect(hass, signal, target)] *)
Definition async_dispatcher_connect (signal : string) (target : nat)
  : M Env unit :=
  modify_dispatcher (fun d => (d ++ [(signal, target)])%list).

Definition async_added_to_hass (self : nat) : M Env unit :=
  async_dispatcher_connect const.SEYMOUR_UPDATE_SIGNAL self.

(** [async_dispatcher_send(hass, signal, args)]: every target connected
    to the signal is called with the arguments of the send.  The
    targets of this integration are [_update] closures, which take none:
    a call with arguments fails with a [TypeError], which the
    dispatcher logs. *)
Definition async_dispatcher_send (signal : string) (args : list PyVal)
  : M Env unit :=
  emit (DispatcherSend signal args) ;;;
  connections <~ get_dispatcher ;;
  for_each (filter (fun c => c.1 = signal) connections)
    (fun c =>
       match args with
       | [] => _update c.2
       | _ :: _ => log ERROR "Exception in _update when dispatching '%s': %s"
       end).

End Entity.
End entity.

(** The methods of [SeymourSwitch] (switch.py) that act on the device.
    [key] is [self.entity_description.key]. *)
Module SeymourSwitch.
Section SeymourSwitch.
Context {Env : Type} `{!DeviceModule Env}.
Local Open Scope glue_scope.

Definition async_turn_on (self : nat) (key : string) : M Env unit :=
  if String.eqb key "jog_mode" then
    _ <~ await_device "toggle_jog" [] ;;
    entity.call_set_states self
  else ret tt.

Definition async_turn_off (self : nat) (key : string) : M Env unit :=
  if String.eqb key "jog_mode" then
    _ <~ await_device "toggle_jog" [] ;;
    entity.call_set_states self
  else ret tt.

End SeymourSwitch.
End SeymourSwitch.

(* ===================================================================== *)
(** ** button.py                                                          *)
(* ===================================================================== *)

Module button.
Section Button.
Context {Env : Type} `{!DeviceModule Env}.
Local Open Scope glue_scope.

(** [press_action] is the call the lambda of the description makes on
    the device. *)
Record SeymourButtonEntityDescription : Type := mkDescription {
  icon : string;
  key : string;
  name : string;
  press_action : M Env PyVal;
}.

Definition BUTTONS : list SeymourButtonEntityDescription :=
  [ mkDescription "mdi:wrench" "calibrate" "Calibrate Motor(s)"
      (await_device "calibrate" []);
    mkDescription "mdi:octagon-outline" "halt" "Halt Motor(s)"
      (await_device "halt" []);
    mkDescription "mdi:home-circle-outline" "home" "Home Motor(s)"
      (await_device "home" []);
    mkDescription "mdi:arrow-collapse-horizontal" "move_motors_in"
      "Move Motor(s) In" (await_device "move_motors" [VStr "in"]);
    mkDescription "mdi:arrow-expand-horizontal" "move_motors_out"
      "Move Motor(s) Out" (await_device "move_motors" [VStr "out"]);
    mkDescription "mdi:refresh" "positions" "Get Motor Positions"
      (await_device "get_positions" []);
    mkDescription "mdi:refresh" "settings_info" "Get Settings Info"
      (await_device "get_settings_info" []);
    mkDescription "mdi:refresh" "status" "Get Ratio Status"
      (await_device "get_status" []);
    mkDescription "mdi:refresh" "system_info" "Get System Info"
      (await_device "get_system_info" []);
    mkDescription "mdi:resize" "update_ratio" "Update Selected Ratio"
      (await_device "update" []) ].

(** [SeymourButton.async_press] *)
Definition async_press (description : SeymourButtonEntityDescription)
  : M Env unit :=
  log DEBUG "Button pressed: %s" ;;;
  _ <~ press_action description ;;
  ret tt.

End Button.
End button.

(* ===================================================================== *)
(** ** __init__.py                                                        *)
(* ===================================================================== *)

Module init.

Definition PLATFORMS : list Platform := [BUTTON; REMOTE; SELECT; SENSOR].

(** How the [try] block of [async_setup_entry] is left without an
    exception: by one of its [return] statements or at its end.
    [OutOfFuel] is not a behaviour of the program: it is the answer of
    the embedding when the loop was given too few iterations. *)
Inductive Flow : Type :=
| Returned (value : bool)
| FellThrough
| OutOfFuel.

(** [device.system_info = SystemInfo(entry.data)] *)
Definition set_system_info (info : SystemInfo) (d : Device) : Device :=
  mkDevice info (mask_ratio_settings d) (current_motor_positions d)
    (current_ratio_status d).

Section Init.
Context {Env : Type} `{!DeviceModule Env}.
Local Open Scope glue_scope.

(** The update callback handed to the device client. *)
Definition seymour_update_callback (message : string) : M Env unit :=
  entity.async_dispatcher_send const.SEYMOUR_UPDATE_SIGNAL [].

(** [while not num_motors and elapsed_time < timeout:
       await asyncio.sleep(interval); elapsed_time += interval]
    with at most [fuel] evaluations of the condition; the result is the
    final [elapsed_time], or [None] when the fuel ran out. *)
Fixpoint wait_for_motors (fuel : nat) (timeout interval elapsed_time : float)
  : M Env (option float) :=
  match fuel with
  | O => ret None
  | S fuel' =>
      device <~ get_device ;;
      if (num_motors (current_motor_positions device) =? 0)%N
         && (elapsed_time <? timeout)%float
      then
        asyncio_sleep interval ;;;
        wait_for_motors fuel' timeout interval (elapsed_time + interval)%float
      else ret (Some elapsed_time)
  end.

Definition setup_try_body (fuel : nat) : M Env Flow :=
  _ <~ await_device "connect" [] ;;
  _ <~ await_device "get_settings_info" [] ;;
  _ <~ await_device "get_status" [] ;;
  _ <~ await_device "get_positions" [] ;;
  let timeout := 10%float in
  let interval := 0.5%float in
  let elapsed_time := 0%float in
  waited <~ wait_for_motors fuel timeout interval elapsed_time ;;
  match waited with
  | None => ret OutOfFuel
  | Some _ =>
      device <~ get_device ;;
      if (num_motors (current_motor_positions device) =? 0)%N then
        log ERROR "Timed out waiting for motor positions to be populated" ;;;
        ret (Returned false)
      else ret FellThrough
  end.

(** The statements before the [try]. *)
Definition prepare (entry_data : SystemInfo) : M Env unit :=
  log INFO "STARTUP_MESSAGE" ;;;
  modify_device (set_system_info entry_data) ;;;
  log DEBUG "System Info:\n%s".

(** [async_setup_entry(hass, entry)].  The world's device is the object
    the constructor [Device(port, seymour_update_callback)] returned;
    [entry_data] is the stored system information.  The result is
    [None] only when [fuel] was too small for the polling loop. *)
Definition async_setup_entry (fuel : nat) (entry_data : SystemInfo)
  : M Env (option bool) :=
  prepare entry_data ;;;
  flow <~ try_except (setup_try_body fuel)
            [ (TimeoutError, fun e =>
                 log ERROR "Connection to Seymour device timed out: %s" ;;;
                 ret (Returned false));
              (OSError, fun e =>
                 log ERROR "OS error while connecting to Seymour device: %s" ;;;
                 ret (Returned false)) ] ;;
  match flow with
  | Returned value => ret (Some value)
  | OutOfFuel => ret None
  | FellThrough =>
      emit StoreEntry ;;;
      emit ListenStop ;;;
      emit (ForwardEntrySetups PLATFORMS) ;;;
      ret (Some true)
  end.

(** [async_unload_entry(hass, entry)].  [hass_data] is [hass.data]: per
    domain, the stored entries, each with whether its ["disconnect"] is
    set; the stored [disconnect] closes the device.  [unloaded] is what
    [hass.config_entries.async_unload_platforms] answers.  The result is
    [hass.data] after the call and the returned value. *)
Definition async_unload_entry (unloaded : bool)
    (hass_data : gmap string (gmap string bool)) (entry_id : string)
  : M Env (gmap string (gmap string bool) * bool) :=
  match hass_data !! const.DOMAIN with
  | Some entries =>
      match entries !! entry_id with
      | Some true => _ <~ await_device "close" [] ;; ret tt
      | _ => ret tt
      end
  | None => ret tt
  end ;;;
  match hass_data !! const.DOMAIN with
  | None => raise KeyError const.DOMAIN
  | Some entries =>
      ret (<[const.DOMAIN := delete entry_id entries]> hass_data, unloaded)
  end.

End Init.
End init.

(* ===================================================================== *)
(** ** config_flow.py                                                     *)
(* ===================================================================== *)

Module config_flow.

(** What pyserial does on one port, as far as
    [_query_serial_device] can tell: whether [serial.Serial(port,
    baudrate, timeout)] opens, whether [ser.write] goes through, and the
    outcome of [ser.read_until(b"]").decode()], the reply as text or
    the exception of the read or of the decoding. *)
Record SerialPort : Type := mkSerialPort {
  open_error : string → Z → option exn;
  write_error : string → option exn;
  read_until_decoded : res string;
}.

(** The frame [_query_serial_device] writes. *)
Definition identification_frame : string := "[01Y]".

(** The [try] block: the frames handed to [ser.write], and the value
    returned from inside the block ([None] when the block is left at
    its end). *)
Definition query_try_body (BAUDRATE : Z) (ser : SerialPort) (port : string)
  : list string * res (option string) :=
  match open_error ser port BAUDRATE with
  | Some e => ([], Raise e)
  | None =>
      match write_error ser identification_frame with
      | Some e => ([identification_frame], Raise e)
      | None =>
          ([identification_frame],
           match read_until_decoded ser with
           | Raise e => Raise e
           | Return text =>
               let response := pystr.strip text in
               if pystr.startswith response "[01"
                  && pystr.endswith response "]"
               then Return (Some response)
               else Return None
           end)
      end
  end.

(** [_query_serial_device(port)]: the four [except] clauses log and
    fall through to [return None]; any other exception propagates. *)
Definition _query_serial_device (BAUDRATE : Z) (ser : SerialPort)
    (port : string) : list string * res (option string) :=
  let '(written, r) := query_try_body BAUDRATE ser port in
  (written,
   match r with
   | Return (Some response) => Return (Some response)
   | Return None => Return None
   | Raise e =>
       if isinstance e SerialException then Return None
       else if isinstance e UnicodeDecodeError then Return None
       else if isinstance e ValueError then Return None
       else if isinstance e OSError then Return None
       else Raise e
   end).

(** The wire format of the specification: an opening bracket, an
    address of two characters, a command of two characters, a payload
    and a closing bracket. *)
Definition wire_format (frame : string) : Prop :=
  ∃ addr cmd payload : string,
    String.length addr = 2%nat ∧ String.length cmd = 2%nat ∧
    frame = "[" +:+ addr +:+ cmd +:+ payload +:+ "]".

(** What a step of the flow answers. *)
Inductive FlowResult : Type :=
| Abort (reason : string)
| ShowForm (step_id : string) (error : option string)
    (choices : list string) (default : option string)
    (placeholders : list (string * string))
| CreateEntry (title : string) (data : SystemInfo) (serial_port : string).


(** [_is_valid_port(port)] *)
Definition _is_valid_port (port : string) : bool :=
  pystr.startswith port "/dev/".

(** [_discover_serial_ports()], on the devices [comports()] lists. *)
Definition _discover_serial_ports (comports : list string) : list string :=
  filter (fun device => device ≠ "") comports.




Section ConfigFlow.
Context {Env : Type} `{!DeviceModule Env}.
Local Open Scope glue_scope.

(** [_configure_device(port)].  The world's device is the object
    [Device(port, None)]; [read_info=True] is passed as the integer 1,
    which is what [True] is.  The result is the system information of
    the answer with the port. *)
Definition _configure_device (port : string) : M Env (SystemInfo * string) :=
  _ <~ await_device "connect" [VInt 1] ;;
  device <~ get_device ;;
  ret (system_info device, port).

(** The [try ... except TimeoutError ... else] both steps share: the
    entry, the abort of a unique id that is already configured, or
    [None] after a time-out, which is logged with [fmt]. *)
Definition configure_and_create (configured : string → bool) (port : string)
    (unique_id : SystemInfo → string) (fmt : string)
  : M Env (option FlowResult) :=
  outcome <~ try_except
               (info <~ _configure_device port ;; ret (Some info))
               [ (TimeoutError, fun e =>
                    log ERROR fmt ;;; ret None) ] ;;
  match outcome with
  | None => ret None
  | Some info =>
      if configured (unique_id info.1) then ret (Some (Abort "already_configured"))
      else ret (Some (CreateEntry ("Seymour Controller (" +:+ port +:+ ")")
                        info.1 info.2))
  end.

(** [async_step_user(user_input)]; [comports] are the devices
    [comports()] lists, [user_input] the port of the submitted form. *)
Definition async_step_user (configured : string → bool) (comports : list string)
    (user_input : option string) : M Env FlowResult :=
  let available_ports := _discover_serial_ports comports in
  for_each comports (fun port => log DEBUG "Port details: %s") ;;;
  log DEBUG "Discovered serial ports: %s" ;;;
  let form (error : option string) :=
    ShowForm "user" error
      (match available_ports with [] => ["/dev/ttyUSB0"] | _ => available_ports end)
      (Some (match available_ports with [] => "/dev/ttyUSB0" | p :: _ => p end))
      [("example_port", "/dev/ttyUSB0")] in
  match user_input with
  | None => ret (form None)
  | Some port =>
      if negb (_is_valid_port port) then ret (form (Some "invalid_port"))
      else
        outcome <~ configure_and_create configured port serial_number
                     "Failed to connect to device: %s" ;;
        match outcome with
        | Some answer => ret answer
        | None => ret (form (Some "connection_failed"))
        end
  end.


End ConfigFlow.

End config_flow.

(* ===================================================================== *)
(** ** The jog toggle of the device client                                *)
(* ===================================================================== *)

(** Modelled from the spec: [SeymourScreenController.toggle_jog] of
    [pySeymour.device], which the switch calls and which is not part of
    the glue.  Section 4.5: "flips current_movement_code between "J" and
    "none" (a design simplification matching the one-switch UI)", and
    section 8: "called twice returns current_movement_code to its
    original value".  Jog mode is switched off when it is on and on when
    no mode is selected; any other mode (percent) is not part of the
    flip and is left as it is. *)
Definition toggle_jog (d : Device) : Device :=
  let code := current_movement_code (mask_ratio_settings d) in
  set_current_movement_code
    (if bool_decide (code = VStr "J") then VNone
     else if bool_decide (code = VNone) then VStr "J"
     else code)
    d.

(* ===================================================================== *)
(** ** Reading traces                                                     *)
(* ===================================================================== *)

(** The device operations of a trace, in order. *)
Fixpoint device_calls (t : list Event) : list (string * list PyVal) :=
  match t with
  | [] => []
  | DeviceCall m args :: t' => (m, args) :: device_calls t'
  | _ :: t' => device_calls t'
  end.

(** The durations of the sleeps of a trace, in order. *)
Fixpoint sleeps (t : list Event) : list float :=
  match t with
  | [] => []
  | Sleep s :: t' => s :: sleeps t'
  | _ :: t' => sleeps t'
  end.

(** Whether set-up forwarded the entry to the platforms, which is what
    creates the entities. *)
Definition entities_created (t : list Event) : bool :=
  existsb (fun ev => match ev with ForwardEntrySetups _ => true | _ => false end) t.

(** [elapsed_time] after [k] rounds of the polling loop. *)
Fixpoint elapsed_after (k : nat) : float :=
  match k with
  | O => 0%float
  | S k' => (elapsed_after k' + 0.5)%float
  end.

(** The environment and the device after [k] sleeps of half a second,
    during which the device client goes on behind the glue. *)
Fixpoint after_sleeps {Env : Type} `{!DeviceModule Env} (k : nat)
    (env : Env) (dev : Device) : Env * Device :=
  match k with
  | O => (env, dev)
  | S k' => let '(env', dev') := background 0.5 env dev in after_sleeps k' env' dev'
  end.

(** [num_motors] as the [k]-th evaluation of the loop condition reads
    it. *)
Definition motors_after {Env : Type} `{!DeviceModule Env} (k : nat)
    (env : Env) (dev : Device) : N :=
  num_motors (current_motor_positions (after_sleeps k env dev).2).

(** The entities connected to a signal. *)
Definition subscribers {Env : Type} (signal : string) (w : World Env) : list nat :=
  (filter (fun c => c.1 = signal) (w_dispatcher w)).*2.

(* ===================================================================== *)
(** ** A simulated controller                                             *)
(* ===================================================================== *)

(** A small stand-in for the device client, used to run the glue on
    concrete inputs: the listed methods raise the given exception, every
    other method succeeds, [toggle_jog] flips the movement code, and the
    motor positions arrive during the [arrival]-th sleep, if ever. *)
Module sim.

Record Env : Type := mkEnv {
  failing : list (string * exn);
  arrival : option nat;
  slept : nat;
}.

Fixpoint failure_of (l : list (string * exn)) (method : string) : option exn :=
  match l with
  | [] => None
  | (m, e) :: l' => if String.eqb m method then Some e else failure_of l' method
  end.

Definition report_positions (d : Device) : Device :=
  mkDevice (system_info d) (mask_ratio_settings d)
    (mkMotorPositions 4
       (<["T" := 10]> (<["B" := 20]> (<["L" := 30]> {["R" := 40]}))))
    (current_ratio_status d).

#[global] Instance controller : DeviceModule Env := {|
  device_call method args env dev :=
    match failure_of (failing env) method with
    | Some e => (env, dev, Raise e)
    | None =>
        if String.eqb method "toggle_jog" then (env, toggle_jog dev, Return VNone)
        else (env, dev, Return VNone)
    end;
  background seconds env dev :=
    let n := S (slept env) in
    (mkEnv (failing env) (arrival env) n,
     match arrival env with
     | Some k => if (k <=? n)%nat then report_positions dev else dev
     | None => dev
     end);
  MOTOR_IDS :=
    <["T" := "Top"]> (<["B" := "Bottom"]> (<["L" := "Left"]> {["R" := "Right"]}));
  STATUS_CODES := [(VInt 0, "Idle"); (VInt 1, "Moving")];
|}.

Definition ratio_16_9 : RatioInfo :=
  mkRatioInfo "16:9" (VInt 100) (VInt 56) (VInt 115)
    {[ 1 := mkMotorInfo (Some 10) (Some 0) ]}.

Definition ratio_scope : RatioInfo :=
  mkRatioInfo "2.35:1" (VInt 100) (VInt 43) (VInt 109)
    {[ 1 := mkMotorInfo (Some 25) None ]}.

(** A device with two ratios and no positions yet, with the given
    selected ratio and movement code. *)
Definition device (selected_ratio movement_code : PyVal) : Device :=
  mkDevice
    (mkSystemInfo "SN1" "Model" "1.0" (VInt 100) (VInt 56) "TBLR")
    (mkMaskRatioSettings 2
       (<[1 := ratio_16_9]> {[2 := ratio_scope]})
       (<["T" := "Top"]> {["B" := "Bottom"]})
       (<["J" := "Jog"]> {["P" := "Percent"]})
       selected_ratio VNone movement_code)
    (mkMotorPositions 0 ∅)
    (mkRatioStatus (VInt 1) (VInt 0)).

Definition world (env : Env) (d : Device) : World Env :=
  mkWorld env d [] [] [].

Definition healthy : Env := mkEnv [] (Some 3%nat) 0.
Definition silent : Env := mkEnv [] None 0.
Definition unplugged : Env :=
  mkEnv [("connect", mkExn TimeoutError "no reply")] None 0.
Definition flaky (method : string) : Env :=
  mkEnv [(method, mkExn ConnectionError "link down")] None 0.

(** A serial port that opens and answers the identification query. *)
Definition port : config_flow.SerialPort :=
  config_flow.mkSerialPort (fun _ _ => None) (fun _ => None)
    (Return "[01Seymour        ]").

End sim.

(* ===================================================================== *)
(** * Properties                                                          *)
(* ===================================================================== *)

(** ** Schemas and the service registry *)

Lemma elem_of_keys {V : Type} (m : gmap Z V) (k : Z) :
  k ∈ (map_to_list m).*1 ↔ is_Some (m !! k).
Proof.
  rewrite list_elem_of_fmap. split.
  - intros [[k' x] [-> Hin]]. apply elem_of_map_to_list in Hin. by exists x.
  - intros [x Hx]. exists (k, x). split; [done |]. by apply elem_of_map_to_list.
Qed.

Lemma elem_of_str_keys {V : Type} (m : gmap string V) (k : string) :
  k ∈ (map_to_list m).*1 ↔ is_Some (m !! k).
Proof.
  rewrite list_elem_of_fmap. split.
  - intros [[k' x] [-> Hin]]. apply elem_of_map_to_list in Hin. by exists x.
  - intros [x Hx]. exists (k, x). split; [done |]. by apply elem_of_map_to_list.
Qed.

(** What a lookup in an int-keyed dict finds is held by some key. *)
Lemma dict_get_Some {V : Type} (d : gmap Z V) (k : PyVal) (v : V) :
  dict_get d k = Some v → ∃ z, d !! z = Some v.
Proof.
  destruct k as [| b | z | f | s]; cbn [dict_get]; try discriminate; eauto.
  destruct (float_as_Z f) as [z |]; [| discriminate]. cbn. eauto.
Qed.

(** Only a string is equal to a string, and only [None] to [None]. *)
Lemma py_eq_str (x : PyVal) (s : string) : py_eq x (VStr s) = true ↔ x = VStr s.
Proof.
  destruct x as [| b | z | f | t]; cbn; try (split; discriminate).
  rewrite String.eqb_eq. split; congruence.
Qed.

Lemma py_eq_none (x : PyVal) : py_eq x VNone = true ↔ x = VNone.
Proof. destruct x; cbn; split; congruence. Qed.

Lemma py_in_spec (x : PyVal) (l : list PyVal) :
  py_in x l = true ↔ ∃ y, y ∈ l ∧ py_eq x y = true.
Proof.
  unfold py_in. rewrite existsb_exists.
  split; intros (y & Hy & Heq); exists y; split; try done;
    by apply list_elem_of_In.
Qed.

(** Membership in a list of strings is structural. *)
Lemma py_in_strs (x : PyVal) (l : list string) :
  py_in x (VStr <$> l) = true ↔ ∃ s, x = VStr s ∧ s ∈ l.
Proof.
  rewrite py_in_spec. split.
  - intros (y & (s & -> & Hs)%list_elem_of_fmap & Heq).
    exists s. split; [by apply py_eq_str | done].
  - intros (s & -> & Hs). exists (VStr s).
    split; [apply list_elem_of_fmap; by exists s | by apply py_eq_str].
Qed.

(** A schema with one required key accepts exactly the dicts that hold
    that key alone, with a value that is in the container. *)
Lemma accepts_single_required (key : string) (container : list PyVal)
    (data : gmap string PyVal) :
  vol.accepts [(vol.Required key, vol.In container)] data = true ↔
  ∃ v, data = {[ key := v ]} ∧ py_in v container = true.
Proof.
  unfold vol.accepts. cbn [vol.insert_defaults vol.required_present forallb].
  rewrite andb_true_iff, andb_true_r, !bool_decide_eq_true. split.
  - intros [Hall [v Hv]]. exists v.
    pose proof (Hall _ _ Hv) as Hok. unfold vol.pair_ok in Hok.
    cbn in Hok. rewrite String.eqb_refl in Hok. cbn in Hok.
    split; [| done].
    apply map_eq. intros k. destruct (decide (k = key)) as [-> | Hne].
    + by rewrite lookup_singleton_eq.
    + rewrite lookup_singleton_ne by done.
      destruct (data !! k) as [x |] eqn:Hk; [| done].
      pose proof (Hall _ _ Hk) as Hbad. unfold vol.pair_ok in Hbad.
      cbn in Hbad. destruct (String.eqb_spec key k); [congruence | done].
  - intros [v [-> Hv]]. split.
    + apply map_Forall_singleton. unfold vol.pair_ok. cbn.
      rewrite String.eqb_refl. by cbn.
    + rewrite lookup_singleton_eq. by eexists.
Qed.

Section RegistryFacts.
Context {Env : Type} `{!DeviceModule Env}.

Lemma async_call_rejected (registry : gmap string services.Service)
    name svc s data (w : World Env) :
  registry !! name = Some svc → services.schema svc = Some s →
  vol.accepts s data = false →
  services.async_call registry name data w =
    (w, Raise (mkExn MultipleInvalid "invalid service data")).
Proof.
  intros Hreg Hs Hacc. unfold services.async_call, services.run_service.
  rewrite Hreg, Hs. unfold bind, lift, vol.validate. by rewrite Hacc.
Qed.

Lemma async_call_accepted (registry : gmap string services.Service)
    name svc s data (w : World Env) :
  registry !! name = Some svc → services.schema svc = Some s →
  vol.accepts s data = true →
  services.async_call registry name data w =
    services.handler svc (vol.insert_defaults s data) w.
Proof.
  intros Hreg Hs Hacc. unfold services.async_call, services.run_service.
  rewrite Hreg, Hs. unfold bind, lift, vol.validate. by rewrite Hacc.
Qed.

Lemma lookup_update_ratio (device : Device) :
  remote.async_setup_entry device !! "update_ratio" =
    Some (services.mkService remote.update_ratio_service
            (Some (remote.update_ratio_schema device))).
Proof. unfold remote.async_setup_entry. apply lookup_insert_eq. Qed.

Lemma lookup_move_motors (device : Device) :
  remote.async_setup_entry device !! "move_motors" =
    Some (services.mkService remote.move_motors_service
            (Some remote.move_motors_schema)).
Proof.
  unfold remote.async_setup_entry.
  do 4 (rewrite lookup_insert_ne by done). apply lookup_insert_eq.
Qed.

Lemma elem_of_options (device : Device) (v : PyVal) :
  v ∈ remote.options device ↔
  ∃ k, v = VInt k ∧
       (is_Some (ratios (mask_ratio_settings device) !! k) ∨ 990 ≤ k ≤ 999).
Proof.
  unfold remote.options, remote.ratio_id_list.
  rewrite elem_of_app, !list_elem_of_fmap. split.
  - intros [[k [-> Hk]] | [k [-> Hk]]]; exists k; split; try done.
    + left. by apply elem_of_keys.
    + right. apply elem_of_seqZ in Hk. lia.
  - intros [k [-> [Hk | Hk]]]; [left | right]; exists k; split; try done.
    + by apply elem_of_keys.
    + apply elem_of_seqZ. lia.
Qed.


Lemma py_in_options (device : Device) (v : PyVal) :
  py_in v (remote.options device) = true ↔
  ∃ k, py_eq v (VInt k) = true ∧
       (is_Some (ratios (mask_ratio_settings device) !! k) ∨ 990 ≤ k ≤ 999).
Proof.
  rewrite py_in_spec. split.
  - intros (y & (k & -> & Hk)%elem_of_options & Heq). by exists k.
  - intros (k & Heq & Hk). exists (VInt k). split; [| done].
    apply elem_of_options. by exists k.
Qed.


Lemma single_char_not_valid (c : ascii) :
  String c "" ∉ remote.VALID_COMMANDS.
Proof.
  unfold remote.VALID_COMMANDS.
  rewrite !elem_of_union, !elem_of_singleton.
  intros [[[? | ?] | ?] | ?]; discriminate.
Qed.

(** C8 (amended).  For a string command other than ["set_aspect_ratio"],
    [async_send_command] invokes no device operation and leaves the
    world untouched: a non-empty string raises [HomeAssistantError]
    naming its first character, the empty string returns normally. *)
Theorem send_command_string_never_reaches_device
    (command : string) (AR : PyVal) (w : World Env) :
  command ≠ "set_aspect_ratio" →
  remote.async_send_command (remote.CmdStr command) AR w =
    match command with
    | EmptyString => (w, Return tt)
    | String c _ =>
        (w, Raise (mkExn HomeAssistantError
                     (String c "" +:+ " is not a known command")))
    end.
Proof.
  intros Hne. unfold remote.async_send_command.
  cbn [remote.is_set_aspect_ratio].
  destruct (String.eqb_spec command "set_aspect_ratio") as [? | _]; [done |].
  destruct command as [| c rest]; [done |].
  cbn [remote.iterate String.list_ascii_of_string fmap list_fmap for_each].
  rewrite (bool_decide_eq_false_2 _ (single_char_not_valid c)).
  reflexivity.
Qed.

End RegistryFacts.

Lemma device_calls_app (a b : list Event) :
  device_calls (a ++ b) = (device_calls a ++ device_calls b)%list.
Proof.
  induction a as [| ev a IH]; [done |].
  destruct ev; cbn; by rewrite ?IH.
Qed.

Section MoveMotors.
Context {Env : Type} `{!DeviceModule Env}.

Lemma pair_ok_move_motors (k : string) (x : PyVal) :
  vol.pair_ok remote.move_motors_schema k x ↔
  (k = "direction" ∧ (x = VStr "in" ∨ x = VStr "out"))
  ∨ (k = "motor_id" ∧ ∃ m, x = VStr m ∧ is_Some (MOTOR_IDS !! m))
  ∨ (k = "movement_code" ∧ (x = VNone ∨ x = VStr "J" ∨ x = VStr "P")).
Proof.
  unfold vol.pair_ok, remote.move_motors_schema.
  cbn [vol.validator_for vol.marker_key].
  destruct (String.eqb_spec "direction" k) as [<- | Hd].
  { cbn [vol.check py_in existsb]. rewrite !orb_true_iff, !py_eq_str. split.
    - intros [? | [? | ?]]; [left; auto | left; auto | discriminate].
    - intros [[_ [? | ?]] | [[? _] | [? _]]]; auto; discriminate. }
  destruct (String.eqb_spec "motor_id" k) as [<- | Hm].
  { cbn [vol.check]. unfold remote.motor_id_keys. rewrite py_in_strs. split.
    - intros [m [-> Hin]]. right; left. split; [done |]. exists m.
      split; [done |]. by apply elem_of_str_keys.
    - intros [[? _] | [[_ [m [-> Hin]]] | [? _]]]; try discriminate.
      exists m. split; [done |]. by apply elem_of_str_keys. }
  destruct (String.eqb_spec "movement_code" k) as [<- | Hc].
  { cbn [vol.check existsb]. rewrite !orb_true_iff, py_eq_none, !py_eq_str. split.
    - intros [? | [? | [? | ?]]]; [right; right; auto .. | discriminate].
    - intros [[? _] | [[? _] | [_ [? | [? | ?]]]]]; auto; discriminate. }
  split; [done |]. intros [[? _] | [[? _] | [? _]]]; congruence.
Qed.

Lemma insert_defaults_move_motors (data : gmap string PyVal) :
  vol.insert_defaults remote.move_motors_schema data =
    match data !! "movement_code" with
    | Some _ => data
    | None => <["movement_code" := VNone]> data
    end.
Proof. reflexivity. Qed.

Lemma data_get_defaults_move_motors (data : gmap string PyVal) (k : string) :
  data_get (vol.insert_defaults remote.move_motors_schema data) k = data_get data k.
Proof.
  rewrite insert_defaults_move_motors. unfold data_get.
  destruct (data !! "movement_code") eqn:Hc; [done |].
  destruct (decide (k = "movement_code")) as [-> | Hne].
  - by rewrite lookup_insert_eq, Hc.
  - by rewrite lookup_insert_ne.
Qed.

Lemma accepts_move_motors (data : gmap string PyVal) :
  vol.accepts remote.move_motors_schema data = true ↔
  (data !! "direction" = Some (VStr "in") ∨ data !! "direction" = Some (VStr "out"))
  ∧ (∃ m, data !! "motor_id" = Some (VStr m) ∧ is_Some (MOTOR_IDS !! m))
  ∧ (data !! "movement_code" = None ∨ data !! "movement_code" = Some VNone
     ∨ data !! "movement_code" = Some (VStr "J")
     ∨ data !! "movement_code" = Some (VStr "P"))
  ∧ (∀ k, is_Some (data !! k) →
          k = "direction" ∨ k = "motor_id" ∨ k = "movement_code").
Proof.
  unfold vol.accepts. rewrite insert_defaults_move_motors.
  cbn [vol.required_present forallb remote.move_motors_schema].
  rewrite ?andb_true_r, !andb_true_iff, !bool_decide_eq_true.
  assert (Hsame : ∀ k, k ≠ "movement_code" →
            match data !! "movement_code" with
            | Some _ => data
            | None => <["movement_code" := VNone]> data
            end !! k = data !! k).
  { intros k Hk. destruct (data !! "movement_code"); [done |].
    by rewrite lookup_insert_ne. }
  rewrite !Hsame by done.
  assert (Hall : map_Forall (vol.pair_ok remote.move_motors_schema)
            match data !! "movement_code" with
            | Some _ => data
            | None => <["movement_code" := VNone]> data
            end ↔ map_Forall (vol.pair_ok remote.move_motors_schema) data).
  { destruct (data !! "movement_code") eqn:Hc; [done |].
    rewrite map_Forall_insert by done. split; [by intros [_ ?] |].
    intros Hd. split; [| done]. apply pair_ok_move_motors. auto. }
  rewrite Hall. clear Hall Hsame. split.
  - intros [Hall [[vd Hd] [vm Hm]]]. repeat split.
    + pose proof (Hall _ _ Hd) as Hok. apply pair_ok_move_motors in Hok.
      destruct Hok as [[_ [-> | ->]] | [[? _] | [? _]]]; auto; discriminate.
    + pose proof (Hall _ _ Hm) as Hok. apply pair_ok_move_motors in Hok.
      destruct Hok as [[? _] | [[_ [m [-> Hin]]] | [? _]]]; try discriminate.
      by exists m.
    + destruct (data !! "movement_code") as [vc |] eqn:Hc; [| auto].
      pose proof (Hall _ _ Hc) as Hok. apply pair_ok_move_motors in Hok.
      destruct Hok as [[? _] | [[? _] | [_ [-> | [-> | ->]]]]];
        auto; discriminate.
    + intros k [x Hx]. pose proof (Hall _ _ Hx) as Hok.
      apply pair_ok_move_motors in Hok.
      destruct Hok as [[? _] | [[? _] | [? _]]]; auto.
  - intros [Hd [[m [Hm Hin]] [Hc Hkeys]]]. split; [| split].
    + intros k x Hx. apply pair_ok_move_motors.
      destruct (Hkeys k) as [-> | [-> | ->]]; [by eexists | | |].
      * left. split; [done |]. rewrite Hx in Hd.
        destruct Hd as [[= ->] | [= ->]]; auto.
      * right; left. split; [done |]. rewrite Hx in Hm.
        injection Hm as ->. by exists m.
      * right; right. split; [done |]. rewrite Hx in Hc.
        destruct Hc as [? | [[= ->] | [[= ->] | [= ->]]]]; auto; discriminate.
    + destruct Hd as [-> | ->]; by eexists.
    + rewrite Hm. by eexists.
Qed.

(** What [move_motors_service] does on data with a direction of the
    schema: one debug line, the assignment, one device call, and an
    error line when the call raises [ConnectionError] or [ValueError]. *)
Lemma move_motors_service_run (data : gmap string PyVal) (w : World Env)
    (d : string) (m : PyVal) :
  d = "in" ∨ d = "out" →
  data_get data "direction" = VStr d →
  data_get data "motor_id" = m →
  remote.move_motors_service data w =
    let '(env', dev', r) :=
      device_call "move_motors" [VStr d; m] (w_env w)
        (set_current_movement_code (data_get data "movement_code") (w_device w)) in
    let t := (w_trace w
              ++ [Log DEBUG "Moving motor(s) '%s' (%s) in direction: %s with movement code: %s"]
              ++ [DeviceCall "move_motors" [VStr d; m]])%list in
    match r with
    | Return _ => (mkWorld env' dev' (w_entities w) (w_dispatcher w) t, Return tt)
    | Raise e =>
        if isinstance e ConnectionError then
          (mkWorld env' dev' (w_entities w) (w_dispatcher w)
             (t ++ [Log ERROR "Connection error while moving motor(s) '%s': %s"]),
           Return tt)
        else if isinstance e ValueError then
          (mkWorld env' dev' (w_entities w) (w_dispatcher w)
             (t ++ [Log ERROR "Invalid motor value or direction for movement: %s"]),
           Return tt)
        else (mkWorld env' dev' (w_entities w) (w_dispatcher w) t, Raise e)
    end.
Proof.
  intros Hd Hdir Hm. unfold remote.move_motors_service.
  rewrite Hdir, Hm.
  unfold bind, try_except, log, emit, modify_device, await_device, ret.
  cbn [w_env w_device w_trace w_entities w_dispatcher].
  destruct Hd as [-> | ->].
  - rewrite bool_decide_eq_true_2 by done.
    cbn beta iota. cbn [w_env w_device w_trace w_entities w_dispatcher].
    destruct (device_call _ _ _ _) as [[env' dev'] [v | e]];
      cbn [select_handler]; rewrite <- ?app_assoc; [reflexivity |].
    destruct (isinstance e ConnectionError);
      [cbn; by rewrite <- ?app_assoc |].
    destruct (isinstance e ValueError); cbn; by rewrite <- ?app_assoc.
  - rewrite (bool_decide_eq_false_2 (VStr "out" = VStr "in")) by done.
    rewrite bool_decide_eq_true_2 by done.
    cbn beta iota. cbn [w_env w_device w_trace w_entities w_dispatcher].
    destruct (device_call _ _ _ _) as [[env' dev'] [v | e]];
      cbn [select_handler]; rewrite <- ?app_assoc; [reflexivity |].
    destruct (isinstance e ConnectionError);
      [cbn; by rewrite <- ?app_assoc |].
    destruct (isinstance e ValueError); cbn; by rewrite <- ?app_assoc.
Qed.

End MoveMotors.

Section MoveMotorsClaims.
Context {Env : Type} `{!DeviceModule Env}.

(** C6.  The [move_motors] service accepts only a direction ["in"] or
    ["out"], a [motor_id] that is a key of [MOTOR_IDS] and an optional
    movement code among [None], ["J"], ["P"]; a call it does not accept
    raises out of the schema and leaves the world as it was.  An
    accepted call hands the device to [move_motors] with
    [current_movement_code] already set to the movement code of the
    call ([None] when omitted), and invokes exactly that one operation,
    with the direction and motor of the call. *)
Theorem move_motors_service_contract
    (device : Device) (data : gmap string PyVal) (w : World Env) :
  let accepted := vol.accepts remote.move_motors_schema data in
  let call :=
    services.async_call (remote.async_setup_entry device) "move_motors" data w in
  let movement_code := data_get data "movement_code" in
  let handed := set_current_movement_code movement_code (w_device w) in
  (accepted = true ↔
     (data !! "direction" = Some (VStr "in")
      ∨ data !! "direction" = Some (VStr "out"))
     ∧ (∃ m, data !! "motor_id" = Some (VStr m) ∧ is_Some (MOTOR_IDS !! m))
     ∧ (data !! "movement_code" = None
        ∨ data !! "movement_code" = Some VNone
        ∨ data !! "movement_code" = Some (VStr "J")
        ∨ data !! "movement_code" = Some (VStr "P"))
     ∧ (∀ k, is_Some (data !! k) →
             k = "direction" ∨ k = "motor_id" ∨ k = "movement_code"))
  ∧ (accepted = false →
     call = (w, Raise (mkExn MultipleInvalid "invalid service data")))
  ∧ (accepted = true →
     ∃ d m,
       data !! "direction" = Some (VStr d) ∧ data !! "motor_id" = Some (VStr m)
       ∧ current_movement_code (mask_ratio_settings handed) = movement_code
       ∧ (w_env call.1, w_device call.1) =
           (device_call "move_motors" [VStr d; VStr m] (w_env w) handed).1
       ∧ device_calls (w_trace call.1) =
           (device_calls (w_trace w) ++ [("move_motors", [VStr d; VStr m])])%list
       ∧ (is_raise (device_call "move_motors" [VStr d; VStr m] (w_env w) handed).2
            = false → call.2 = Return tt)).
Proof.
  intros accepted call movement_code handed. split; [| split].
  - apply accepts_move_motors.
  - intros Hacc. unfold call.
    by rewrite (async_call_rejected _ _ _ _ _ _ (lookup_move_motors device) eq_refl Hacc).
  - intros Hacc. pose proof Hacc as Hdom.
    apply accepts_move_motors in Hdom.
    destruct Hdom as [Hd [[m [Hm _]] _]].
    assert (∃ d, (d = "in" ∨ d = "out") ∧ data !! "direction" = Some (VStr d))
      as [d [Hd' Hdir]].
    { destruct Hd; [exists "in" | exists "out"]; auto. }
    exists d, m. split; [done |]. split; [done |]. split; [done |].
    unfold call.
    rewrite (async_call_accepted _ _ _ _ _ _ (lookup_move_motors device) eq_refl Hacc).
    cbn [services.handler].
    rewrite (move_motors_service_run _ w d (VStr m) Hd').
    2: { rewrite data_get_defaults_move_motors. unfold data_get. by rewrite Hdir. }
    2: { rewrite data_get_defaults_move_motors. unfold data_get. by rewrite Hm. }
    rewrite data_get_defaults_move_motors.
    fold movement_code. fold handed.
    destruct (device_call _ _ _ _) as [[env' dev'] [v | e]].
    + cbn. rewrite !device_calls_app. cbn. rewrite ?app_nil_r. done.
    + destruct (isinstance e ConnectionError);
        [| destruct (isinstance e ValueError)];
        cbn; rewrite !device_calls_app; cbn; rewrite ?app_nil_r; done.
Qed.

(** C9.  A failed move is not rolled back: when [device.move_motors]
    raises [ConnectionError] or [ValueError] and does not itself touch
    [current_movement_code], the service call returns normally and the
    world holds the state the failed operation left, in which
    [current_movement_code] is the movement code of the call. *)
Theorem failed_move_keeps_new_movement_code
    (device : Device) (data : gmap string PyVal) (w : World Env)
    (d m : string) (env' : Env) (dev' : Device) (e : exn) :
  let movement_code := data_get data "movement_code" in
  let call :=
    services.async_call (remote.async_setup_entry device) "move_motors" data w in
  vol.accepts remote.move_motors_schema data = true →
  data !! "direction" = Some (VStr d) →
  data !! "motor_id" = Some (VStr m) →
  device_call "move_motors" [VStr d; VStr m] (w_env w)
    (set_current_movement_code movement_code (w_device w)) = (env', dev', Raise e) →
  isinstance e ConnectionError = true ∨ isinstance e ValueError = true →
  current_movement_code (mask_ratio_settings dev') = movement_code →
  call.2 = Return tt
  ∧ w_device call.1 = dev'
  ∧ current_movement_code (mask_ratio_settings (w_device call.1)) = movement_code.
Proof.
  intros movement_code call Hacc Hdir Hm Hcall Hcls Hkeep.
  pose proof Hacc as Hdom. apply accepts_move_motors in Hdom.
  destruct Hdom as [Hd _].
  assert (d = "in" ∨ d = "out") as Hd'.
  { rewrite Hdir in Hd. destruct Hd as [[= ->] | [= ->]]; auto. }
  unfold call.
  rewrite (async_call_accepted _ _ _ _ _ _ (lookup_move_motors device) eq_refl Hacc).
  cbn [services.handler].
  rewrite (move_motors_service_run _ w d (VStr m) Hd').
  2: { rewrite data_get_defaults_move_motors. unfold data_get. by rewrite Hdir. }
  2: { rewrite data_get_defaults_move_motors. unfold data_get. by rewrite Hm. }
  rewrite data_get_defaults_move_motors. fold movement_code. rewrite Hcall.
  destruct Hcls as [-> | Hv]; [done |].
  destruct (isinstance e ConnectionError); [done |]. by rewrite Hv.
Qed.

End MoveMotorsClaims.

(** ** Set-up: the polling loop *)

Lemma sleeps_app (a b : list Event) : sleeps (a ++ b) = (sleeps a ++ sleeps b)%list.
Proof.
  induction a as [| ev a IH]; [done |].
  destruct ev; cbn; by rewrite ?IH.
Qed.

Lemma sleeps_repeat (s : float) (n : nat) : sleeps (repeat (Sleep s) n) = repeat s n.
Proof. induction n as [| n IH]; [done |]. cbn. by rewrite IH. Qed.

Lemma sleeps_calls (calls : list (string * list PyVal)) :
  sleeps ((fun c => DeviceCall c.1 c.2) <$> calls) = [].
Proof. induction calls as [| c calls IH]; [done |]. by cbn. Qed.

Lemma entities_created_app (a b : list Event) :
  entities_created (a ++ b) = entities_created a || entities_created b.
Proof. unfold entities_created. apply existsb_app. Qed.

Lemma entities_created_repeat (s : float) (n : nat) :
  entities_created (repeat (Sleep s) n) = false.
Proof. induction n as [| n IH]; [done |]. by cbn. Qed.

Lemma entities_created_calls (calls : list (string * list PyVal)) :
  entities_created ((fun c => DeviceCall c.1 c.2) <$> calls) = false.
Proof. induction calls as [| c calls IH]; [done |]. by cbn. Qed.

Lemma elapsed_after_lt (k : nat) :
  (k < 20)%nat → (elapsed_after k <? 10)%float = true.
Proof.
  intros Hk. do 20 (destruct k as [| k]; [reflexivity |]). lia.
Qed.

Lemma elapsed_after_20 : (elapsed_after 20 <? 10)%float = false.
Proof. reflexivity. Qed.

(** Twenty sleeps of half a second add up to ten seconds, fewer to
    less. *)
Lemma elapsed_after_le (k : nat) :
  (k ≤ 20)%nat → (elapsed_after k <=? 10)%float = true.
Proof.
  intros Hk. do 21 (destruct k as [| k]; [reflexivity |]). lia.
Qed.

Section SetupFacts.
Context {Env : Type} `{!DeviceModule Env}.

(** With enough fuel the polling loop ends: after [k] rounds it sleeps
    [n] more times, half a second each, finding [num_motors] at zero
    before each of these sleeps, and stops either because the motors are
    there or because twenty rounds are over. *)
Lemma wait_for_motors_spec (fuel k : nat) (w : World Env) :
  (k ≤ 20)%nat → (21 - k ≤ fuel)%nat →
  ∃ (n : nat) (w' : World Env),
    init.wait_for_motors fuel 10 0.5 (elapsed_after k) w
      = (w', Return (Some (elapsed_after (k + n))))
    ∧ (k + n ≤ 20)%nat
    ∧ w_trace w' = (w_trace w ++ repeat (Sleep 0.5) n)%list
    ∧ (w_env w', w_device w') = after_sleeps n (w_env w) (w_device w)
    ∧ w_entities w' = w_entities w ∧ w_dispatcher w' = w_dispatcher w
    ∧ (∀ j, (j < n)%nat → motors_after j (w_env w) (w_device w) = 0%N)
    ∧ (num_motors (current_motor_positions (w_device w')) ≠ 0%N
       ∨ ((k + n = 20)%nat
          ∧ num_motors (current_motor_positions (w_device w')) = 0%N)).
Proof.
  revert k w. induction fuel as [| fuel IH]; intros k w Hk Hfuel; [lia |].
  cbn [init.wait_for_motors]. unfold bind at 1. cbn [get_device].
  destruct (N.eqb_spec (num_motors (current_motor_positions (w_device w))) 0)
    as [Hzero | Hnz].
  - destruct (decide (k = 20%nat)) as [-> | Hk20].
    + rewrite elapsed_after_20. cbn [andb]. exists 0%nat, w.
      rewrite Nat.add_0_r, app_nil_r. repeat split; auto. intros j Hj. lia.
    + rewrite elapsed_after_lt by lia. cbn [andb].
      unfold bind, asyncio_sleep.
      destruct (background _ _ _) as [env' dev'] eqn:Hbg.
      destruct (IH (S k)
                  (mkWorld env' dev' (w_entities w) (w_dispatcher w)
                     (w_trace w ++ [Sleep 0.5])))
        as (n & w' & Hrun & Hn & Ht & Hstate & Hents & Hdisp & Hbefore & Hend);
        [lia | lia |].
      cbn [elapsed_after] in Hrun. rewrite Hrun.
      cbn [w_env w_device w_entities w_dispatcher] in *.
      exists (S n), w'. replace (k + S n)%nat with (S k + n)%nat by lia.
      repeat split; [lia | | | done | done | | done].
      * rewrite Ht. cbn [w_trace repeat]. by rewrite <- app_assoc.
      * cbn [after_sleeps]. by rewrite Hbg.
      * intros [| j] Hj; [done |].
        unfold motors_after. cbn [after_sleeps]. rewrite Hbg.
        apply Hbefore. lia.
  - cbn [andb]. exists 0%nat, w.
    rewrite Nat.add_0_r, app_nil_r. repeat split; auto. intros j Hj. lia.
Qed.

(** The [try] block when the four device calls succeed: it sleeps as
    long as [num_motors] is zero, at most twenty times, and ends with
    [return False] exactly when [num_motors] is still zero after the
    last sleep. *)
Lemma setup_try_body_polls (fuel : nat) (w : World Env)
    (env1 env2 env3 env4 : Env) (dev1 dev2 dev3 dev4 : Device)
    (v1 v2 v3 v4 : PyVal) :
  (21 ≤ fuel)%nat →
  device_call "connect" [] (w_env w) (w_device w) = (env1, dev1, Return v1) →
  device_call "get_settings_info" [] env1 dev1 = (env2, dev2, Return v2) →
  device_call "get_status" [] env2 dev2 = (env3, dev3, Return v3) →
  device_call "get_positions" [] env3 dev3 = (env4, dev4, Return v4) →
  ∃ n : nat,
    (n ≤ 20)%nat
    ∧ (∀ j, (j < n)%nat → motors_after j env4 dev4 = 0%N)
    ∧ (motors_after n env4 dev4 = 0%N → n = 20%nat)
    ∧ init.setup_try_body fuel w =
        (mkWorld (after_sleeps n env4 dev4).1 (after_sleeps n env4 dev4).2
           (w_entities w) (w_dispatcher w)
           (w_trace w
            ++ [DeviceCall "connect" []; DeviceCall "get_settings_info" [];
                DeviceCall "get_status" []; DeviceCall "get_positions" []]
            ++ repeat (Sleep 0.5) n
            ++ (if (motors_after n env4 dev4 =? 0)%N
                then [Log ERROR "Timed out waiting for motor positions to be populated"]
                else []))%list,
         Return (if (motors_after n env4 dev4 =? 0)%N
                 then init.Returned false else init.FellThrough)).
Proof.
  intros Hfuel H1 H2 H3 H4. unfold init.setup_try_body.
  unfold bind at 1. unfold await_device at 1. rewrite H1.
  unfold bind at 1. unfold await_device at 1.
  cbn [w_env w_device w_trace w_entities w_dispatcher]. rewrite H2.
  unfold bind at 1. unfold await_device at 1.
  cbn [w_env w_device w_trace w_entities w_dispatcher]. rewrite H3.
  unfold bind at 1. unfold await_device at 1.
  cbn [w_env w_device w_trace w_entities w_dispatcher]. rewrite H4.
  unfold bind at 1.
  match goal with
  | |- context [init.wait_for_motors fuel _ _ _ ?w0] =>
      destruct (wait_for_motors_spec fuel 0 w0)
        as (n & w' & Hloop & Hn & Ht & Hstate & Hents & Hdisp & Hbefore & Hend);
        [lia | lia |]
  end.
  cbn [elapsed_after] in Hloop. rewrite Hloop.
  cbn [w_env w_device w_trace w_entities w_dispatcher] in *.
  exists n. split; [lia |]. split; [done |].
  assert (Hnow : motors_after n env4 dev4
                 = num_motors (current_motor_positions (w_device w'))).
  { unfold motors_after. by rewrite <- Hstate. }
  split; [rewrite Hnow; destruct Hend as [? | [? ?]]; [done | lia] |].
  unfold bind at 1. cbn [get_device]. rewrite Hnow.
  destruct w' as [env' dev' ents' disp' trace'].
  cbn [w_env w_device w_trace w_entities w_dispatcher] in *.
  rewrite <- Hstate. cbn [fst snd]. subst ents' disp' trace'.
  destruct (num_motors (current_motor_positions dev') =? 0)%N.
  - unfold bind, log, emit, ret. cbn. by rewrite <- !app_assoc.
  - unfold ret. rewrite app_nil_r. by rewrite <- !app_assoc.
Qed.

End SetupFacts.

Section SetupClaims.
Context {Env : Type} `{!DeviceModule Env}.

Lemma prepare_run (entry_data : SystemInfo) (w : World Env) :
  init.prepare entry_data w =
    (mkWorld (w_env w) (init.set_system_info entry_data (w_device w))
       (w_entities w) (w_dispatcher w)
       (w_trace w ++ [Log INFO "STARTUP_MESSAGE"; Log DEBUG "System Info:\n%s"]),
     Return tt).
Proof.
  unfold init.prepare, bind, log, emit, modify_device. cbn.
  by rewrite <- app_assoc.
Qed.

(** Set-up in terms of the outcome of its [try] block. *)
Lemma async_setup_entry_run (fuel : nat) (entry_data : SystemInfo)
    (w : World Env) :
  init.async_setup_entry fuel entry_data w =
    match init.setup_try_body fuel (init.prepare entry_data w).1 with
    | (wf, Raise e) =>
        if isinstance e TimeoutError then
          (push [Log ERROR "Connection to Seymour device timed out: %s"] wf,
           Return (Some false))
        else if isinstance e OSError then
          (push [Log ERROR "OS error while connecting to Seymour device: %s"] wf,
           Return (Some false))
        else (wf, Raise e)
    | (wf, Return (init.Returned value)) => (wf, Return (Some value))
    | (wf, Return init.FellThrough) =>
        (push [StoreEntry; ListenStop; ForwardEntrySetups init.PLATFORMS] wf,
         Return (Some true))
    | (wf, Return init.OutOfFuel) => (wf, Return None)
    end.
Proof.
  unfold init.async_setup_entry.
  unfold bind at 1. rewrite prepare_run. cbn [fst].
  unfold bind at 1. unfold try_except.
  destruct (init.setup_try_body fuel _) as [wf [[v | |] | e]]; try reflexivity.
  - unfold push, bind, emit. cbn. by rewrite <- !app_assoc.
  - cbn [select_handler].
    destruct (isinstance e TimeoutError); [reflexivity |].
    destruct (isinstance e OSError); reflexivity.
Qed.

(** A failing [connect] is how the [try] block ends. *)
Lemma connect_failure_leaves_try (fuel : nat) (w : World Env)
    (env' : Env) (dev' : Device) (e : exn) :
  device_call "connect" [] (w_env w) (w_device w) = (env', dev', Raise e) →
  init.setup_try_body fuel w =
    (mkWorld env' dev' (w_entities w) (w_dispatcher w)
       (w_trace w ++ [DeviceCall "connect" []]),
     Raise e).
Proof.
  intros Hcall. unfold init.setup_try_body.
  unfold bind at 1. unfold await_device at 1. by rewrite Hcall.
Qed.

(** When the [try] block of set-up raises an instance of [TimeoutError]
    or [OSError], set-up logs one error and returns [False]: nothing
    else happens after the failure. *)
Lemma setup_aborts (fuel : nat) (entry_data : SystemInfo) (w w' : World Env)
    (e : exn) :
  init.setup_try_body fuel (init.prepare entry_data w).1 = (w', Raise e) →
  isinstance e TimeoutError = true ∨ isinstance e OSError = true →
  ∃ msg,
    init.async_setup_entry fuel entry_data w =
      (mkWorld (w_env w') (w_device w') (w_entities w') (w_dispatcher w')
         (w_trace w' ++ [Log ERROR msg]),
       Return (Some false)).
Proof.
  intros Hbody Hcls. rewrite async_setup_entry_run, Hbody.
  destruct (isinstance e TimeoutError).
  - eexists. reflexivity.
  - destruct Hcls as [? | ->]; [done |]. eexists. reflexivity.
Qed.

(** Either one of the four device calls of the [try] block raises, or
    all four return. *)
Lemma setup_queries_cases (fuel : nat) (w : World Env) :
  (∃ e calls wf,
     init.setup_try_body fuel w = (wf, Raise e)
     ∧ w_trace wf = (w_trace w ++ ((fun c => DeviceCall c.1 c.2) <$> calls))%list
     ∧ ∀ env1 env2 env3 env4 dev1 dev2 dev3 dev4 v1 v2 v3 v4,
         device_call "connect" [] (w_env w) (w_device w) = (env1, dev1, Return v1) →
         device_call "get_settings_info" [] env1 dev1 = (env2, dev2, Return v2) →
         device_call "get_status" [] env2 dev2 = (env3, dev3, Return v3) →
         device_call "get_positions" [] env3 dev3 = (env4, dev4, Return v4) →
         False)
  ∨ (∃ env1 env2 env3 env4 dev1 dev2 dev3 dev4 v1 v2 v3 v4,
       device_call "connect" [] (w_env w) (w_device w) = (env1, dev1, Return v1)
       ∧ device_call "get_settings_info" [] env1 dev1 = (env2, dev2, Return v2)
       ∧ device_call "get_status" [] env2 dev2 = (env3, dev3, Return v3)
       ∧ device_call "get_positions" [] env3 dev3 = (env4, dev4, Return v4)).
Proof.
  unfold init.setup_try_body.
  unfold bind at 1. unfold await_device at 1.
  destruct (device_call "connect" _ _ _) as [[env1 dev1] [v1 | e]] eqn:H1.
  2: { left. exists e, [("connect", [])]. eexists. split; [reflexivity |].
       split; [done |]. intros. congruence. }
  unfold bind at 1. unfold await_device at 1.
  cbn [w_env w_device w_trace w_entities w_dispatcher].
  destruct (device_call "get_settings_info" _ _ _) as [[env2 dev2] [v2 | e]] eqn:H2.
  2: { left. exists e, [("connect", []); ("get_settings_info", [])]. eexists.
       split; [reflexivity |]. split; [cbn; by rewrite <- !app_assoc |].
       intros. congruence. }
  unfold bind at 1. unfold await_device at 1.
  cbn [w_env w_device w_trace w_entities w_dispatcher].
  destruct (device_call "get_status" _ _ _) as [[env3 dev3] [v3 | e]] eqn:H3.
  2: { left.
       exists e, [("connect", []); ("get_settings_info", []); ("get_status", [])].
       eexists. split; [reflexivity |]. split; [cbn; by rewrite <- !app_assoc |].
       intros. congruence. }
  unfold bind at 1. unfold await_device at 1.
  cbn [w_env w_device w_trace w_entities w_dispatcher].
  destruct (device_call "get_positions" _ _ _) as [[env4 dev4] [v4 | e]] eqn:H4.
  2: { left.
       exists e, [("connect", []); ("get_settings_info", []); ("get_status", []);
                  ("get_positions", [])].
       eexists. split; [reflexivity |]. split; [cbn; by rewrite <- !app_assoc |].
       intros. congruence. }
  right. by exists env1, env2, env3, env4, dev1, dev2, dev3, dev4, v1, v2, v3, v4.
Qed.

(** C3.  With fuel for the whole loop, set-up sleeps at most twenty
    times, half a second each, so at most ten seconds ([elapsed_after n]
    is the value of [elapsed_time] after [n] sleeps).  It never ends
    out of fuel.  The entry is forwarded to the platforms exactly when
    set-up returns [True], and then [num_motors] is positive.  When all
    twenty sleeps are spent and [num_motors] is still zero, set-up
    returns [False]; when the polling stops earlier, it is because the
    motors arrived and set-up returns [True].

    When the connect and the three queries succeed, set-up polls as long
    as [num_motors] is zero: [num_motors] was zero before each of the
    [n] sleeps, the device is as [n] sleeps leave it, and the polling
    stops with [num_motors] still at zero only after all twenty sleeps;
    set-up then logs the time-out and returns [False], and otherwise
    forwards the entry and returns [True]. *)
Theorem setup_polls_motors_for_ten_seconds
    (fuel : nat) (entry_data : SystemInfo) (w : World Env) :
  (21 ≤ fuel)%nat →
  let run := init.async_setup_entry fuel entry_data w in
  let motors_now := num_motors (current_motor_positions (w_device run.1)) in
  ∃ (n : nat) (new : list Event),
    w_trace run.1 = (w_trace w ++ new)%list
    ∧ sleeps new = repeat 0.5%float n
    ∧ (n ≤ 20)%nat
    ∧ (elapsed_after n <=? 10)%float = true
    ∧ run.2 ≠ Return None
    ∧ (entities_created new = true ↔ run.2 = Return (Some true))
    ∧ (run.2 = Return (Some true) → (0 < motors_now)%N)
    ∧ (n = 20%nat → motors_now = 0%N → run.2 = Return (Some false))
    ∧ ((0 < n < 20)%nat → run.2 = Return (Some true))
    ∧ (∀ env1 env2 env3 env4 dev1 dev2 dev3 dev4 v1 v2 v3 v4,
         device_call "connect" [] (w_env w)
           (init.set_system_info entry_data (w_device w))
           = (env1, dev1, Return v1) →
         device_call "get_settings_info" [] env1 dev1 = (env2, dev2, Return v2) →
         device_call "get_status" [] env2 dev2 = (env3, dev3, Return v3) →
         device_call "get_positions" [] env3 dev3 = (env4, dev4, Return v4) →
         (∀ j, (j < n)%nat → motors_after j env4 dev4 = 0%N)
         ∧ (w_env run.1, w_device run.1) = after_sleeps n env4 dev4
         ∧ (motors_now = 0%N → n = 20%nat ∧ run.2 = Return (Some false))
         ∧ (motors_now ≠ 0%N → run.2 = Return (Some true))
         ∧ new =
             ([Log INFO "STARTUP_MESSAGE"; Log DEBUG "System Info:\n%s";
               DeviceCall "connect" []; DeviceCall "get_settings_info" [];
               DeviceCall "get_status" []; DeviceCall "get_positions" []]
              ++ repeat (Sleep 0.5) n
              ++ (if (motors_now =? 0)%N
                  then [Log ERROR "Timed out waiting for motor positions to be populated"]
                  else [StoreEntry; ListenStop;
                        ForwardEntrySetups init.PLATFORMS]))%list).
Proof.
  intros Hfuel. cbv zeta. rewrite async_setup_entry_run, prepare_run. cbn [fst].
  match goal with
  | |- context [init.setup_try_body fuel ?w1] => set (w0 := w1)
  end.
  destruct (setup_queries_cases fuel w0)
    as [(e & calls & wf & Hrun & Ht & Hnever)
       | (env1 & env2 & env3 & env4 & dev1 & dev2 & dev3 & dev4
          & v1 & v2 & v3 & v4 & H1 & H2 & H3 & H4)].
  - rewrite Hrun. exists 0%nat. subst w0. cbn [w_trace w_env w_device] in *.
    destruct (isinstance e TimeoutError); [| destruct (isinstance e OSError)];
      cbn; rewrite Ht, <- ?app_assoc; eexists; (split; [reflexivity |]);
      rewrite !sleeps_app, !entities_created_app, sleeps_calls,
        entities_created_calls; cbn;
      repeat split; try done; try lia;
      try (by intros; exfalso; eapply Hnever; eauto).
  - destruct (setup_try_body_polls fuel w0 _ _ _ _ _ _ _ _ _ _ _ _ Hfuel H1 H2 H3 H4)
      as (n & Hn & Hbefore & Hstop & Hrun).
    rewrite Hrun. clear Hrun. exists n.
    subst w0. cbn [w_trace w_env w_device w_entities w_dispatcher] in *.
    assert (Hsame : ∀ env1' env2' env3' env4' dev1' dev2' dev3' dev4' v1' v2' v3' v4',
              device_call "connect" [] (w_env w)
                (init.set_system_info entry_data (w_device w))
                = (env1', dev1', Return v1') →
              device_call "get_settings_info" [] env1' dev1' = (env2', dev2', Return v2') →
              device_call "get_status" [] env2' dev2' = (env3', dev3', Return v3') →
              device_call "get_positions" [] env3' dev3' = (env4', dev4', Return v4') →
              env4' = env4 ∧ dev4' = dev4).
    { intros ? ? ? ? ? ? ? ? ? ? ? ? H1' H2' H3' H4'.
      rewrite H1 in H1'. injection H1' as <- <- <-.
      rewrite H2 in H2'. injection H2' as <- <- <-.
      rewrite H3 in H3'. injection H3' as <- <- <-.
      rewrite H4 in H4'. by injection H4' as <- <- <-. }
    unfold motors_after in Hstop.
    destruct (N.eqb_spec (motors_after n env4 dev4) 0) as [Hm | Hm];
      unfold motors_after in Hm; cbn [fst snd w_trace w_device w_env push].
    + pose proof (Hstop Hm) as Hn20. rewrite <- ?app_assoc. eexists.
      split; [reflexivity |].
      rewrite !sleeps_app, !entities_created_app, sleeps_repeat,
        entities_created_repeat.
      cbn [sleeps entities_created existsb app orb].
      rewrite ?app_nil_r, Hm.
      split; [done |]. split; [done |].
      split; [by apply elapsed_after_le |]. split; [done |].
      split; [split; discriminate |]. split; [discriminate |].
      split; [done |]. split; [lia |].
      intros ? ? ? ? ? ? ? ? ? ? ? ? H1' H2' H3' H4'.
      destruct (Hsame _ _ _ _ _ _ _ _ _ _ _ _ H1' H2' H3' H4') as [-> ->].
      split; [done |]. split; [by destruct (after_sleeps n env4 dev4) |].
      split; [done |]. split; [done |]. reflexivity.
    + rewrite <- ?app_assoc. eexists.
      split; [reflexivity |].
      rewrite !sleeps_app, !entities_created_app, sleeps_repeat,
        entities_created_repeat.
      cbn [sleeps entities_created existsb app orb].
      rewrite ?app_nil_r.
      split; [done |]. split; [done |].
      split; [by apply elapsed_after_le |]. split; [done |].
      split; [done |]. split; [intros _; lia |].
      split; [done |]. split; [done |].
      intros ? ? ? ? ? ? ? ? ? ? ? ? H1' H2' H3' H4'.
      destruct (Hsame _ _ _ _ _ _ _ _ _ _ _ _ H1' H2' H3' H4') as [-> ->].
      split; [done |]. split; [by destruct (after_sleeps n env4 dev4) |].
      split; [done |]. split; [done |].
      destruct (N.eqb_spec (num_motors (current_motor_positions
                              (after_sleeps n env4 dev4).2)) 0) as [? | _];
        [done | reflexivity].
Qed.

(** C4.  A [TimeoutError] or [OSError] out of the connect and query
    block makes set-up log and return [False], with nothing done after
    the failure.  A [ConnectionError] or [ValueError] out of the device
    operation of a motor service is caught by the handler, which logs
    an error and returns normally. *)
Theorem setup_failure_aborts_command_failure_is_logged
    (fuel : nat) (entry_data : SystemInfo) (data : gmap string PyVal)
    (w : World Env) :
  (∀ w' e,
     init.setup_try_body fuel (init.prepare entry_data w).1 = (w', Raise e) →
     isinstance e TimeoutError = true ∨ isinstance e OSError = true →
     ∃ msg,
       init.async_setup_entry fuel entry_data w =
         (mkWorld (w_env w') (w_device w') (w_entities w') (w_dispatcher w')
            (w_trace w' ++ [Log ERROR msg]),
          Return (Some false)))
  ∧ (∀ handler method env' dev' e,
       (handler, method) ∈
         [ (remote.home_motors_service, "home");
           (remote.halt_motors_service, "halt");
           (remote.calibrate_motors_service, "calibrate") ] →
       device_call method [data_get data "motor_id"] (w_env w) (w_device w)
         = (env', dev', Raise e) →
       isinstance e ConnectionError = true ∨ isinstance e ValueError = true →
       ∃ debug msg,
         handler data w =
           (mkWorld env' dev' (w_entities w) (w_dispatcher w)
              (w_trace w ++ [Log DEBUG debug;
                             DeviceCall method [data_get data "motor_id"];
                             Log ERROR msg]),
            Return tt)).
Proof.
  split.
  - intros w' e Hbody Hcls. by eapply setup_aborts.
  - intros handler method env' dev' e Hin Hcall Hcls.
    rewrite !elem_of_cons, elem_of_nil in Hin.
    destruct Hin as [[= -> ->] | [[= -> ->] | [[= -> ->] | []]]].
    all: unfold remote.home_motors_service, remote.halt_motors_service,
           remote.calibrate_motors_service;
         unfold bind, try_except, log, emit, await_device, ret;
         cbn [w_env w_device w_trace w_entities w_dispatcher];
         rewrite Hcall; cbn [select_handler];
         (destruct Hcls as [-> | Hv];
          [| destruct (isinstance e ConnectionError); [| rewrite Hv]]);
         cbn; rewrite <- ?app_assoc; do 2 eexists; reflexivity.
Qed.

End SetupClaims.

(** ** The update signal *)

Lemma resolve_set_states_idempotent (device : Device) (e : Entity) :
  entity.resolve_set_states device (entity.resolve_set_states device e)
  = entity.resolve_set_states device e.
Proof.
  unfold entity.resolve_set_states.
  destruct e as [[] key uid opts]; cbn [entity_class]; try reflexivity.
  - unfold select.set_states. cbn [description_key entity_class attr_unique_id].
    destruct (String.eqb key "ratio") eqn:H1; cbn [description_key entity_class];
      [by rewrite H1 |].
    destruct (String.eqb key "motor_id") eqn:H2; cbn [description_key entity_class];
      [by rewrite H1, H2 |].
    destruct (String.eqb key "movement_code") eqn:H3;
      cbn [description_key entity_class]; by rewrite H1, H2, ?H3.
  - unfold switch.set_states. cbn [description_key].
    destruct (String.eqb key "jog_mode") eqn:H1; cbn; by rewrite H1.
Qed.

Lemma lookup_foldl_alter {A : Type} (f : A → A) (l : list nat) (es : list A)
    (i : nat) :
  (∀ x, f (f x) = f x) →
  foldl (fun acc j => alter f j acc) es l !! i
  = if bool_decide (i ∈ l) then f <$> es !! i else es !! i.
Proof.
  intros Hidem. revert es. induction l as [| j l IH]; intros es; [done |].
  cbn [foldl]. rewrite IH.
  destruct (decide (i = j)) as [-> | Hne].
  - rewrite list_lookup_alter_eq.
    rewrite (bool_decide_eq_true_2 (j ∈ j :: l)) by apply list_elem_of_here.
    destruct (es !! j) as [x |]; cbn; [| by case_bool_decide].
    rewrite Hidem. by case_bool_decide.
  - rewrite list_lookup_alter_ne by done.
    destruct (decide (i ∈ l)) as [Hin | Hnin].
    + rewrite !bool_decide_eq_true_2; [done | by apply list_elem_of_further | done].
    + rewrite !bool_decide_eq_false_2; [done | | done].
      rewrite elem_of_cons. by intros [? | ?].
Qed.

Section SignalFacts.
Context {Env : Type} `{!DeviceModule Env}.

(** Running [_update] for a list of connected entities: each one calls
    [set_states], which re-reads the device, and writes its state. *)
Lemma for_each_update (l : list (string * nat)) (w : World Env) :
  for_each l (fun c => entity._update c.2) w =
    (mkWorld (w_env w) (w_device w)
       (foldl (fun acc j => alter (entity.resolve_set_states (w_device w)) j acc)
          (w_entities w) l.*2)
       (w_dispatcher w)
       (w_trace w ++ (l.*2 ≫= fun i => [SetStates i; WriteHaState i])),
     Return tt).
Proof.
  revert w. induction l as [| c l IH]; intros w.
  - cbn. rewrite app_nil_r. by destruct w.
  - cbn [for_each]. unfold bind at 1.
    unfold entity._update, entity.call_set_states, entity.async_write_ha_state,
      bind, get_device, emit, modify_entities.
    cbn [w_env w_device w_entities w_dispatcher w_trace].
    rewrite IH. cbn [w_env w_device w_entities w_dispatcher w_trace].
    cbn [fmap list_fmap foldl mbind list_bind].
    by rewrite <- !app_assoc.
Qed.

Lemma async_dispatcher_send_run (signal : string) (w : World Env) :
  entity.async_dispatcher_send signal [] w =
    (mkWorld (w_env w) (w_device w)
       (foldl (fun acc j => alter (entity.resolve_set_states (w_device w)) j acc)
          (w_entities w) (subscribers signal w))
       (w_dispatcher w)
       (w_trace w ++ DispatcherSend signal []
          :: (subscribers signal w ≫= fun i => [SetStates i; WriteHaState i])),
     Return tt).
Proof.
  unfold entity.async_dispatcher_send.
  unfold bind at 1. unfold emit at 1. unfold bind at 1. unfold get_dispatcher.
  cbn [w_env w_device w_entities w_dispatcher w_trace].
  rewrite for_each_update.
  cbn [w_env w_device w_entities w_dispatcher w_trace].
  unfold subscribers. by rewrite <- app_assoc.
Qed.

(** C5.  The update callback ignores its message: whatever the message,
    it sends the bare update signal, with no argument.  Every entity
    connected to the signal reacts by calling [set_states], which
    re-reads the device, and by writing its state; the device, its
    surroundings and the connections are left as they were. *)
Theorem update_callback_carries_no_payload (message : string) (w : World Env) :
  let run := init.seymour_update_callback message w in
  let subs := subscribers const.SEYMOUR_UPDATE_SIGNAL w in
  (∀ other : string, init.seymour_update_callback other w = run)
  ∧ run.2 = Return tt
  ∧ w_trace run.1 =
      (w_trace w ++ DispatcherSend "seymour_update" []
         :: (subs ≫= fun i => [SetStates i; WriteHaState i]))%list
  ∧ w_env run.1 = w_env w
  ∧ w_device run.1 = w_device w
  ∧ w_dispatcher run.1 = w_dispatcher w
  ∧ (∀ i, w_entities run.1 !! i =
          if bool_decide (i ∈ subs)
          then entity.resolve_set_states (w_device w) <$> w_entities w !! i
          else w_entities w !! i).
Proof.
  cbv zeta. split; [done |].
  unfold init.seymour_update_callback. rewrite async_dispatcher_send_run.
  cbn [fst snd w_env w_device w_entities w_dispatcher w_trace].
  repeat split; try done.
  intros i. apply lookup_foldl_alter. apply resolve_set_states_idempotent.
Qed.

(** An entity added to Home Assistant is connected to the update
    signal. *)
Lemma added_entity_is_subscribed (self : nat) (w : World Env) :
  self ∈ subscribers const.SEYMOUR_UPDATE_SIGNAL
           (entity.async_added_to_hass self w).1.
Proof.
  unfold subscribers, entity.async_added_to_hass,
    entity.async_dispatcher_connect, modify_dispatcher.
  cbn [fst w_dispatcher]. apply list_elem_of_fmap.
  exists (const.SEYMOUR_UPDATE_SIGNAL, self). split; [done |].
  apply list_elem_of_filter. split; [done |].
  apply elem_of_app. right. apply list_elem_of_here.
Qed.

End SignalFacts.

(** ** The jog toggle *)

Lemma toggle_jog_code (d : Device) :
  current_movement_code (mask_ratio_settings (toggle_jog d))
  = let code := current_movement_code (mask_ratio_settings d) in
    if bool_decide (code = VStr "J") then VNone
    else if bool_decide (code = VNone) then VStr "J"
    else code.
Proof. reflexivity. Qed.

(** The toggle undoes itself, whatever the mode. *)
Lemma toggle_jog_twice (d : Device) : toggle_jog (toggle_jog d) = d.
Proof.
  destruct d as [info [n r m codes ratio motor code] positions status].
  unfold toggle_jog, set_current_movement_code. cbn.
  repeat case_bool_decide; congruence.
Qed.

Section JogFacts.
Context {Env : Type} `{!DeviceModule Env}.

Lemma async_turn_on_run (self : nat) (w : World Env) (env' : Env) (v : PyVal) :
  device_call "toggle_jog" [] (w_env w) (w_device w)
    = (env', toggle_jog (w_device w), Return v) →
  w_device (SeymourSwitch.async_turn_on self "jog_mode" w).1 = toggle_jog (w_device w)
  ∧ w_env (SeymourSwitch.async_turn_on self "jog_mode" w).1 = env'
  ∧ w_trace (SeymourSwitch.async_turn_on self "jog_mode" w).1
    = (w_trace w ++ [DeviceCall "toggle_jog" []; SetStates self])%list.
Proof.
  intros Hcall. unfold SeymourSwitch.async_turn_on. rewrite String.eqb_refl.
  unfold bind, await_device, entity.call_set_states, bind, get_device, emit,
    modify_entities.
  rewrite Hcall. cbn. by rewrite <- app_assoc.
Qed.

(** C7.  Turning the jog switch on and then off calls [toggle_jog]
    twice, and nothing else, on the device.  The toggle of the
    specification is an involution: it flips ["J"] and [None] and leaves
    any other mode, so two calls give back the device as it was; when
    both calls of the switch go through, the first leaves the device
    toggled and after the second [current_movement_code] is back at its
    original value, whatever that value was. *)
Theorem jog_toggle_twice_restores_code (self : nat) (w : World Env)
    (env1 env2 : Env) (v1 v2 : PyVal) :
  let code (d : Device) := current_movement_code (mask_ratio_settings d) in
  let on := (SeymourSwitch.async_turn_on self "jog_mode" w).1 in
  let off := (SeymourSwitch.async_turn_off self "jog_mode" on).1 in
  device_call "toggle_jog" [] (w_env w) (w_device w)
    = (env1, toggle_jog (w_device w), Return v1) →
  device_call "toggle_jog" [] env1 (toggle_jog (w_device w))
    = (env2, toggle_jog (toggle_jog (w_device w)), Return v2) →
  toggle_jog (toggle_jog (w_device w)) = w_device w
  ∧ (code (w_device w) = VStr "J" → code (toggle_jog (w_device w)) = VNone)
  ∧ (code (w_device w) = VNone → code (toggle_jog (w_device w)) = VStr "J")
  ∧ w_device on = toggle_jog (w_device w)
  ∧ device_calls (w_trace off)
    = (device_calls (w_trace w) ++ [("toggle_jog", []); ("toggle_jog", [])])%list
  ∧ w_device off = w_device w
  ∧ code (w_device off) = code (w_device w).
Proof.
  intros code on off H1 H2.
  split; [apply toggle_jog_twice |].
  split; [intros Hc; unfold code in *; by rewrite toggle_jog_code, Hc |].
  split; [intros Hc; unfold code in *; by rewrite toggle_jog_code, Hc |].
  destruct (async_turn_on_run self w env1 v1 H1) as (Hd1 & He1 & Ht1).
  fold on in Hd1, He1, Ht1. split; [done |].
  unfold off.
  change (SeymourSwitch.async_turn_off self "jog_mode" on)
    with (SeymourSwitch.async_turn_on self "jog_mode" on).
  rewrite <- Hd1, <- He1 in H2.
  destruct (async_turn_on_run self on env2 v2 H2) as (Hd2 & _ & Ht2).
  rewrite Hd2, Ht2, Ht1, Hd1, toggle_jog_twice.
  split; [| done]. rewrite !device_calls_app. cbn. by rewrite <- app_assoc.
Qed.

(** Turning the switch on and turning it off are the same call. *)
Lemma turn_on_is_turn_off (self : nat) (key : string) :
  SeymourSwitch.async_turn_on self key = SeymourSwitch.async_turn_off self key.
Proof. reflexivity. Qed.

End JogFacts.

(** ** Sensors and the ratio select *)

Section SensorFacts.
Context {Env : Type} `{!DeviceModule Env}.

(** C10.  When [current_ratio] is not a key of the ratio table, the
    Screen Width, Screen Height and Screen Diagonal sensors raise
    [KeyError] out of [native_value], where the ratio select's
    [current_option] returns the empty string. *)
Theorem screen_sensors_raise_where_select_guards
    (description : sensor.SeymourSensorEntityDescription) (self : Entity)
    (w : World Env) :
  let settings := mask_ratio_settings (w_device w) in
  dict_get (ratios settings) (current_ratio settings) = None →
  description ∈ sensor.SENSOR_TYPES →
  sensor.key description ∈ ["width"; "height"; "diagonal"] →
  description_key self = "ratio" →
  (∃ msg, sensor.native_value description w = (w, Raise (mkExn KeyError msg)))
  ∧ select.current_option (w_device w) self = Return "".
Proof.
  intros settings Hmiss Hin Hkey Hself. split.
  - unfold sensor.SENSOR_TYPES in Hin.
    rewrite !elem_of_cons, elem_of_nil in Hin.
    rewrite !elem_of_cons, elem_of_nil in Hkey.
    destruct Hin as [-> | [-> | [-> | [-> | [-> | [-> | [-> | []]]]]]]];
      cbn [sensor.key] in Hkey;
      try (destruct Hkey as [? | [? | [? | []]]]; discriminate);
      exists "current_ratio";
      unfold sensor.native_value, bind, get_device, lift;
      cbn [sensor.motor_id sensor.motor_index sensor.value_fn];
      unfold sensor.subscript_ratio; fold settings; by rewrite Hmiss.
  - unfold select.current_option. rewrite Hself, String.eqb_refl.
    fold settings. by rewrite Hmiss.
Qed.

(** With [current_ratio] in the table the same sensors return the
    attribute of the selected ratio and the select returns its label. *)
Lemma screen_sensors_read_selected_ratio (info : RatioInfo) (self : Entity)
    (w : World Env) :
  let settings := mask_ratio_settings (w_device w) in
  dict_get (ratios settings) (current_ratio settings) = Some info →
  description_key self = "ratio" →
  sensor.subscript_ratio (w_device w) width = Return (width info)
  ∧ sensor.subscript_ratio (w_device w) height = Return (height info)
  ∧ sensor.subscript_ratio (w_device w) diagonal = Return (diagonal info)
  ∧ select.current_option (w_device w) self = Return (label info).
Proof.
  intros settings Hhit Hself. unfold sensor.subscript_ratio, select.current_option.
  fold settings. rewrite Hself, Hhit, String.eqb_refl.
  by rewrite bool_decide_eq_true_2.
Qed.

End SensorFacts.

(** ** The identification frame *)

(** C2 (amended).  The only frame [_query_serial_device] writes is the
    identification frame: an opening bracket, the address ["01"] of two
    characters, the command ["Y"] of one character, no payload, and a
    closing bracket. *)
Theorem query_writes_identification_frame
    (BAUDRATE : Z) (ser : config_flow.SerialPort) (port : string) :
  let written := (config_flow._query_serial_device BAUDRATE ser port).1 in
  (length written ≤ 1)%nat
  ∧ Forall (fun frame =>
              frame = config_flow.identification_frame
              ∧ ∃ addr cmd : string,
                  String.length addr = 2%nat ∧ String.length cmd = 1%nat
                  ∧ frame = "[" +:+ addr +:+ cmd +:+ "" +:+ "]") written.
Proof.
  cbv zeta. unfold config_flow._query_serial_device, config_flow.query_try_body.
  assert (Hshape : ∃ addr cmd : string,
             String.length addr = 2%nat ∧ String.length cmd = 1%nat
             ∧ config_flow.identification_frame = "[" +:+ addr +:+ cmd +:+ "" +:+ "]").
  { by exists "01", "Y". }
  destruct (config_flow.open_error ser port BAUDRATE); cbn [fst];
    [split; [cbn; lia | constructor] |].
  destruct (config_flow.write_error ser config_flow.identification_frame);
    cbn [fst]; (split; [cbn; lia | by repeat constructor]).
Qed.

(* ===================================================================== *)
(** * The properties on the simulated controller                          *)
(* ===================================================================== *)



(** [True] is equal to the key 1 of the table and is accepted; 994.5 and
    the string ["994"] are refused. *)
Example update_ratio_accepts_true :
  vol.accepts (remote.update_ratio_schema (sim.device (VInt 1) VNone))
    {[ "ratio_id" := VBool true ]} = true
  ∧ vol.accepts (remote.update_ratio_schema (sim.device (VInt 1) VNone))
      {[ "ratio_id" := VFloat 994.5 ]} = false
  ∧ vol.accepts (remote.update_ratio_schema (sim.device (VInt 1) VNone))
      {[ "ratio_id" := VStr "994" ]} = false.
Proof. repeat split; vm_compute; reflexivity. Qed.

(** The reserved preset 994 is accepted although it is not in the table,
    and the handler reaches the device. *)
Example update_ratio_accepts_reserved_preset :
  vol.accepts (remote.update_ratio_schema (sim.device (VInt 1) VNone))
    {[ "ratio_id" := VInt 994 ]} = true
  ∧ device_calls
      (w_trace (services.async_call
                  (remote.async_setup_entry (sim.device (VInt 1) VNone))
                  "update_ratio" {[ "ratio_id" := VInt 994 ]}
                  (sim.world sim.healthy (sim.device (VInt 1) VNone))).1)
    = [("update", [VInt 994])].
Proof. split; vm_compute; reflexivity. Qed.

(** C2, counterexample: the frame written during USB discovery has a
    body of three characters, too short for an address and a command of
    two characters each. *)
Lemma identification_frame_breaks_wire_format :
  (config_flow._query_serial_device 115200 sim.port "/dev/ttyUSB0").1 = ["[01Y]"]
  ∧ ¬ config_flow.wire_format "[01Y]".
Proof.
  split; [reflexivity |].
  intros (addr & cmd & payload & Ha & Hc & Heq).
  destruct addr as [| a1 [| a2 [| ? ?]]]; try discriminate.
  destruct cmd as [| c1 [| c2 [| ? ?]]]; try discriminate.
  cbn in Heq. injection Heq as _ _ _ Hrest.
  destruct payload; discriminate.
Qed.

(** A frame with a command of two characters does have the format. *)
Example wire_format_example : config_flow.wire_format "[01PS50]".
Proof. by exists "01", "PS", "50". Qed.

(** C3 on a controller that never reports its motors: set-up sleeps
    all twenty times and returns [False]. *)
Lemma setup_polls_silent_controller :
  (21 ≤ 21)%nat
  ∧ sleeps (w_trace
              (init.async_setup_entry 21 (system_info (sim.device (VInt 1) VNone))
                 (sim.world sim.silent (sim.device (VInt 1) VNone))).1)
    = repeat 0.5%float 20
  ∧ (init.async_setup_entry 21 (system_info (sim.device (VInt 1) VNone))
       (sim.world sim.silent (sim.device (VInt 1) VNone))).2
    = Return (Some false).
Proof.
  split; [lia |].
  destruct (setup_polls_motors_for_ten_seconds 21
              (system_info (sim.device (VInt 1) VNone))
              (sim.world sim.silent (sim.device (VInt 1) VNone)) (le_n 21))
    as (n & new & Ht & Hs & _ & _ & _ & _ & _ & _ & _ & Hpolls).
  destruct (Hpolls sim.silent sim.silent sim.silent sim.silent
              (sim.device (VInt 1) VNone) (sim.device (VInt 1) VNone)
              (sim.device (VInt 1) VNone) (sim.device (VInt 1) VNone)
              VNone VNone VNone VNone eq_refl eq_refl eq_refl eq_refl)
    as (_ & _ & Hstop & _).
  destruct Hstop as [-> Hr]; [vm_compute; reflexivity |].
  split; [| exact Hr]. rewrite Ht. exact Hs.
Defined.

(** The same set-up, run: twenty sleeps, then [False]; with motors that
    arrive during the third sleep, three sleeps, then [True]. *)
Example setup_runs :
  ((init.async_setup_entry 21 (system_info (sim.device (VInt 1) VNone))
      (sim.world sim.silent (sim.device (VInt 1) VNone))).2
   = Return (Some false))
  ∧ length (sleeps (w_trace
       (init.async_setup_entry 21 (system_info (sim.device (VInt 1) VNone))
          (sim.world sim.silent (sim.device (VInt 1) VNone))).1)) = 20%nat
  ∧ ((init.async_setup_entry 21 (system_info (sim.device (VInt 1) VNone))
        (sim.world sim.healthy (sim.device (VInt 1) VNone))).2
     = Return (Some true))
  ∧ sleeps (w_trace
       (init.async_setup_entry 21 (system_info (sim.device (VInt 1) VNone))
          (sim.world sim.healthy (sim.device (VInt 1) VNone))).1)
    = [0.5; 0.5; 0.5]%float.
Proof. repeat split; vm_compute; reflexivity. Qed.

(** C4 on the simulated controller: a connect that times out, and a
    homing command on a link that is down. *)
Lemma unplugged_setup_and_flaky_home :
  (init.async_setup_entry 21 (system_info (sim.device (VInt 1) VNone))
     (sim.world sim.unplugged (sim.device (VInt 1) VNone))).2
  = Return (Some false)
  ∧ (remote.home_motors_service {[ "motor_id" := VStr "T" ]}
       (sim.world (sim.flaky "home") (sim.device (VInt 1) VNone))).2
    = Return tt.
Proof.
  split.
  - destruct (setup_failure_aborts_command_failure_is_logged 21
                (system_info (sim.device (VInt 1) VNone)) ∅
                (sim.world sim.unplugged (sim.device (VInt 1) VNone)))
      as [Hsetup _].
    edestruct Hsetup as [msg Hrun].
    + vm_compute. reflexivity.
    + left. vm_compute. reflexivity.
    + by rewrite Hrun.
  - destruct (setup_failure_aborts_command_failure_is_logged 0
                (system_info (sim.device (VInt 1) VNone))
                {[ "motor_id" := VStr "T" ]}
                (sim.world (sim.flaky "home") (sim.device (VInt 1) VNone)))
      as [_ Hcmd].
    edestruct (Hcmd remote.home_motors_service "home") as (debug & msg & Hrun).
    + apply list_elem_of_here.
    + vm_compute. reflexivity.
    + left. vm_compute. reflexivity.
    + by rewrite Hrun.
Defined.

(** C6 on the simulated controller: moving the top motor in, in percent
    mode. *)
Lemma move_top_motor_in :
  device_calls
    (w_trace (services.async_call
                (remote.async_setup_entry (sim.device (VInt 1) VNone))
                "move_motors"
                (<["direction" := VStr "in"]>
                   (<["motor_id" := VStr "T"]> {[ "movement_code" := VStr "P" ]}))
                (sim.world sim.healthy (sim.device (VInt 1) VNone))).1)
  = [("move_motors", [VStr "in"; VStr "T"])].
Proof.
  destruct (move_motors_service_contract (sim.device (VInt 1) VNone)
              (<["direction" := VStr "in"]>
                 (<["motor_id" := VStr "T"]> {[ "movement_code" := VStr "P" ]}))
              (sim.world sim.healthy (sim.device (VInt 1) VNone)))
    as (_ & _ & Hacc).
  destruct Hacc as (d & m & Hd & Hm & _ & _ & Hcalls & _);
    [vm_compute; reflexivity |].
  rewrite Hcalls.
  vm_compute in Hd. vm_compute in Hm.
  injection Hd as <-. injection Hm as <-. reflexivity.
Defined.

(** C7 on the simulated controller, starting in percent mode: the
    switch turned on and off again leaves ["P"]. *)
Lemma jog_toggle_twice_from_percent :
  current_movement_code
    (mask_ratio_settings
       (w_device
          (SeymourSwitch.async_turn_off 0 "jog_mode"
             (SeymourSwitch.async_turn_on 0 "jog_mode"
                (sim.world sim.healthy (sim.device (VInt 1) (VStr "P")))).1).1))
  = VStr "P".
Proof.
  destruct (jog_toggle_twice_restores_code 0
              (sim.world sim.healthy (sim.device (VInt 1) (VStr "P")))
              sim.healthy sim.healthy VNone VNone)
    as (_ & _ & _ & _ & _ & _ & Hcode).
  - reflexivity.
  - reflexivity.
  - exact Hcode.
Defined.

(** Starting in jog mode, the first call switches jog mode off and the
    second switches it on again. *)
Example jog_toggle_twice_from_jog :
  current_movement_code
    (mask_ratio_settings
       (w_device
          (SeymourSwitch.async_turn_on 0 "jog_mode"
             (sim.world sim.healthy (sim.device (VInt 1) (VStr "J")))).1))
  = VNone
  ∧ current_movement_code
      (mask_ratio_settings
         (w_device
            (SeymourSwitch.async_turn_off 0 "jog_mode"
               (SeymourSwitch.async_turn_on 0 "jog_mode"
                  (sim.world sim.healthy (sim.device (VInt 1) (VStr "J")))).1).1))
    = VStr "J".
Proof. split; vm_compute; reflexivity. Qed.

(** C8, counterexample: the empty command is a string other than
    ["set_aspect_ratio"], and the call returns normally. *)
Lemma send_command_empty_string_returns :
  "" ≠ "set_aspect_ratio"
  ∧ remote.async_send_command (remote.CmdStr "") (VStr "")
      (sim.world sim.healthy (sim.device (VInt 1) VNone))
    = (sim.world sim.healthy (sim.device (VInt 1) VNone), Return tt).
Proof. split; [done | reflexivity]. Qed.

(** C8 (amended) on the command ["home"]: refused at its first
    character. *)
Lemma send_command_home_is_refused :
  "home" ≠ "set_aspect_ratio"
  ∧ remote.async_send_command (remote.CmdStr "home") (VStr "")
      (sim.world sim.healthy (sim.device (VInt 1) VNone))
    = (sim.world sim.healthy (sim.device (VInt 1) VNone),
       Raise (mkExn HomeAssistantError "h is not a known command")).
Proof.
  split; [done |].
  apply (send_command_string_never_reaches_device "home" (VStr "")
           (sim.world sim.healthy (sim.device (VInt 1) VNone))).
  done.
Defined.

(** Called the way the remote platform calls it, with a list of
    commands, the same command reaches the device. *)
Example send_command_list_reaches_device :
  device_calls
    (w_trace (remote.async_send_command (remote.CmdList ["home"]) (VStr "")
                (sim.world sim.healthy (sim.device (VInt 1) VNone))).1)
  = [("home", [])].
Proof. vm_compute. reflexivity. Qed.

(** C9 on the simulated controller: the device is in jog mode, a move
    in percent mode fails on a link that is down, and the device is left
    in percent mode. *)
Lemma failed_move_leaves_percent_mode :
  (services.async_call
     (remote.async_setup_entry (sim.device (VInt 1) (VStr "J"))) "move_motors"
     (<["direction" := VStr "in"]>
        (<["motor_id" := VStr "T"]> {[ "movement_code" := VStr "P" ]}))
     (sim.world (sim.flaky "move_motors") (sim.device (VInt 1) (VStr "J")))).2
  = Return tt
  ∧ current_movement_code
      (mask_ratio_settings
         (w_device
            (services.async_call
               (remote.async_setup_entry (sim.device (VInt 1) (VStr "J")))
               "move_motors"
               (<["direction" := VStr "in"]>
                  (<["motor_id" := VStr "T"]> {[ "movement_code" := VStr "P" ]}))
               (sim.world (sim.flaky "move_motors")
                  (sim.device (VInt 1) (VStr "J")))).1))
    = VStr "P".
Proof.
  destruct (failed_move_keeps_new_movement_code
              (sim.device (VInt 1) (VStr "J"))
              (<["direction" := VStr "in"]>
                 (<["motor_id" := VStr "T"]> {[ "movement_code" := VStr "P" ]}))
              (sim.world (sim.flaky "move_motors") (sim.device (VInt 1) (VStr "J")))
              "in" "T" (sim.flaky "move_motors")
              (set_current_movement_code (VStr "P") (sim.device (VInt 1) (VStr "J")))
              (mkExn ConnectionError "link down"))
    as (Hret & _ & Hcode).
  - vm_compute. reflexivity.
  - vm_compute. reflexivity.
  - vm_compute. reflexivity.
  - vm_compute. reflexivity.
  - left. vm_compute. reflexivity.
  - vm_compute. reflexivity.
  - split; assumption.
Defined.

(** C10 on a device whose current ratio is unset: the width sensor
    raises, the ratio select shows the empty string. *)
Lemma width_sensor_raises_on_unset_ratio :
  (∃ msg,
     sensor.native_value
       (sensor.mkDescription "width" "Screen Width" None None
          (fun device => sensor.subscript_ratio device width))
       (sim.world sim.healthy (sim.device VNone VNone))
     = (sim.world sim.healthy (sim.device VNone VNone),
        Raise (mkExn KeyError msg)))
  ∧ select.current_option (sim.device VNone VNone)
      (mkEntity SeymourSelect "ratio" "SN1-ratio" []) = Return "".
Proof.
  apply (screen_sensors_raise_where_select_guards
           (sensor.mkDescription "width" "Screen Width" None None
              (fun device => sensor.subscript_ratio device width))
           (mkEntity SeymourSelect "ratio" "SN1-ratio" [])
           (sim.world sim.healthy (sim.device VNone VNone))).
  - reflexivity.
  - do 4 apply list_elem_of_further. apply list_elem_of_here.
  - apply list_elem_of_here.
  - reflexivity.
Defined.

(* ===================================================================== *)
(** * Further properties of the glue                                      *)
(* ===================================================================== *)

(** ** remote.py: the aspect-ratio command and the remaining services *)

Lemma ratio_service_name_inj (k1 k2 : Z) :
  "set_aspect_ratio_" +:+ pretty k1 = "set_aspect_ratio_" +:+ pretty k2 → k1 = k2.
Proof. intros Heq. cbn in Heq. simplify_eq. by apply (inj pretty). Qed.

(** Registering one service per key: the service of a key of the list is
    the one registered for it, whatever was registered before. *)
Lemma lookup_foldl_register {V : Type} (name : Z → string) (svc : Z → V)
    (l : list Z) (acc : gmap string V) (k : Z) :
  (∀ k1 k2, name k1 = name k2 → k1 = k2) →
  foldl (fun reg key => <[name key := svc key]> reg) acc l !! name k
  = if bool_decide (k ∈ l) then Some (svc k) else acc !! name k.
Proof.
  intros Hinj. revert acc. induction l as [| j l IH]; intros acc; [done |].
  cbn [foldl]. rewrite IH.
  destruct (decide (k ∈ l)) as [Hin | Hnin].
  - rewrite !bool_decide_eq_true_2; [done | by apply list_elem_of_further | done].
  - rewrite (bool_decide_eq_false_2 (k ∈ l)) by done.
    destruct (decide (k = j)) as [-> | Hne].
    + rewrite lookup_insert_eq.
      by rewrite bool_decide_eq_true_2 by apply list_elem_of_here.
    + rewrite lookup_insert_ne by (intros ?%Hinj; done).
      rewrite bool_decide_eq_false_2; [done |].
      rewrite elem_of_cons. by intros [? | ?].
Qed.

Section RemoteExtras.
Context {Env : Type} `{!DeviceModule Env}.

(** What one awaited device call inside a [try] with the clauses for
    [ConnectionError] and [ValueError] does, as every motor handler and
    [update_ratio_service] have it. *)
Lemma guarded_call_run (debug conn_msg val_msg method : string)
    (args : list PyVal) (w : World Env) :
  bind (log DEBUG debug)
    (fun _ =>
       try_except (bind (await_device method args) (fun _ => ret tt))
         [ (ConnectionError, fun _ => log ERROR conn_msg);
           (ValueError, fun _ => log ERROR val_msg) ]) w
  = let '(env', dev', r) := device_call method args (w_env w) (w_device w) in
    let after := mkWorld env' dev' (w_entities w) (w_dispatcher w)
                   (w_trace w ++ [Log DEBUG debug; DeviceCall method args]) in
    match r with
    | Return _ => (after, Return tt)
    | Raise e =>
        if isinstance e ConnectionError then (push [Log ERROR conn_msg] after, Return tt)
        else if isinstance e ValueError then (push [Log ERROR val_msg] after, Return tt)
        else (after, Raise e)
    end.
Proof.
  unfold bind, try_except, log, emit, await_device, ret, push.
  cbn [w_env w_device w_trace w_entities w_dispatcher].
  destruct (device_call _ _ _ _) as [[env' dev'] [v | e]];
    cbn [select_handler]; [by rewrite <- ?app_assoc |].
  destruct (isinstance e ConnectionError); [cbn; by rewrite <- ?app_assoc |].
  destruct (isinstance e ValueError); cbn; by rewrite <- ?app_assoc.
Qed.

(** The ["set_aspect_ratio"] command, run. *)
Lemma set_aspect_ratio_run (AR : PyVal) (w : World Env) :
  remote.async_send_command (remote.CmdStr "set_aspect_ratio") AR w
  = if truthy AR then
      let '(env', dev', r) := device_call "select_ratio" [AR] (w_env w) (w_device w) in
      let after := mkWorld env' dev' (w_entities w) (w_dispatcher w)
                     (w_trace w ++ [Log DEBUG "Sending command: %s with AR: %s";
                                    DeviceCall "select_ratio" [AR]]) in
      match r with
      | Return _ => (after, Return tt)
      | Raise e =>
          if isinstance e ConnectionError then
            (push [Log ERROR "Connection error while sending select_ratio: %s"] after,
             Return tt)
          else if isinstance e ValueError then
            (push [Log ERROR "Invalid value for AR in select_ratio: %s"] after,
             Return tt)
          else if isinstance e HomeAssistantError then
            (push [Log ERROR "Home Assistant specific error in select_ratio: %s"] after,
             Return tt)
          else (after, Raise e)
      end
    else (w, Raise (mkExn HomeAssistantError
                      "AR parameter is required for select_ar command")).
Proof.
  unfold remote.async_send_command.
  cbn [remote.is_set_aspect_ratio]. rewrite String.eqb_refl.
  destruct (truthy AR); cbn [negb]; [| reflexivity].
  unfold bind, try_except, log, emit, await_device, ret, push.
  cbn [w_env w_device w_trace w_entities w_dispatcher].
  destruct (device_call _ _ _ _) as [[env' dev'] [v | e]];
    cbn [select_handler]; [by rewrite <- ?app_assoc |].
  destruct (isinstance e ConnectionError); [cbn; by rewrite <- ?app_assoc |].
  destruct (isinstance e ValueError); [cbn; by rewrite <- ?app_assoc |].
  destruct (isinstance e HomeAssistantError); cbn; by rewrite <- ?app_assoc.
Qed.

(** X1.  The command ["set_aspect_ratio"]: with a falsy [AR] (the empty
    string, 0, [None]) it raises [HomeAssistantError] and nothing reaches
    the device; with a truthy [AR] it makes exactly the call
    [select_ratio(AR)], swallows a [ConnectionError], [ValueError] or
    [HomeAssistantError] of that call, and lets every other exception
    through. *)
Theorem set_aspect_ratio_command (AR : PyVal) (w : World Env) :
  let run := remote.async_send_command (remote.CmdStr "set_aspect_ratio") AR w in
  let outcome := device_call "select_ratio" [AR] (w_env w) (w_device w) in
  (truthy AR = false →
   run = (w, Raise (mkExn HomeAssistantError
                      "AR parameter is required for select_ar command")))
  ∧ (truthy AR = true →
     device_calls (w_trace run.1)
       = (device_calls (w_trace w) ++ [("select_ratio", [AR])])%list
     ∧ (w_env run.1, w_device run.1) = outcome.1
     ∧ (is_raise outcome.2 = false → run.2 = Return tt)
     ∧ (∀ e, outcome.2 = Raise e →
          run.2 = if isinstance e ConnectionError || isinstance e ValueError
                     || isinstance e HomeAssistantError
                  then Return tt else Raise e)).
Proof.
  cbv zeta. rewrite set_aspect_ratio_run. split; intros ->; [reflexivity |].
  destruct (device_call _ _ _ _) as [[env' dev'] [v | e]].
  - cbn. rewrite !device_calls_app. cbn. rewrite ?app_nil_r.
    repeat split; try done.
  - cbn [snd fst].
    destruct (isinstance e ConnectionError) eqn:Hc;
      [| destruct (isinstance e ValueError) eqn:Hv;
         [| destruct (isinstance e HomeAssistantError) eqn:Hh]];
      cbn; rewrite !device_calls_app; cbn; rewrite ?app_nil_r;
      repeat split; try done; intros ? [= <-]; by rewrite ?Hc, ?Hv, ?Hh.
Qed.

Lemma lookup_ratio_service (device : Device) (k : Z) :
  is_Some (ratios (mask_ratio_settings device) !! k) →
  remote.async_setup_entry device !! ("set_aspect_ratio_" +:+ pretty k)
  = Some (services.mkService
            (fun _ => remote.async_send_command
                        (remote.CmdStr "set_aspect_ratio") (VInt k))
            None).
Proof.
  intros Hk. unfold remote.async_setup_entry.
  do 5 (rewrite lookup_insert_ne by done).
  rewrite (lookup_foldl_register
             (fun key => "set_aspect_ratio_" +:+ pretty key)
             (fun key => services.mkService
                (fun _ => remote.async_send_command
                            (remote.CmdStr "set_aspect_ratio") (VInt key)) None)
             _ ∅ k ratio_service_name_inj).
  rewrite bool_decide_eq_true_2; [done |].
  unfold remote.ratio_id_list. by apply elem_of_keys.
Qed.

(** X2.  For every key [k] of the ratio table, set-up registers the
    service [set_aspect_ratio_<k>] without a schema: whatever data the
    call carries, it runs the ["set_aspect_ratio"] command with [AR = k].
    For a key other than 0 that is exactly the call [select_ratio(k)];
    for the key 0, which is falsy, the service raises
    [HomeAssistantError] and never reaches the device. *)
Theorem ratio_services_select_their_key
    (device : Device) (k : Z) (data : gmap string PyVal) (w : World Env) :
  is_Some (ratios (mask_ratio_settings device) !! k) →
  let call :=
    services.async_call (remote.async_setup_entry device)
      ("set_aspect_ratio_" +:+ pretty k) data w in
  call = remote.async_send_command (remote.CmdStr "set_aspect_ratio") (VInt k) w
  ∧ (k ≠ 0 →
     device_calls (w_trace call.1)
       = (device_calls (w_trace w) ++ [("select_ratio", [VInt k])])%list)
  ∧ (k = 0 →
     call = (w, Raise (mkExn HomeAssistantError
                         "AR parameter is required for select_ar command"))).
Proof.
  intros Hk. cbv zeta.
  assert (Hcall : services.async_call (remote.async_setup_entry device)
                    ("set_aspect_ratio_" +:+ pretty k) data w
                  = remote.async_send_command
                      (remote.CmdStr "set_aspect_ratio") (VInt k) w).
  { unfold services.async_call. rewrite (lookup_ratio_service device k Hk).
    reflexivity. }
  rewrite Hcall. split; [done |]. rewrite set_aspect_ratio_run. split.
  - intros Hne. cbn [truthy]. destruct (Z.eqb_spec k 0) as [? | _]; [done |].
    cbn [negb]. destruct (device_call _ _ _ _) as [[env' dev'] [v | e]].
    + cbn. rewrite !device_calls_app. cbn. by rewrite ?app_nil_r.
    + destruct (isinstance e ConnectionError);
        [| destruct (isinstance e ValueError);
           [| destruct (isinstance e HomeAssistantError)]];
        cbn; rewrite !device_calls_app; cbn; by rewrite ?app_nil_r.
  - intros ->. reflexivity.
Qed.

End RemoteExtras.

(** Lower case: of a concatenation, and of a number in decimal. *)
Lemma lower_app (s1 s2 : string) :
  pystr.lower (s1 +:+ s2) = pystr.lower s1 +:+ pystr.lower s2.
Proof.
  induction s1 as [| c s1 IH]; [done |].
  change (pystr.lower (String c s1 +:+ s2))
    with (String (pystr.lower_char c) (pystr.lower (s1 +:+ s2))).
  by rewrite IH.
Qed.

Lemma lower_pretty_N_go (x : N) (s : string) :
  pystr.lower s = s → pystr.lower (pretty_N_go x s) = pretty_N_go x s.
Proof.
  revert s. induction (N.lt_wf_0 x) as [x _ IH]; intros s Hs.
  assert (x = 0 ∨ 0 < x)%N as [-> | Hx] by lia.
  - by rewrite pretty_N_go_0.
  - rewrite pretty_N_go_step by done. apply IH; [by apply N.div_lt |].
    cbn [pystr.lower]. rewrite Hs. f_equal.
    unfold pretty_N_char. by repeat case_match.
Qed.

Lemma lower_pretty_Z (k : Z) : pystr.lower (pretty k) = pretty k.
Proof.
  assert (HN : ∀ n : N, pystr.lower (pretty n) = pretty n).
  { intros n. unfold pretty, pretty_N. case_decide; [done |].
    by apply lower_pretty_N_go. }
  destruct k as [| p | p]; [done | apply (HN (N.pos p)) |].
  change (pretty (Z.neg p)) with ("-" +:+ pretty (N.pos p)).
  rewrite lower_app. f_equal. apply HN.
Qed.

Lemma is_Some_foldl_register {V : Type} (name : Z → string) (svc : Z → V)
    (l : list Z) (acc : gmap string V) (n : string) :
  is_Some (foldl (fun reg key => <[name key := svc key]> reg) acc l !! n)
  ↔ is_Some (acc !! n) ∨ ∃ k, k ∈ l ∧ n = name k.
Proof.
  revert acc. induction l as [| j l IH]; intros acc.
  - cbn. split; [by left |]. intros [? | (k & Hk & _)]; [done |].
    by apply elem_of_nil in Hk.
  - cbn [foldl]. rewrite IH. rewrite lookup_insert_is_Some. split.
    + intros [[<- | [_ ?]] | (k & Hk & ->)].
      * right. exists j. split; [apply list_elem_of_here | done].
      * by left.
      * right. exists k. split; [by apply list_elem_of_further | done].
    + intros [Hacc | (k & Hk & ->)].
      * destruct (decide (name j = n)); [by left; left | by left; right].
      * apply elem_of_cons in Hk as [-> | Hk]; [by left; left |].
        right. by exists k.
Qed.

Section ServiceExtras.
Context {Env : Type} `{!DeviceModule Env}.

(** What the guarded call of a handler amounts to: one device
    operation, whose outcome decides the outcome of the handler. *)
Lemma guarded_call_facts (debug conn_msg val_msg method : string)
    (args : list PyVal) (w : World Env) :
  let run :=
    bind (log DEBUG debug)
      (fun _ =>
         try_except (bind (await_device method args) (fun _ => ret tt))
           [ (ConnectionError, fun _ => log ERROR conn_msg);
             (ValueError, fun _ => log ERROR val_msg) ]) w in
  let outcome := device_call method args (w_env w) (w_device w) in
  device_calls (w_trace run.1) = (device_calls (w_trace w) ++ [(method, args)])%list
  ∧ (w_env run.1, w_device run.1) = outcome.1
  ∧ (is_raise outcome.2 = false → run.2 = Return tt)
  ∧ (∀ e, outcome.2 = Raise e →
       run.2 = if isinstance e ConnectionError || isinstance e ValueError
               then Return tt else Raise e).
Proof.
  cbv zeta. rewrite guarded_call_run.
  destruct (device_call _ _ _ _) as [[env' dev'] [v | e]].
  - cbn. rewrite !device_calls_app. cbn. rewrite ?app_nil_r.
    repeat split; try done.
  - cbn [snd fst].
    destruct (isinstance e ConnectionError) eqn:Hc;
      [| destruct (isinstance e ValueError) eqn:Hv];
      cbn; rewrite !device_calls_app; cbn; rewrite ?app_nil_r;
      repeat split; try done; intros ? [= <-]; by rewrite ?Hc, ?Hv.
Qed.

Lemma accepts_motor_schema (data : gmap string PyVal) :
  vol.accepts remote.motor_schema data = true ↔
  ∃ m, data = {[ "motor_id" := VStr m ]} ∧ is_Some (MOTOR_IDS !! m).
Proof.
  unfold remote.motor_schema. rewrite accepts_single_required.
  unfold remote.motor_id_keys. split.
  - intros (v & -> & Hv). apply py_in_strs in Hv as (m & -> & Hm).
    exists m. split; [done |]. by apply elem_of_str_keys.
  - intros (m & -> & Hm). exists (VStr m). split; [done |].
    apply py_in_strs. exists m. split; [done |]. by apply elem_of_str_keys.
Qed.

(** X3.  The services [home_motors], [halt_motors] and
    [calibrate_motors] accept exactly a dict with the single key
    [motor_id] holding a key of [MOTOR_IDS]; anything else raises out of
    the schema with the world untouched.  An accepted call makes exactly
    one device call, [home], [halt] or [calibrate] of that motor; the
    handler returns normally when the call succeeds or raises
    [ConnectionError] or [ValueError], and lets any other exception (a
    [TimeoutError], say) through to the caller. *)
Theorem motor_services_contract
    (device : Device) (name method : string) (data : gmap string PyVal)
    (w : World Env) :
  (name, method) ∈ [ ("home_motors", "home"); ("halt_motors", "halt");
                     ("calibrate_motors", "calibrate") ] →
  let accepted := vol.accepts remote.motor_schema data in
  let call := services.async_call (remote.async_setup_entry device) name data w in
  (accepted = true ↔
     ∃ m, data = {[ "motor_id" := VStr m ]} ∧ is_Some (MOTOR_IDS !! m))
  ∧ (accepted = false →
     call = (w, Raise (mkExn MultipleInvalid "invalid service data")))
  ∧ (∀ m, data = {[ "motor_id" := VStr m ]} → is_Some (MOTOR_IDS !! m) →
       let outcome := device_call method [VStr m] (w_env w) (w_device w) in
       device_calls (w_trace call.1)
         = (device_calls (w_trace w) ++ [(method, [VStr m])])%list
       ∧ (w_env call.1, w_device call.1) = outcome.1
       ∧ (is_raise outcome.2 = false → call.2 = Return tt)
       ∧ (∀ e, outcome.2 = Raise e →
            call.2 = if isinstance e ConnectionError || isinstance e ValueError
                     then Return tt else Raise e)).
Proof.
  intros Hin. cbv zeta.
  split; [apply accepts_motor_schema |].
  rewrite !elem_of_cons, elem_of_nil in Hin.
  destruct Hin as [[= -> ->] | [[= -> ->] | [[= -> ->] | []]]].
  - assert (Hreg : remote.async_setup_entry device !! "home_motors"
                   = Some (services.mkService remote.home_motors_service
                             (Some remote.motor_schema))).
    { unfold remote.async_setup_entry.
      do 3 (rewrite lookup_insert_ne by done). apply lookup_insert_eq. }
    split.
    + intros Hacc. by rewrite (async_call_rejected _ _ _ _ _ _ Hreg eq_refl Hacc).
    + intros m -> Hm.
      assert (Hacc : vol.accepts remote.motor_schema {[ "motor_id" := VStr m ]} = true).
      { apply accepts_motor_schema. by exists m. }
      rewrite (async_call_accepted _ _ _ _ _ _ Hreg eq_refl Hacc).
      apply (guarded_call_facts _ _ _ "home" [VStr m] w).
  - assert (Hreg : remote.async_setup_entry device !! "halt_motors"
                   = Some (services.mkService remote.halt_motors_service
                             (Some remote.motor_schema))).
    { unfold remote.async_setup_entry.
      do 2 (rewrite lookup_insert_ne by done). apply lookup_insert_eq. }
    split.
    + intros Hacc. by rewrite (async_call_rejected _ _ _ _ _ _ Hreg eq_refl Hacc).
    + intros m -> Hm.
      assert (Hacc : vol.accepts remote.motor_schema {[ "motor_id" := VStr m ]} = true).
      { apply accepts_motor_schema. by exists m. }
      rewrite (async_call_accepted _ _ _ _ _ _ Hreg eq_refl Hacc).
      apply (guarded_call_facts _ _ _ "halt" [VStr m] w).
  - assert (Hreg : remote.async_setup_entry device !! "calibrate_motors"
                   = Some (services.mkService remote.calibrate_motors_service
                             (Some remote.motor_schema))).
    { unfold remote.async_setup_entry.
      do 1 (rewrite lookup_insert_ne by done). apply lookup_insert_eq. }
    split.
    + intros Hacc. by rewrite (async_call_rejected _ _ _ _ _ _ Hreg eq_refl Hacc).
    + intros m -> Hm.
      assert (Hacc : vol.accepts remote.motor_schema {[ "motor_id" := VStr m ]} = true).
      { apply accepts_motor_schema. by exists m. }
      rewrite (async_call_accepted _ _ _ _ _ _ Hreg eq_refl Hacc).
      apply (guarded_call_facts _ _ _ "calibrate" [VStr m] w).
Qed.

(** X4.  An accepted [update_ratio] call makes exactly the device call
    [update(ratio_id)], with the value as it was given: it is equal to
    an integer of the domain, but a boolean or a float that is
    ([True], 994.0) reaches the device as that boolean or float.  The
    handler returns normally when the call succeeds or raises
    [ConnectionError] or [ValueError], and lets any other exception
    through. *)
Theorem update_ratio_service_contract
    (device : Device) (v : PyVal) (w : World Env) :
  vol.accepts (remote.update_ratio_schema device) {[ "ratio_id" := v ]} = true →
  let call :=
    services.async_call (remote.async_setup_entry device) "update_ratio"
      {[ "ratio_id" := v ]} w in
  let outcome := device_call "update" [v] (w_env w) (w_device w) in
  (∃ k, py_eq v (VInt k) = true
        ∧ (is_Some (ratios (mask_ratio_settings device) !! k) ∨ 990 ≤ k ≤ 999))
  ∧ device_calls (w_trace call.1) = (device_calls (w_trace w) ++ [("update", [v])])%list
  ∧ (w_env call.1, w_device call.1) = outcome.1
  ∧ (is_raise outcome.2 = false → call.2 = Return tt)
  ∧ (∀ e, outcome.2 = Raise e →
       call.2 = if isinstance e ConnectionError || isinstance e ValueError
                then Return tt else Raise e).
Proof.
  intros Hacc. cbv zeta. split.
  - unfold remote.update_ratio_schema in Hacc.
    apply accepts_single_required in Hacc as (v' & Heq & Hv).
    apply (f_equal (lookup "ratio_id")) in Heq.
    rewrite !lookup_singleton_eq in Heq. injection Heq as ->.
    by apply py_in_options in Hv.
  - rewrite (async_call_accepted _ _ _ _ _ _ (lookup_update_ratio device) eq_refl Hacc).
    cbn [services.handler vol.insert_defaults remote.update_ratio_schema].
    assert (Hget : data_get {[ "ratio_id" := v ]} "ratio_id" = v).
    { unfold data_get. by rewrite lookup_singleton_eq. }
    pose proof (guarded_call_facts "Updating ratio with ratio_id: %s"
                  "Connection error while updating ratio with ID '%s': %s"
                  "Invalid ratio ID for update: %s" "update" [v] w) as Hfacts.
    unfold remote.update_ratio_service. rewrite Hget. exact Hfacts.
Qed.

(** X5.  Through the registry, [move_motors] never logs "Invalid
    direction": the schema has refused such a call before the handler
    runs.  Called on data that did not go through the schema, with a
    direction other than ["in"] and ["out"], the handler logs that
    error and makes no device call, but has already overwritten
    [current_movement_code]. *)
Theorem invalid_direction_only_without_schema
    (device : Device) (data : gmap string PyVal) (w : World Env) :
  let call := services.async_call (remote.async_setup_entry device) "move_motors" data w in
  let direct := remote.move_motors_service data w in
  (∃ new, w_trace call.1 = (w_trace w ++ new)%list
          ∧ Log ERROR "Invalid direction: %s" ∉ new)
  ∧ (data_get data "direction" ≠ VStr "in" →
     data_get data "direction" ≠ VStr "out" →
     direct =
       (mkWorld (w_env w)
          (set_current_movement_code (data_get data "movement_code") (w_device w))
          (w_entities w) (w_dispatcher w)
          (w_trace w ++
             [Log DEBUG "Moving motor(s) '%s' (%s) in direction: %s with movement code: %s";
              Log ERROR "Invalid direction: %s"]),
        Return tt)).
Proof.
  cbv zeta. split.
  - destruct (vol.accepts remote.move_motors_schema data) eqn:Hacc.
    + pose proof Hacc as Hdom. apply accepts_move_motors in Hdom.
      destruct Hdom as [Hd [[m [Hm _]] _]].
      assert (∃ d, (d = "in" ∨ d = "out") ∧ data !! "direction" = Some (VStr d))
        as [d [Hd' Hdir]].
      { destruct Hd; [exists "in" | exists "out"]; auto. }
      rewrite (async_call_accepted _ _ _ _ _ _ (lookup_move_motors device) eq_refl Hacc).
      cbn [services.handler].
      rewrite (move_motors_service_run _ w d (VStr m) Hd').
      2: { rewrite data_get_defaults_move_motors. unfold data_get. by rewrite Hdir. }
      2: { rewrite data_get_defaults_move_motors. unfold data_get. by rewrite Hm. }
      destruct (device_call _ _ _ _) as [[env' dev'] [v | e]];
        [| destruct (isinstance e ConnectionError);
           [| destruct (isinstance e ValueError)]];
        cbn [fst w_trace push]; rewrite <- ?app_assoc; eexists;
        (split; [reflexivity |]);
        cbn [app];
        repeat (apply not_elem_of_cons; split; [discriminate |]);
        apply not_elem_of_nil.
    + rewrite (async_call_rejected _ _ _ _ _ _ (lookup_move_motors device) eq_refl Hacc).
      exists []. cbn. rewrite app_nil_r. split; [done | apply not_elem_of_nil].
  - intros Hin Hout. unfold remote.move_motors_service.
    unfold bind, try_except, log, emit, modify_device.
    cbn [w_env w_device w_trace w_entities w_dispatcher].
    rewrite !bool_decide_eq_false_2 by done. cbn. by rewrite <- app_assoc.
Qed.

(** X6.  The services set-up registers are the five fixed ones and one
    [set_aspect_ratio_<k>] per key [k] of the ratio table, nothing else,
    and every one of these names is in lower case.  A call finds a
    service by its name as given or, failing that, in lower case, so a
    spelling such as ["Update_Ratio"] runs the registered service; a
    name that is registered neither way raises [ServiceNotFound] with
    the world untouched. *)
Theorem registered_services (device : Device) (name : string)
    (data : gmap string PyVal) (w : World Env) :
  let registry := remote.async_setup_entry device in
  let registered (n : string) :=
    n ∈ ["move_motors"; "home_motors"; "halt_motors"; "calibrate_motors";
         "update_ratio"]
    ∨ ∃ k, is_Some (ratios (mask_ratio_settings device) !! k)
           ∧ n = "set_aspect_ratio_" +:+ pretty k in
  (is_Some (registry !! name) ↔ registered name)
  ∧ (registered name → pystr.lower name = name)
  ∧ (registered (pystr.lower name) →
     services.async_call registry name data w
       = services.async_call registry (pystr.lower name) data w)
  ∧ (¬ registered (pystr.lower name) →
     services.async_call registry name data w
       = (w, Raise (mkExn ServiceNotFound (pystr.lower name)))).
Proof.
  cbv zeta.
  assert (Hreg : ∀ n, is_Some (remote.async_setup_entry device !! n)
            ↔ n ∈ ["move_motors"; "home_motors"; "halt_motors"; "calibrate_motors";
                   "update_ratio"]
              ∨ ∃ k, is_Some (ratios (mask_ratio_settings device) !! k)
                     ∧ n = "set_aspect_ratio_" +:+ pretty k).
  { intros n. unfold remote.async_setup_entry.
    rewrite !lookup_insert_is_Some, is_Some_foldl_register.
    rewrite lookup_empty, !elem_of_cons, elem_of_nil.
    unfold remote.ratio_id_list.
    assert (Hkeys : (∃ k, k ∈ (map_to_list (ratios (mask_ratio_settings device))).*1
                          ∧ n = "set_aspect_ratio_" +:+ pretty k)
                    ↔ ∃ k, is_Some (ratios (mask_ratio_settings device) !! k)
                           ∧ n = "set_aspect_ratio_" +:+ pretty k).
    { split; intros (k & Hk & ->); exists k; (split; [| done]);
        by apply elem_of_keys. }
    rewrite Hkeys. clear Hkeys.
    split.
    + intros [<- | [_ [<- | [_ [<- | [_ [<- | [_ [<- | [_ [[? [=]] | Hk]]]]]]]]]]];
        auto 10.
    + intros [[-> | [-> | [-> | [-> | [-> | []]]]]] | (k & Hk & ->)].
      * do 4 (right; split; [done |]). by left.
      * do 3 (right; split; [done |]). by left.
      * do 2 (right; split; [done |]). by left.
      * do 1 (right; split; [done |]). by left.
      * by left.
      * do 5 (right; split; [done |]). right. by exists k. }
  assert (Hlower : ∀ n,
            n ∈ ["move_motors"; "home_motors"; "halt_motors"; "calibrate_motors";
                 "update_ratio"]
            ∨ (∃ k, is_Some (ratios (mask_ratio_settings device) !! k)
                    ∧ n = "set_aspect_ratio_" +:+ pretty k)
            → pystr.lower n = n).
  { intros n [Hn | (k & _ & ->)].
    - rewrite !elem_of_cons, elem_of_nil in Hn.
      by destruct Hn as [-> | [-> | [-> | [-> | [-> | []]]]]].
    - rewrite lower_app, lower_pretty_Z. reflexivity. }
  split; [apply Hreg |]. split; [apply Hlower |]. split.
  - intros Hr. unfold services.async_call.
    rewrite (Hlower _ Hr). apply Hreg in Hr as [svc Hsvc]. rewrite Hsvc.
    destruct (remote.async_setup_entry device !! name) as [svc' |] eqn:Hname;
      [| done].
    assert (Hr' : is_Some (remote.async_setup_entry device !! name))
      by (by exists svc').
    apply Hreg, Hlower in Hr'. rewrite Hr' in Hsvc. congruence.
  - intros Hnot. unfold services.async_call.
    destruct (remote.async_setup_entry device !! name) as [svc |] eqn:Hname.
    + destruct Hnot. assert (Hr : is_Some (remote.async_setup_entry device !! name))
        by (by exists svc).
      apply Hreg in Hr. by rewrite (Hlower _ Hr).
    + destruct (remote.async_setup_entry device !! pystr.lower name) as [svc |] eqn:Hl;
        [| done].
      destruct Hnot. apply Hreg. by exists svc.
Qed.

End ServiceExtras.

(** ** button.py, select.py, entity.py and the rest of __init__.py *)

(** An instance of [TimeoutError] is an instance of [OSError]. *)
Lemma timeout_is_oserror (e : exn) :
  isinstance e TimeoutError = true → isinstance e OSError = true.
Proof. destruct e as [[] msg]; vm_compute; congruence. Qed.

Section PlatformExtras.
Context {Env : Type} `{!DeviceModule Env}.

(** X7.  Pressing a button logs one debug line and makes the one device
    call of its description, on the device as it is (a move button
    names no motor and leaves [current_movement_code] alone).  Nothing
    is caught: the press raises whatever the call raises. *)
Theorem button_press_is_one_unguarded_call
    (description : button.SeymourButtonEntityDescription) (w : World Env) :
  description ∈ button.BUTTONS →
  ∃ method args,
    (button.key description, method, args) ∈
      [ ("calibrate", "calibrate", []); ("halt", "halt", []);
        ("home", "home", []);
        ("move_motors_in", "move_motors", [VStr "in"]);
        ("move_motors_out", "move_motors", [VStr "out"]);
        ("positions", "get_positions", []);
        ("settings_info", "get_settings_info", []);
        ("status", "get_status", []);
        ("system_info", "get_system_info", []);
        ("update_ratio", "update", []) ]
    ∧ button.async_press description w =
        let '(env', dev', r) := device_call method args (w_env w) (w_device w) in
        (mkWorld env' dev' (w_entities w) (w_dispatcher w)
           (w_trace w ++ [Log DEBUG "Button pressed: %s"; DeviceCall method args]),
         match r with Return _ => Return tt | Raise e => Raise e end).
Proof.
  intros Hin. unfold button.BUTTONS in Hin.
  rewrite !elem_of_cons, elem_of_nil in Hin.
  assert (Hrun : ∀ icon key name method args,
            button.async_press
              (button.mkDescription icon key name (await_device method args)) w
            = let '(env', dev', r) := device_call method args (w_env w) (w_device w) in
              (mkWorld env' dev' (w_entities w) (w_dispatcher w)
                 (w_trace w ++ [Log DEBUG "Button pressed: %s"; DeviceCall method args]),
               match r with Return _ => Return tt | Raise e => Raise e end)).
  { intros. unfold button.async_press, bind, log, emit, await_device, ret.
    cbn [button.press_action w_env w_device w_trace w_entities w_dispatcher].
    destruct (device_call _ _ _ _) as [[env' dev'] [v | e]];
      by rewrite <- app_assoc. }
  decompose [or] Hin; subst; try done;
    do 2 eexists; (split; [| apply Hrun]); cbn [button.key];
    rewrite !elem_of_cons; auto 20.
Qed.

(** The loop over the ratios: without a ratio of that label nothing
    happens; otherwise the first one found is selected. *)
Lemma select_ratio_by_label_run (hasattr : string → bool) (option : PyVal)
    (items : list (Z * RatioInfo)) (w : World Env) :
  ((∀ item, item ∈ items → VStr (label item.2) ≠ option)
   ∧ select.select_ratio_by_label hasattr option items w = (w, Return tt))
  ∨ (∃ item, item ∈ items ∧ VStr (label item.2) = option
       ∧ select.select_ratio_by_label hasattr option items w
         = if hasattr "select_ratio" then
             bind (await_device "select_ratio" [VInt item.1]) (fun _ => ret tt) w
           else log ERROR "Device does not support ratio selection" w).
Proof.
  induction items as [| [key value] rest IH].
  - left. split; [| done]. intros item Hin. by apply elem_of_nil in Hin.
  - cbn [select.select_ratio_by_label].
    destruct (decide (VStr (label value) = option)) as [Heq | Hne].
    + right. exists (key, value). rewrite bool_decide_eq_true_2 by done.
      split; [apply list_elem_of_here |]. split; [done |].
      by destruct (hasattr "select_ratio").
    + rewrite bool_decide_eq_false_2 by done.
      destruct IH as [[Hnone Hrun] | (item & Hin & Hlabel & Hrun)].
      * left. split; [| done]. intros item [-> | Hin]%elem_of_cons; auto.
      * right. exists item. split; [by apply list_elem_of_further |]. done.
Qed.

(** X8.  The ratio select can select what it offers.  An option among
    those [set_states] lists is the label of a ratio of the table, and
    selecting it makes exactly the call [select_ratio(k)] for a key [k]
    carrying that label, whose exception, if any, is raised to the
    caller; an option that is not offered makes no call and changes
    nothing. *)
Theorem ratio_select_selects_what_it_offers
    (hasattr : string → bool) (self : Entity) (option : string) (w : World Env) :
  description_key self = "ratio" →
  hasattr "select_ratio" = true →
  let offered := attr_options (select.set_states (w_device w) self) in
  let run := select.async_select_option hasattr self (VStr option) w in
  (option ∈ offered →
   ∃ k info,
     ratios (mask_ratio_settings (w_device w)) !! k = Some info
     ∧ label info = option
     ∧ run = bind (await_device "select_ratio" [VInt k]) (fun _ => ret tt) w
     ∧ device_calls (w_trace run.1)
       = (device_calls (w_trace w) ++ [("select_ratio", [VInt k])])%list)
  ∧ (option ∉ offered → run = (w, Return tt)).
Proof.
  intros Hkey Hhas. cbv zeta.
  unfold select.set_states, select.async_select_option.
  rewrite Hkey, String.eqb_refl. cbn [attr_options].
  unfold bind at 1. unfold bind at 2. cbn [get_device].
  destruct (select_ratio_by_label_run hasattr (VStr option)
              (map_to_list (ratios (mask_ratio_settings (w_device w)))) w)
    as [[Hnone Hrun] | ([k info] & Hin & Hlabel & Hrun)].
  - rewrite Hrun. split; [| done].
    intros Hoff. apply list_elem_of_fmap in Hoff as (info & -> & Hinfo).
    apply list_elem_of_fmap in Hinfo as ([k info'] & -> & Hitem).
    by destruct (Hnone _ Hitem).
  - rewrite Hrun, Hhas. cbn [fst snd] in *. injection Hlabel as Hlabel. split.
    + intros _. exists k, info. split; [by apply elem_of_map_to_list |].
      split; [done |]. split; [done |].
      unfold bind, await_device, ret.
      destruct (device_call _ _ _ _) as [[env' dev'] [v | e]];
        cbn; rewrite device_calls_app; cbn; by rewrite ?app_nil_r.
    + intros Hoff. destruct Hoff. apply list_elem_of_fmap. exists info.
      split; [done |]. apply list_elem_of_fmap. by exists (k, info).
Qed.

(** X9.  [current_option] never raises, and what it shows is the empty
    string or one of the options [set_states] lists; the one exception
    is the movement-mode select with no mode selected, which shows
    "Move Motor(s) to Limit" whatever its options are. *)
Theorem select_current_option_is_offered (device : Device) (self : Entity) :
  ∃ shown,
    select.current_option device self = Return shown
    ∧ (shown = ""
       ∨ shown ∈ attr_options (select.set_states device self)
       ∨ (description_key self = "movement_code"
          ∧ current_movement_code (mask_ratio_settings device) = VNone
          ∧ shown = "Move Motor(s) to Limit")).
Proof.
  unfold select.current_option, select.set_states.
  destruct (String.eqb_spec (description_key self) "ratio") as [Hr | _].
  { destruct (dict_get _ _) as [info |] eqn:Hget.
    - rewrite bool_decide_eq_true_2 by done. exists (label info).
      split; [done |]. right; left. cbn [attr_options].
      apply dict_get_Some in Hget as [k Hget].
      apply list_elem_of_fmap. exists info. split; [done |].
      apply list_elem_of_fmap. exists (k, info). split; [done |].
      by apply elem_of_map_to_list.
    - rewrite bool_decide_eq_false_2 by (by intros [? ?]).
      exists "". auto. }
  destruct (String.eqb_spec (description_key self) "motor_id") as [Hm | _].
  { destruct (str_dict_get _ _) as [shown |] eqn:Hget; cbn [default];
      [| exists ""; auto].
    exists shown. split; [done |]. right; left. cbn [attr_options].
    destruct (current_motor_id (mask_ratio_settings device)) as [| | | | k];
      try discriminate.
    cbn in Hget. apply list_elem_of_fmap. exists (k, shown). split; [done |].
    by apply elem_of_map_to_list. }
  destruct (String.eqb_spec (description_key self) "movement_code") as [Hc | _].
  { destruct (decide (current_movement_code (mask_ratio_settings device) = VNone))
      as [Hnone | Hsome].
    - rewrite bool_decide_eq_false_2 by (by intros ?).
      exists "Move Motor(s) to Limit". split; [done |]. right; right. done.
    - rewrite bool_decide_eq_true_2 by done.
      destruct (str_dict_get _ _) as [shown |] eqn:Hget; cbn [default];
        [| exists ""; auto].
      exists shown. split; [done |]. right; left. cbn [attr_options].
      destruct (current_movement_code (mask_ratio_settings device)) as [| | | | k];
        try discriminate.
      cbn in Hget. apply list_elem_of_fmap. exists (k, shown). split; [done |].
      by apply elem_of_map_to_list. }
  exists "". auto.
Qed.

(** X10.  Each [async_added_to_hass] connects the entity once more, after
    the connections there are; at the next update signal the entities
    are updated in the order of their connection, the new one last,
    and an entity that was never connected is left alone. *)
Theorem added_entity_is_updated_on_signal
    (self : nat) (message : string) (w : World Env) :
  let signal := const.SEYMOUR_UPDATE_SIGNAL in
  let w1 := (entity.async_added_to_hass self w).1 in
  let run := init.seymour_update_callback message w1 in
  subscribers signal w1 = (subscribers signal w ++ [self])%list
  ∧ w_trace run.1 =
      (w_trace w ++ DispatcherSend signal []
         :: ((subscribers signal w ++ [self])
               ≫= fun i => [SetStates i; WriteHaState i]))%list
  ∧ (∀ i, i ∉ subscribers signal w → i ≠ self →
          w_entities run.1 !! i = w_entities w !! i).
Proof.
  cbv zeta.
  assert (Hsubs : subscribers const.SEYMOUR_UPDATE_SIGNAL
                    (entity.async_added_to_hass self w).1
                  = (subscribers const.SEYMOUR_UPDATE_SIGNAL w ++ [self])%list).
  { unfold subscribers, entity.async_added_to_hass,
      entity.async_dispatcher_connect, modify_dispatcher.
    cbn [fst w_dispatcher]. rewrite filter_app, fmap_app.
    reflexivity. }
  split; [done |].
  unfold init.seymour_update_callback. rewrite async_dispatcher_send_run, Hsubs.
  cbn [fst w_trace w_entities]. split; [done |].
  intros i Hnot Hne.
  rewrite lookup_foldl_alter by apply resolve_set_states_idempotent.
  rewrite bool_decide_eq_false_2; [done |].
  rewrite elem_of_app, list_elem_of_singleton. by intros [? | ?].
Qed.

(** X11.  Set-up turns only instances of [OSError] into [False] (a
    [TimeoutError] is one): any other exception of the connect and
    query block, a [ValueError] say, is raised out of
    [async_setup_entry], with nothing logged or done after it. *)
Theorem setup_lets_other_exceptions_through
    (fuel : nat) (entry_data : SystemInfo) (w w' : World Env) (e : exn) :
  init.setup_try_body fuel (init.prepare entry_data w).1 = (w', Raise e) →
  isinstance e OSError = false →
  init.async_setup_entry fuel entry_data w = (w', Raise e).
Proof.
  intros Hbody Hos. rewrite async_setup_entry_run, Hbody.
  destruct (isinstance e TimeoutError) eqn:Ht.
  - apply timeout_is_oserror in Ht. congruence.
  - by rewrite Hos.
Qed.

(** X12.  Unloading an entry that set-up stored closes the device once
    and removes the entry from [hass.data]; the answer is the one of the
    platforms.  Unloading it again finds nothing to close.  When the
    close raises, the exception is raised to the caller. *)
Theorem unload_closes_stored_entry_once
    (unloaded : bool) (hass_data : gmap string (gmap string bool))
    (entries : gmap string bool) (entry_id : string) (w : World Env) :
  hass_data !! const.DOMAIN = Some entries →
  entries !! entry_id = Some true →
  let run := init.async_unload_entry unloaded hass_data entry_id w in
  let hass_data' := <[const.DOMAIN := delete entry_id entries]> hass_data in
  let outcome := device_call "close" [] (w_env w) (w_device w) in
  device_calls (w_trace run.1) = (device_calls (w_trace w) ++ [("close", [])])%list
  ∧ (is_raise outcome.2 = false → run.2 = Return (hass_data', unloaded))
  ∧ (∀ e, outcome.2 = Raise e → run.2 = Raise e)
  ∧ (∀ w2, init.async_unload_entry unloaded hass_data' entry_id w2
           = (w2, Return (hass_data', unloaded))).
Proof.
  intros Hdom Hentry. cbv zeta. unfold init.async_unload_entry.
  rewrite Hdom, Hentry. repeat split.
  - unfold bind, await_device, ret.
    destruct (device_call _ _ _ _) as [[env' dev'] [v | e]];
      cbn; rewrite device_calls_app; cbn; by rewrite ?app_nil_r.
  - unfold bind, await_device, ret.
    destruct (device_call _ _ _ _) as [[env' dev'] [v | e]]; [done |].
    cbn. discriminate.
  - intros e. unfold bind, await_device, ret.
    destruct (device_call _ _ _ _) as [[env' dev'] [v | e']]; [discriminate |].
    cbn. by intros [= ->].
  - intros w2. rewrite lookup_insert_eq, lookup_delete_eq.
    unfold bind, ret. by rewrite insert_insert_eq, delete_delete_eq.
Qed.

(** X13.  Unloading when [hass.data] has no entry for the domain raises
    [KeyError] without touching the device; with the domain present but
    the entry unknown, nothing is closed and [hass.data] is as
    before. *)
Theorem unload_without_stored_entry
    (unloaded : bool) (hass_data : gmap string (gmap string bool))
    (entry_id : string) (w : World Env) :
  let run := init.async_unload_entry unloaded hass_data entry_id w in
  (hass_data !! const.DOMAIN = None →
   run = (w, Raise (mkExn KeyError const.DOMAIN)))
  ∧ (∀ entries, hass_data !! const.DOMAIN = Some entries →
       entries !! entry_id = None →
       run = (w, Return (hass_data, unloaded))).
Proof.
  cbv zeta. unfold init.async_unload_entry. split.
  - intros ->. reflexivity.
  - intros entries Hdom Hentry. rewrite Hdom, Hentry.
    unfold bind, ret. rewrite delete_id by done. by rewrite insert_id.
Qed.

End PlatformExtras.

(** ** sensor.py: the sensors set-up creates *)

(** The characters of a string. *)
Lemma chars_rev_app (s1 s2 : string) :
  String.list_ascii_of_string (String.rev_app s1 s2)
  = (reverse (String.list_ascii_of_string s1) ++ String.list_ascii_of_string s2)%list.
Proof.
  revert s2. induction s1 as [| c s1 IH]; intros s2; [done |].
  cbn [String.rev_app String.list_ascii_of_string]. rewrite IH.
  cbn [String.list_ascii_of_string]. rewrite reverse_cons, <- app_assoc. done.
Qed.

Lemma chars_rev (s : string) :
  String.list_ascii_of_string (String.rev s)
  = reverse (String.list_ascii_of_string s).
Proof. unfold String.rev. rewrite chars_rev_app. cbn. by rewrite app_nil_r. Qed.

Lemma chars_lstrip (s : string) (c : ascii) :
  c ∈ String.list_ascii_of_string (pystr.lstrip s) →
  c ∈ String.list_ascii_of_string s.
Proof.
  induction s as [| a s IH]; [done |]. cbn [pystr.lstrip].
  destruct (pystr.is_whitespace a); [| done].
  intros Hin. cbn. apply list_elem_of_further. auto.
Qed.

Lemma chars_strip (s : string) (c : ascii) :
  c ∈ String.list_ascii_of_string (pystr.strip s) →
  c ∈ String.list_ascii_of_string s.
Proof.
  unfold pystr.strip. rewrite chars_rev, elem_of_reverse.
  intros Hin%chars_lstrip. rewrite chars_rev, elem_of_reverse in Hin.
  by apply chars_lstrip.
Qed.

Lemma chars_upper (s : string) :
  String.list_ascii_of_string (pystr.upper s)
  = pystr.upper_char <$> String.list_ascii_of_string s.
Proof. induction s as [| a s IH]; [done |]. cbn. by rewrite IH. Qed.

Lemma upper_char_comma (c : ascii) : pystr.upper_char c = ","%char → c = ","%char.
Proof. destruct c as [[] [] [] [] [] [] [] []]; vm_compute; congruence. Qed.

Lemma upper_char_idempotent (c : ascii) :
  pystr.upper_char (pystr.upper_char c) = pystr.upper_char c.
Proof. destruct c as [[] [] [] [] [] [] [] []]; vm_compute; reflexivity. Qed.

(** No piece of a split holds the separator. *)
Lemma split_go_no_separator (sep : ascii) (s cur piece : string) :
  piece ∈ pystr.split_go sep cur s →
  sep ∈ String.list_ascii_of_string piece →
  sep ∈ String.list_ascii_of_string cur.
Proof.
  revert cur. induction s as [| c s IH]; intros cur.
  - cbn. intros ->%list_elem_of_singleton. rewrite chars_rev, elem_of_reverse. done.
  - cbn [pystr.split_go]. destruct (Ascii.eqb_spec c sep) as [-> | Hne].
    + intros [-> | Hin]%elem_of_cons.
      * rewrite chars_rev, elem_of_reverse. done.
      * intros Hsep. apply IH in Hin; [| done]. by apply elem_of_nil in Hin.
    + intros Hin Hsep. apply IH in Hin; [| done].
      cbn in Hin. apply elem_of_cons in Hin as [-> | Hin]; done.
Qed.

Lemma list_index_None (x : string) (l : list string) :
  x ∉ l → pystr.list_index x l = None.
Proof.
  induction l as [| y l IH]; [done |]. intros Hnot.
  apply not_elem_of_cons in Hnot as [Hne Hnot]. cbn.
  destruct (String.eqb_spec y x); [congruence |]. by rewrite IH.
Qed.

(** Where a character sits in a string without repeated characters. *)
Lemma list_index_chars (letters : list ascii) (i : nat) (c : ascii) :
  NoDup letters → letters !! i = Some c →
  pystr.list_index (String c EmptyString)
    ((fun ch => String ch EmptyString) <$> letters) = Some i.
Proof.
  revert i. induction letters as [| a letters IH]; intros i Hnd Hi; [done |].
  apply NoDup_cons in Hnd as [Hnot Hnd].
  cbn [fmap list_fmap pystr.list_index].
  destruct (String.eqb_spec (String a "") (String c "")) as [[= ->] | Hne].
  - destruct i as [| i]; [done |]. cbn in Hi.
    destruct Hnot. eapply list_elem_of_lookup_2. done.
  - destruct i as [| i]; [cbn in Hi; congruence |].
    cbn in Hi. change (list_fmap ascii string ?f letters) with (f <$> letters).
    by rewrite (IH i).
Qed.

(** A character of a string is found by [in]. *)
Lemma substring_char (s : string) (m : nat) (c : ascii) :
  String.list_ascii_of_string s !! m = Some c →
  String.substring m 1 s = String c EmptyString.
Proof.
  revert m. induction s as [| a s IH]; intros m; [done |].
  destruct m as [| m]; cbn.
  - intros [= ->]. by destruct s.
  - apply IH.
Qed.

Lemma contains_char (c : ascii) (s : string) :
  pystr.contains (String c EmptyString) s = true
  ↔ c ∈ String.list_ascii_of_string s.
Proof.
  split.
  - unfold pystr.contains. destruct s as [| a s]; [done |].
    rewrite bool_decide_eq_true. intros [m Hm].
    apply String.index_correct1 in Hm. cbn [String.length] in Hm.
    remember (String a s) as t eqn:Ht. clear Ht. revert m Hm.
    induction t as [| b t IH]; intros m Hm.
    + by destruct m.
    + destruct m as [| m]; cbn in Hm.
      * injection Hm as -> _. apply list_elem_of_here.
      * cbn. apply list_elem_of_further. by apply (IH m).
  - intros Hin. apply list_elem_of_lookup_1 in Hin as [m Hm].
    apply substring_char in Hm.
    unfold pystr.contains. destruct s as [| a s]; [by destruct m |].
    rewrite bool_decide_eq_true.
    destruct (String.index 0 (String c "") (String a s)) as [k |] eqn:Hk;
      [by eexists |].
    eapply String.index_correct3 in Hk; [| done | apply Nat.le_0_l].
    by destruct Hk.
Qed.

(** The keys of the per-motor sensors say what they read. *)
Lemma position_key_contains (u : ascii) :
  pystr.contains "position" ("motor_" +:+ String u "" +:+ "_position") = true.
Proof. destruct u as [[] [] [] [] [] [] [] []]; vm_compute; reflexivity. Qed.

Lemma adjustment_key_contains (u : ascii) :
  pystr.contains "position" ("motor_" +:+ String u "" +:+ "_adjustment") = false
  ∧ pystr.contains "adjustment" ("motor_" +:+ String u "" +:+ "_adjustment") = true.
Proof. destruct u as [[] [] [] [] [] [] [] []]; vm_compute; done. Qed.

Section SensorExtras.
Context {Env : Type} `{!DeviceModule Env}.

Lemma warn_run (msg : string) (w : World Env) :
  bind (log WARNING msg) (fun _ => ret VNone) w
  = (push [Log WARNING msg] w, Return VNone).
Proof. reflexivity. Qed.

(** The computation of a per-motor sensor never raises: it returns an
    integer, or [None] after one warning. *)
Lemma motor_value_safe (description : sensor.SeymourSensorEntityDescription)
    (motor : string) (device : Device) (w : World Env) :
  (∃ p, sensor.motor_value description motor device w = (w, Return (VInt p)))
  ∨ (∃ msg, sensor.motor_value description motor device w
            = (push [Log WARNING msg] w, Return VNone)).
Proof.
  unfold sensor.motor_value.
  destruct (dict_get _ _) as [ratio |]; [| right; eexists; apply warn_run].
  destruct (String.eqb _ ""); [right; eexists; apply warn_run |].
  destruct (pystr.list_index _ _) as [i |]; [| right; eexists; apply warn_run].
  destruct (ratio_motors ratio !! _) as [info |];
    [| right; eexists; apply warn_run].
  destruct (pystr.contains "position" _).
  { destruct (position info) as [p |];
      [left; by exists p | right; eexists; apply warn_run]. }
  destruct (pystr.contains "adjustment" _).
  { destruct (adjustment info) as [a |];
      [left; by exists a | right; eexists; apply warn_run]. }
  right; eexists; apply warn_run.
Qed.

(** For a per-motor sensor, [native_value] is that computation: the
    [except] clauses have nothing to catch. *)
Lemma native_value_motor (description : sensor.SeymourSensorEntityDescription)
    (motor : string) (index : Z) (w : World Env) :
  sensor.motor_id description = Some motor → motor ≠ "" →
  sensor.motor_index description = Some index →
  sensor.native_value description w
  = sensor.motor_value description motor (w_device w) w.
Proof.
  intros Hm Hne Hi. unfold sensor.native_value, bind, get_device.
  rewrite Hm, Hi. destruct (String.eqb_spec motor "") as [? | _]; [done |].
  unfold try_except.
  destruct (motor_value_safe description motor (w_device w) w)
    as [[p ->] | [msg ->]]; reflexivity.
Qed.

Lemma elem_of_motor_descriptions
    (description : sensor.SeymourSensorEntityDescription) (c : ascii) :
  description ∈ sensor.motor_descriptions c →
  sensor.motor_id description = Some (String (pystr.upper_char c) "")
  ∧ is_Some (sensor.motor_index description)
  ∧ (sensor.key description
       = "motor_" +:+ String (pystr.upper_char c) "" +:+ "_position"
     ∨ sensor.key description
       = "motor_" +:+ String (pystr.upper_char c) "" +:+ "_adjustment").
Proof.
  unfold sensor.motor_descriptions. cbn [pystr.upper].
  rewrite !elem_of_cons, elem_of_nil.
  intros [-> | [-> | []]]; cbn; eauto.
Qed.

(** X14.  Reading a sensor that set-up created never touches the device
    and raises in one case only: the Screen Width, Height and Diagonal
    sensors raise [KeyError] when [current_ratio] is not a key of the
    ratio table.  Every other read returns a value, a per-motor sensor
    possibly [None] after one warning. *)
Theorem sensors_raise_only_on_missing_ratio
    (device0 : Device) (description : sensor.SeymourSensorEntityDescription)
    (w : World Env) :
  description ∈ sensor.async_setup_entry device0 →
  let run := sensor.native_value description w in
  let settings := mask_ratio_settings (w_device w) in
  (∃ v, run = (w, Return v))
  ∨ (∃ msg, run = (push [Log WARNING msg] w, Return VNone))
  ∨ (∃ msg, run = (w, Raise (mkExn KeyError msg))
            ∧ sensor.key description ∈ ["width"; "height"; "diagonal"]
            ∧ dict_get (ratios settings) (current_ratio settings) = None).
Proof.
  intros Hin. cbv zeta. unfold sensor.async_setup_entry in Hin.
  rewrite !elem_of_app in Hin. destruct Hin as [Hfixed | [Hmotor | Hpos]].
  - unfold sensor.SENSOR_TYPES in Hfixed.
    rewrite !elem_of_cons, elem_of_nil in Hfixed.
    destruct Hfixed as [-> | [-> | [-> | [-> | [-> | [-> | [-> | []]]]]]]];
      unfold sensor.native_value, bind, get_device, lift;
      cbn [sensor.motor_id sensor.motor_index sensor.value_fn sensor.key];
      try (left; eexists; reflexivity);
      unfold sensor.subscript_ratio;
      (destruct (dict_get _ _) as [info |];
       [left; eexists; reflexivity |]);
      right; right; exists "current_ratio"; (split; [reflexivity |]);
      (split; [| reflexivity]); rewrite !elem_of_cons; auto.
  - destruct (String.eqb _ ""); [by apply elem_of_nil in Hmotor |].
    cbn [negb] in Hmotor. apply list_elem_of_bind in Hmotor as (c & Hd & _).
    apply elem_of_motor_descriptions in Hd as (Hm & [ix Hix] & _).
    rewrite (native_value_motor description _ ix w Hm ltac:(done) Hix).
    destruct (motor_value_safe description (String (pystr.upper_char c) "")
                (w_device w) w) as [[p ->] | [msg ->]].
    + left. by eexists.
    + right; left. by eexists.
  - apply list_elem_of_fmap in Hpos as (motor & -> & _).
    left. unfold sensor.native_value, bind, get_device, lift.
    cbn [sensor.position_description sensor.motor_id sensor.motor_index
         sensor.value_fn].
    eexists. reflexivity.
Qed.

Lemma length_chars (s : string) :
  length (String.list_ascii_of_string s) = String.length s.
Proof. induction s as [| c s IH]; [done |]. cbn. by rewrite IH. Qed.

Lemma length_bind_motor_descriptions (letters : list ascii) :
  length (letters ≫= sensor.motor_descriptions) = (2 * length letters)%nat.
Proof.
  induction letters as [| c letters IH]; [done |].
  cbn [mbind list_bind]. rewrite length_app.
  change (list_bind _ _ ?f letters) with (letters ≫= f).
  rewrite IH. cbn. lia.
Qed.

(** X15.  Set-up creates the seven fixed sensors, two sensors for every
    character of [mask_ids] (position and adjustment, for separators of
    a list such as ["T,B,L,R"] too) and one sensor per motor with a
    known position. *)
Theorem sensor_setup_creates_two_per_character (device : Device) :
  let created := sensor.async_setup_entry device in
  length created
  = (7 + 2 * String.length (mask_ids (system_info device))
     + size (position_of (current_motor_positions device)))%nat
  ∧ (∀ c description,
       c ∈ String.list_ascii_of_string (mask_ids (system_info device)) →
       description ∈ sensor.motor_descriptions c →
       description ∈ created).
Proof.
  cbv zeta. unfold sensor.async_setup_entry. split.
  - rewrite !length_app, !length_fmap, length_map_to_list.
    destruct (String.eqb_spec (mask_ids (system_info device)) "") as [-> | _];
      cbn [negb]; [reflexivity |].
    rewrite length_bind_motor_descriptions, length_chars. reflexivity.
  - intros c description Hc Hd.
    apply elem_of_app. right. apply elem_of_app. left.
    destruct (String.eqb_spec (mask_ids (system_info device)) "") as [Heq | _].
    + rewrite Heq in Hc. by apply elem_of_nil in Hc.
    + cbn [negb]. apply list_elem_of_bind. by exists c.
Qed.

(** X16.  A sensor created for the separator [","] never has a value:
    whatever the state of the device, reading it logs one warning and
    returns [None]. *)
Theorem separator_sensor_reads_none
    (description : sensor.SeymourSensorEntityDescription) (w : World Env) :
  description ∈ sensor.motor_descriptions "," →
  ∃ msg, sensor.native_value description w
         = (push [Log WARNING msg] w, Return VNone).
Proof.
  intros Hd. apply elem_of_motor_descriptions in Hd as (Hm & [ix Hix] & _).
  change (String (pystr.upper_char ",") "") with "," in Hm.
  rewrite (native_value_motor description "," ix w Hm ltac:(done) Hix).
  unfold sensor.motor_value.
  destruct (dict_get _ _) as [ratio |]; [| eexists; apply warn_run].
  destruct (String.eqb _ ""); [eexists; apply warn_run |].
  change (pystr.upper ",") with ",".
  rewrite list_index_None; [eexists; apply warn_run |].
  set (raw := mask_ids (system_info (w_device w))).
  destruct (pystr.contains "," raw) eqn:Hcomma.
  - intros (piece & Hup & Hpiece)%list_elem_of_fmap.
    assert (Hin : ","%char ∈ String.list_ascii_of_string piece).
    { apply chars_strip.
      assert (Hc : ","%char ∈ String.list_ascii_of_string
                                (pystr.upper (pystr.strip piece))).
      { rewrite <- Hup. apply list_elem_of_here. }
      rewrite chars_upper in Hc.
      apply list_elem_of_fmap in Hc as (c & Hc & Hin).
      symmetry in Hc. apply upper_char_comma in Hc. by subst. }
    apply (split_go_no_separator _ _ _ _ Hpiece) in Hin.
    by apply elem_of_nil in Hin.
  - unfold pystr.chars. intros (c & [= <-] & Hc)%list_elem_of_fmap.
    rewrite chars_upper in Hc.
    apply list_elem_of_fmap in Hc as (c & Hc & Hin).
    symmetry in Hc. apply upper_char_comma in Hc. subst c.
    apply contains_char in Hin. unfold raw in *. congruence.
Qed.

(** X17.  With [mask_ids] written without separators and without a
    letter twice (case aside), the sensors of the letter at place [i]
    read motor [i + 1] of the current ratio: the position sensor its
    position, the adjustment sensor its adjustment, and [None] after a
    warning when that attribute is not set. *)
Theorem motor_sensors_read_motor_at_their_place
    (i : nat) (c : ascii) (ratio : RatioInfo) (info : MotorInfo) (w : World Env) :
  let settings := mask_ratio_settings (w_device w) in
  let letters := String.list_ascii_of_string (mask_ids (system_info (w_device w))) in
  ","%char ∉ letters →
  NoDup (pystr.upper_char <$> letters) →
  letters !! i = Some c →
  dict_get (ratios settings) (current_ratio settings) = Some ratio →
  ratio_motors ratio !! (Z.of_nat i + 1) = Some info →
  ∃ position_sensor adjustment_sensor,
    sensor.motor_descriptions c = [position_sensor; adjustment_sensor]
    ∧ (∀ p, position info = Some p →
         sensor.native_value position_sensor w = (w, Return (VInt p)))
    ∧ (position info = None →
         ∃ msg, sensor.native_value position_sensor w
                = (push [Log WARNING msg] w, Return VNone))
    ∧ (∀ a, adjustment info = Some a →
         sensor.native_value adjustment_sensor w = (w, Return (VInt a)))
    ∧ (adjustment info = None →
         ∃ msg, sensor.native_value adjustment_sensor w
                = (push [Log WARNING msg] w, Return VNone)).
Proof.
  intros settings letters Hcomma Hnd Hi Hratio Hinfo.
  unfold sensor.motor_descriptions. cbn [pystr.upper].
  do 2 eexists. split; [reflexivity |].
  assert (Hraw : String.eqb (mask_ids (system_info (w_device w))) "" = false).
  { destruct (String.eqb_spec (mask_ids (system_info (w_device w))) "") as [Heq | _];
      [| done].
    unfold letters in Hi. by rewrite Heq in Hi. }
  assert (Hno : pystr.contains "," (mask_ids (system_info (w_device w))) = false).
  { destruct (pystr.contains "," _) eqn:Hc; [| done].
    apply contains_char in Hc. by destruct Hcomma. }
  assert (Hidx : pystr.list_index (String (pystr.upper_char c) "")
                   (pystr.chars (pystr.upper (mask_ids (system_info (w_device w)))))
                 = Some i).
  { unfold pystr.chars. rewrite chars_upper.
    apply list_index_chars; [done |].
    fold letters. by rewrite list_lookup_fmap, Hi. }
  assert (Hrun : ∀ d,
            sensor.motor_id d = Some (String (pystr.upper_char c) "") →
            is_Some (sensor.motor_index d) →
            sensor.native_value d w
            = if pystr.contains "position" (sensor.key d) then
                match position info with
                | Some p => ret (VInt p) w
                | None =>
                    bind (log WARNING
                            "Position is not set for motor index '%d' in ratio '%s'")
                      (fun _ => ret VNone) w
                end
              else if pystr.contains "adjustment" (sensor.key d) then
                match adjustment info with
                | Some a => ret (VInt a) w
                | None =>
                    bind (log WARNING
                            "Adjustment is not set for motor index '%d' in ratio '%s'")
                      (fun _ => ret VNone) w
                end
              else
                bind (log WARNING
                        "Sensor key '%s' does not match 'position' or 'adjustment'")
                  (fun _ => ret VNone) w).
  { intros d Hm [ix Hix].
    rewrite (native_value_motor d _ ix w Hm ltac:(done) Hix).
    unfold sensor.motor_value. fold settings. rewrite Hratio, Hraw, Hno.
    cbn [pystr.upper]. rewrite upper_char_idempotent, Hidx, Hinfo.
    destruct (pystr.contains "position" _); [by destruct (position info) |].
    destruct (pystr.contains "adjustment" _); [by destruct (adjustment info) |].
    reflexivity. }
  pose proof (position_key_contains (pystr.upper_char c)) as Hpos.
  destruct (adjustment_key_contains (pystr.upper_char c)) as [Hadj1 Hadj2].
  repeat split.
  - intros p Hp. rewrite Hrun by (cbn; eauto).
    cbn [sensor.key]. by rewrite Hpos, Hp.
  - intros Hp. rewrite Hrun by (cbn; eauto).
    cbn [sensor.key]. rewrite Hpos, Hp. eexists. apply warn_run.
  - intros a Ha. rewrite Hrun by (cbn; eauto).
    cbn [sensor.key]. by rewrite Hadj1, Hadj2, Ha.
  - intros Ha. rewrite Hrun by (cbn; eauto).
    cbn [sensor.key]. rewrite Hadj1, Hadj2, Ha. eexists. apply warn_run.
Qed.

End SensorExtras.

(** ** config_flow.py *)


(** A reply that starts with "[01" and ends with "]" has at least four
    characters. *)
Lemma bracketed_length (r : string) :
  pystr.startswith r "[01" = true → pystr.endswith r "]" = true →
  (4 ≤ String.length r)%nat.
Proof.
  unfold pystr.startswith.
  destruct r as [| a [| b [| c [| d rest]]]]; intros Hs He; [.. | cbn; lia]; exfalso.
  - discriminate.
  - cbn [String.prefix] in Hs. destruct (ascii_dec _ _); discriminate.
  - cbn [String.prefix] in Hs. repeat (destruct (ascii_dec _ _); try discriminate).
  - cbn [String.prefix] in Hs.
    destruct (ascii_dec "[" a) as [<- |]; [| discriminate].
    destruct (ascii_dec "0" b) as [<- |]; [| discriminate].
    destruct (ascii_dec "1" c) as [<- |]; [| discriminate].
    vm_compute in He. discriminate.
Qed.

(** What [_query_serial_device] lets through is no instance of the
    classes it catches. *)
Lemma query_raises_only_foreign (BAUDRATE : Z) (ser : config_flow.SerialPort)
    (port : string) (e : exn) :
  (config_flow._query_serial_device BAUDRATE ser port).2 = Raise e →
  isinstance e SerialException = false ∧ isinstance e UnicodeDecodeError = false
  ∧ isinstance e ValueError = false ∧ isinstance e OSError = false.
Proof.
  unfold config_flow._query_serial_device.
  destruct (config_flow.query_try_body BAUDRATE ser port) as [written [[r |] | e']];
    cbn [snd]; try discriminate.
  destruct (isinstance e' SerialException) eqn:H1; [discriminate |].
  destruct (isinstance e' UnicodeDecodeError) eqn:H2; [discriminate |].
  destruct (isinstance e' ValueError) eqn:H3; [discriminate |].
  destruct (isinstance e' OSError) eqn:H4; [discriminate |].
  by intros [= <-].
Qed.

(** X18.  [_query_serial_device] answers with a response only when the
    port opened, the identification frame was written and the reply,
    stripped, starts with "[01" and ends with "]" (so it has at least
    four characters); the response is that stripped reply.  It never
    raises a [SerialException], [UnicodeDecodeError], [ValueError] or
    [OSError], and writes nothing when the port does not open. *)
Theorem query_accepts_only_bracketed_reply
    (BAUDRATE : Z) (ser : config_flow.SerialPort) (port : string) :
  let run := config_flow._query_serial_device BAUDRATE ser port in
  (∀ response, run.2 = Return (Some response) →
     run.1 = [config_flow.identification_frame]
     ∧ config_flow.open_error ser port BAUDRATE = None
     ∧ (∃ text, config_flow.read_until_decoded ser = Return text
                ∧ response = pystr.strip text)
     ∧ pystr.startswith response "[01" = true
     ∧ pystr.endswith response "]" = true
     ∧ (4 ≤ String.length response)%nat)
  ∧ (∀ e, run.2 = Raise e →
       isinstance e SerialException = false ∧ isinstance e UnicodeDecodeError = false
       ∧ isinstance e ValueError = false ∧ isinstance e OSError = false)
  ∧ (is_Some (config_flow.open_error ser port BAUDRATE) → run.1 = []).
Proof.
  cbv zeta. split; [| split].
  - intros response. unfold config_flow._query_serial_device, config_flow.query_try_body.
    destruct (config_flow.open_error ser port BAUDRATE) as [e |]; cbn [fst snd].
    { repeat case_match; discriminate. }
    destruct (config_flow.write_error ser _) as [e |]; cbn [fst snd].
    { repeat case_match; discriminate. }
    destruct (config_flow.read_until_decoded ser) as [text | e].
    2: { repeat case_match; discriminate. }
    destruct (pystr.startswith (pystr.strip text) "[01") eqn:Hstart;
      cbn [andb]; [| discriminate].
    destruct (pystr.endswith (pystr.strip text) "]") eqn:Hend; [| discriminate].
    intros [= <-]. repeat split; try done; [by exists text |].
    by apply bracketed_length.
  - apply query_raises_only_foreign.
  - intros [e He]. unfold config_flow._query_serial_device, config_flow.query_try_body.
    by rewrite He.
Qed.


Section ConfigFlowExtras.
Context {Env : Type} `{!DeviceModule Env}.

Lemma for_each_log (A : Type) (xs : list A) (level : LogLevel) (fmt : string)
    (w : World Env) :
  for_each xs (fun _ => log level fmt) w
  = (push (repeat (Log level fmt) (length xs)) w, Return tt).
Proof.
  revert w. induction xs as [| x xs IH]; intros w.
  - unfold push. cbn. rewrite app_nil_r. by destruct w.
  - cbn [for_each]. unfold bind at 1. unfold log at 1, emit.
    rewrite IH. unfold push. cbn. by rewrite <- app_assoc.
Qed.

(** The connect of a flow step, run. *)
Lemma configure_and_create_run (configured : string → bool) (port : string)
    (unique_id : SystemInfo → string) (fmt : string) (w : World Env) :
  config_flow.configure_and_create configured port unique_id fmt w
  = let '(env', dev', r) := device_call "connect" [VInt 1] (w_env w) (w_device w) in
    let after := mkWorld env' dev' (w_entities w) (w_dispatcher w)
                   (w_trace w ++ [DeviceCall "connect" [VInt 1]]) in
    match r with
    | Return _ =>
        (after,
         Return (Some (if configured (unique_id (system_info dev'))
                       then config_flow.Abort "already_configured"
                       else config_flow.CreateEntry
                              ("Seymour Controller (" +:+ port +:+ ")")
                              (system_info dev') port)))
    | Raise e =>
        if isinstance e TimeoutError then (push [Log ERROR fmt] after, Return None)
        else (after, Raise e)
    end.
Proof.
  unfold config_flow.configure_and_create, config_flow._configure_device.
  unfold bind, try_except, await_device, get_device, ret, log, emit, push.
  cbn [w_env w_device w_trace w_entities w_dispatcher].
  destruct (device_call _ _ _ _) as [[env' dev'] [v | e]]; cbn.
  - by destruct (configured _).
  - by destruct (isinstance e TimeoutError).
Qed.

(** The world after the two preliminary log statements of
    [async_step_user]. *)
Lemma user_step_run (configured : string → bool) (comports : list string)
    (user_input : option string) (w : World Env) :
  let w0 := push [Log DEBUG "Discovered serial ports: %s"]
              (push (repeat (Log DEBUG "Port details: %s") (length comports)) w) in
  let available_ports := config_flow._discover_serial_ports comports in
  let form (error : option string) :=
    config_flow.ShowForm "user" error
      (match available_ports with [] => ["/dev/ttyUSB0"] | _ => available_ports end)
      (Some (match available_ports with [] => "/dev/ttyUSB0" | p :: _ => p end))
      [("example_port", "/dev/ttyUSB0")] in
  config_flow.async_step_user configured comports user_input w
  = match user_input with
    | None => (w0, Return (form None))
    | Some port =>
        if config_flow._is_valid_port port then
          match config_flow.configure_and_create configured port serial_number
                  "Failed to connect to device: %s" w0 with
          | (w1, Return (Some answer)) => (w1, Return answer)
          | (w1, Return None) => (w1, Return (form (Some "connection_failed")))
          | (w1, Raise e) => (w1, Raise e)
          end
        else (w0, Return (form (Some "invalid_port")))
    end.
Proof.
  cbv zeta. unfold config_flow.async_step_user.
  unfold bind at 1. rewrite for_each_log. unfold bind at 1.
  unfold log at 1, emit. cbn [w_env w_device w_trace w_entities w_dispatcher push].
  destruct user_input as [port |]; [| reflexivity].
  destruct (config_flow._is_valid_port port); cbn [negb]; [| reflexivity].
  unfold bind at 1.
  destruct (config_flow.configure_and_create _ _ _ _ _) as [w1 [[answer |] | e]];
    reflexivity.
Qed.

(** X20.  A form [async_step_user] shows always offers at least one port
    and proposes one of those it offers.  Shown first, or answered with
    a port that does not start with "/dev/" (which the form may well
    offer, a "COM3" say), the step never reaches the device; the refused
    port gets the error [invalid_port]. *)
Theorem user_step_form_and_invalid_port
    (configured : string → bool) (comports : list string)
    (user_input : option string) (w : World Env) :
  let run := config_flow.async_step_user configured comports user_input w in
  (∀ step error choices proposed placeholders,
     run.2 = Return (config_flow.ShowForm step error choices proposed placeholders) →
     step = "user" ∧ ∃ port, proposed = Some port ∧ port ∈ choices)
  ∧ (user_input = None →
     device_calls (w_trace run.1) = device_calls (w_trace w)
     ∧ ∃ choices proposed placeholders,
         run.2 = Return (config_flow.ShowForm "user" None choices proposed placeholders))
  ∧ (∀ port, user_input = Some port → config_flow._is_valid_port port = false →
     device_calls (w_trace run.1) = device_calls (w_trace w)
     ∧ ∃ choices proposed placeholders,
         run.2 = Return (config_flow.ShowForm "user" (Some "invalid_port")
                           choices proposed placeholders)).
Proof.
  cbv zeta. rewrite user_step_run. cbv zeta.
  assert (Hquiet : ∀ n, device_calls
            (w_trace (push [Log DEBUG "Discovered serial ports: %s"]
                        (push (repeat (Log DEBUG "Port details: %s") n) w)))
            = device_calls (w_trace w)).
  { intros n. unfold push. cbn [w_trace]. rewrite !device_calls_app.
    cbn. rewrite app_nil_r.
    assert (device_calls (repeat (Log DEBUG "Port details: %s") n) = []) as ->;
      [| by rewrite app_nil_r].
    induction n as [| n IH]; [done |]. by cbn. }
  assert (Hform : ∀ error step error' choices proposed placeholders,
            @Return config_flow.FlowResult (config_flow.ShowForm "user" error
              (match config_flow._discover_serial_ports comports with
               | [] => ["/dev/ttyUSB0"]
               | _ => config_flow._discover_serial_ports comports
               end)
              (Some (match config_flow._discover_serial_ports comports with
                     | [] => "/dev/ttyUSB0"
                     | p :: _ => p
                     end))
              [("example_port", "/dev/ttyUSB0")])
            = Return (config_flow.ShowForm step error' choices proposed placeholders) →
            step = "user" ∧ ∃ port, proposed = Some port ∧ port ∈ choices).
  { intros error step error' choices proposed placeholders [= <- _ <- <- _].
    split; [done |]. eexists. split; [done |].
    destruct (config_flow._discover_serial_ports comports); apply list_elem_of_here. }
  split; [| split].
  - intros step error choices proposed placeholders.
    destruct user_input as [port |]; cbn [snd].
    + destruct (config_flow._is_valid_port port); cbn [snd].
      * rewrite configure_and_create_run.
        destruct (device_call _ _ _ _) as [[env' dev'] [v | e]].
        -- cbn. destruct (configured _); discriminate.
        -- destruct (isinstance e TimeoutError); cbn; [| discriminate].
           intros Heq. by eapply Hform.
      * intros Heq. by eapply Hform.
    + intros Heq. by eapply Hform.
  - intros ->. cbn [fst snd]. split; [apply Hquiet | by do 3 eexists].
  - intros port -> ->. cbn [fst snd]. split; [apply Hquiet | by do 3 eexists].
Qed.




End ConfigFlowExtras.

(** ** remote.py and switch.py: lists of commands and the jog switch *)

Section CommandExtras.
Context {Env : Type} `{!DeviceModule Env}.

(** One round of the loop of [async_send_command] over a list. *)
Lemma send_command_cons (c : string) (l : list string) (AR : PyVal)
    (w : World Env) :
  remote.async_send_command (remote.CmdList (c :: l)) AR w
  = if bool_decide (c ∈ remote.VALID_COMMANDS) then
      match device_call c [] (w_env w) (w_device w) with
      | (env', dev', Return _) =>
          remote.async_send_command (remote.CmdList l) AR
            (mkWorld env' dev' (w_entities w) (w_dispatcher w)
               (w_trace w ++ [Log DEBUG "Sending Remote Command: %s";
                              DeviceCall c []]))
      | (env', dev', Raise e) =>
          (mkWorld env' dev' (w_entities w) (w_dispatcher w)
             (w_trace w ++ [Log DEBUG "Sending Remote Command: %s";
                            DeviceCall c []]),
           Raise e)
      end
    else (w, Raise (mkExn HomeAssistantError (c +:+ " is not a known command"))).
Proof.
  unfold remote.async_send_command.
  cbn [remote.is_set_aspect_ratio remote.iterate for_each].
  unfold bind at 1. destruct (bool_decide (c ∈ remote.VALID_COMMANDS)); [| done].
  cbn [negb]. unfold bind, log, emit, await_device, ret. cbn.
  destruct (device_call _ _ _ _) as [[env' dev'] [v | e]];
    cbn; by rewrite <- ?app_assoc.
Qed.

(** X23.  Sent a list of commands, [async_send_command] calls on the
    device, in order and without arguments, a prefix of the list, every
    one of them a member of [VALID_COMMANDS]; [AR] is not looked at.  It
    returns only after the whole list; it stops before the first command
    that is not valid with [HomeAssistantError]; any other exception
    comes after at least one call. *)
Theorem send_command_list_calls_valid_prefix
    (l : list string) (AR : PyVal) (w : World Env) :
  let run := remote.async_send_command (remote.CmdList l) AR w in
  ∃ called,
    called `prefix_of` l
    ∧ Forall (fun c => c ∈ remote.VALID_COMMANDS) called
    ∧ device_calls (w_trace run.1)
      = (device_calls (w_trace w) ++ ((fun c => (c, [])) <$> called))%list
    ∧ ((run.2 = Return tt ∧ called = l)
       ∨ (∃ c, l !! (length called) = Some c
               ∧ (c ∉ remote.VALID_COMMANDS)
               ∧ run.2 = Raise (mkExn HomeAssistantError
                                  (c +:+ " is not a known command")))
       ∨ (∃ e, run.2 = Raise e ∧ called ≠ [])).
Proof.
  cbv zeta. revert w. induction l as [| c l IH]; intros w.
  - exists []. cbn. rewrite app_nil_r. repeat split; [done | constructor |].
    by left.
  - rewrite send_command_cons.
    destruct (bool_decide (c ∈ remote.VALID_COMMANDS)) eqn:Hc.
    + apply bool_decide_eq_true_1 in Hc.
      destruct (device_call c [] (w_env w) (w_device w)) as [[env' dev'] [v | e]].
      * destruct (IH (mkWorld env' dev' (w_entities w) (w_dispatcher w)
                        (w_trace w ++ [Log DEBUG "Sending Remote Command: %s";
                                       DeviceCall c []])))
          as (called & Hpre & Hvalid & Hcalls & Hend).
        exists (c :: called). split; [by apply prefix_cons |].
        split; [by constructor |]. split.
        { rewrite Hcalls. cbn [w_trace]. rewrite device_calls_app. cbn.
          by rewrite <- app_assoc. }
        destruct Hend as [[Hr ->] | [(c' & Hc' & Hinv & Hr) | (e & Hr & _)]].
        -- by left.
        -- right. left. by exists c'.
        -- right. right. by exists e.
      * exists [c]. split; [apply prefix_cons, prefix_nil |].
        split; [by repeat constructor |]. split.
        { cbn. rewrite device_calls_app. reflexivity. }
        right. right. by exists e.
    + apply bool_decide_eq_false_1 in Hc.
      exists []. split; [apply prefix_nil |]. split; [constructor |]. split.
      { cbn. by rewrite app_nil_r. }
      right. left. by exists c.
Qed.

(** X24.  Turning the jog switch on and turning it off are the same
    action.  For the key ["jog_mode"] it is one call of [toggle_jog]
    followed by [set_states]; nothing is caught, so when the call raises
    the exception reaches the caller and [set_states] is not run.  For
    any other key nothing happens. *)
Theorem jog_switch_toggles_unguarded (self : nat) (key : string) (w : World Env) :
  let on := SeymourSwitch.async_turn_on self key w in
  let outcome := device_call "toggle_jog" [] (w_env w) (w_device w) in
  SeymourSwitch.async_turn_off self key w = on
  ∧ (key ≠ "jog_mode" → on = (w, Return tt))
  ∧ (key = "jog_mode" →
     (w_env on.1, w_device on.1) = outcome.1
     ∧ (is_raise outcome.2 = false →
        on.2 = Return tt
        ∧ w_trace on.1
          = (w_trace w ++ [DeviceCall "toggle_jog" []; SetStates self])%list)
     ∧ (∀ e, outcome.2 = Raise e →
        on.2 = Raise e
        ∧ w_trace on.1 = (w_trace w ++ [DeviceCall "toggle_jog" []])%list
        ∧ w_entities on.1 = w_entities w)).
Proof.
  cbv zeta. split; [reflexivity |]. unfold SeymourSwitch.async_turn_on. split.
  - intros Hkey. apply String.eqb_neq in Hkey. by rewrite Hkey.
  - intros ->. rewrite String.eqb_refl.
    unfold bind, await_device, entity.call_set_states, bind, get_device, emit,
      modify_entities.
    destruct (device_call _ _ _ _) as [[env' dev'] [v | e]]; cbn.
    + split; [done |]. split; [| done]. intros _. by rewrite <- app_assoc.
    + split; [done |]. split; [done |]. by intros ? [= <-].
Qed.

End CommandExtras.

(** ** select.py: what selecting an option can do *)

Section SelectExtras.
Context {Env : Type} `{!DeviceModule Env}.

(** The loop over the motors: it ends in a call only at a motor of that
    label on a device that has [select_motor]. *)
Lemma select_motor_by_label_run (hasattr : string → bool) (option : PyVal)
    (items : list (string * string)) (w : World Env) :
  select.select_motor_by_label hasattr option items w = (w, Return tt)
  ∨ (∃ item, item ∈ items ∧ VStr item.2 = option
       ∧ hasattr "select_motor" = true
       ∧ select.select_motor_by_label hasattr option items w
         = bind (await_device "select_motor" [VStr item.1]) (fun _ => ret tt) w).
Proof.
  induction items as [| [key value] rest IH]; [by left |].
  cbn [select.select_motor_by_label].
  assert (Hrest : select.select_motor_by_label hasattr option rest w = (w, Return tt)
                  ∨ (∃ item, item ∈ (key, value) :: rest ∧ VStr item.2 = option
                       ∧ hasattr "select_motor" = true
                       ∧ select.select_motor_by_label hasattr option rest w
                         = bind (await_device "select_motor" [VStr item.1])
                             (fun _ => ret tt) w)).
  { destruct IH as [Hrun | (item & Hin & Hlabel & Hhas & Hrun)]; [by left |].
    right. exists item. split; [by apply list_elem_of_further |]. done. }
  destruct (decide (VStr value = option)) as [Heq | Hne].
  - rewrite bool_decide_eq_true_2 by done.
    destruct (hasattr "select_motor") eqn:Hhas; [| done].
    right. exists (key, value). split; [apply list_elem_of_here |]. done.
  - by rewrite bool_decide_eq_false_2 by done.
Qed.

(** The loop over the movement codes. *)
Lemma select_mode_by_label_run (option : PyVal)
    (items : list (string * string)) (w : World Env) :
  select.select_mode_by_label option items w = (w, Return tt)
  ∨ (∃ item, item ∈ items ∧ VStr item.2 = option
       ∧ select.select_mode_by_label option items w
         = bind (await_device "select_movement_mode" [VStr item.1])
             (fun _ => ret tt) w).
Proof.
  induction items as [| [key value] rest IH]; [by left |].
  cbn [select.select_mode_by_label].
  destruct (decide (VStr value = option)) as [Heq | Hne].
  - rewrite bool_decide_eq_true_2 by done.
    right. exists (key, value). split; [apply list_elem_of_here |]. done.
  - rewrite bool_decide_eq_false_2 by done.
    destruct IH as [Hrun | (item & Hin & Hlabel & Hrun)]; [by left |].
    right. exists item. split; [by apply list_elem_of_further |]. done.
Qed.

(** X25.  Selecting an option ends in one of four ways: nothing at all;
    exactly one device call, the one of the select's key with one
    argument ([select_ratio] and [select_motor] only on a device that has
    the method), whose exception, if any, reaches the caller; the error
    line of a ratio select on a device without [select_ratio]; or the
    error line of a key that is none of the three.  A motor select on a
    device without [select_motor] does nothing and logs nothing. *)
Theorem select_option_outcomes
    (hasattr : string → bool) (self : Entity) (option : PyVal) (w : World Env) :
  let run := select.async_select_option hasattr self option w in
  let key := description_key self in
  (run = (w, Return tt)
   ∨ (∃ method arg,
        (key, method) ∈ [ ("ratio", "select_ratio"); ("motor_id", "select_motor");
                          ("movement_code", "select_movement_mode") ]
        ∧ (method = "select_movement_mode" ∨ hasattr method = true)
        ∧ run = bind (await_device method [arg]) (fun _ => ret tt) w)
   ∨ (key = "ratio" ∧ hasattr "select_ratio" = false
      ∧ run = log ERROR "Device does not support ratio selection" w)
   ∨ ((key ∉ ["ratio"; "motor_id"; "movement_code"])
      ∧ run = log ERROR "Invalid option selected: %s" w))
  ∧ (key = "motor_id" → hasattr "select_motor" = false → run = (w, Return tt)).
Proof.
  cbv zeta. unfold select.async_select_option.
  unfold bind at 1. unfold bind at 2. unfold bind at 3. unfold bind at 4.
  unfold bind at 5. cbn [get_device].
  destruct (String.eqb_spec (description_key self) "ratio") as [Hr | Hnr].
  { split; [| intros Hm; congruence].
    destruct (select_ratio_by_label_run hasattr option
                (map_to_list (ratios (mask_ratio_settings (w_device w)))) w)
      as [[_ Hrun] | (item & _ & _ & Hrun)]; rewrite Hrun; [by left |].
    destruct (hasattr "select_ratio") eqn:Hhas.
    - right; left. exists "select_ratio", (VInt item.1).
      rewrite Hr. split; [apply list_elem_of_here |]. split; [by right | done].
    - right; right; left. done. }
  destruct (String.eqb_spec (description_key self) "motor_id") as [Hm | Hnm].
  { destruct (select_motor_by_label_run hasattr option
                (map_to_list (motors (mask_ratio_settings (w_device w)))) w)
      as [Hrun | (item & _ & _ & Hhas & Hrun)]; rewrite Hrun.
    - split; [by left | done].
    - split; [| intros _ ?; congruence].
      right; left. exists "select_motor", (VStr item.1).
      rewrite Hm. split; [apply list_elem_of_further, list_elem_of_here |].
      split; [by right | done]. }
  split; [| done].
  destruct (String.eqb_spec (description_key self) "movement_code") as [Hc | Hnc].
  { destruct (bool_decide (option = VNone) || bool_decide (option = VStr "N")).
    - right; left. exists "select_movement_mode", VNone.
      rewrite Hc. split; [do 2 apply list_elem_of_further; apply list_elem_of_here |].
      split; [by left | done].
    - destruct (select_mode_by_label_run option
                  (map_to_list (movement_codes (mask_ratio_settings (w_device w)))) w)
        as [Hrun | (item & _ & _ & Hrun)]; rewrite Hrun; [by left |].
      right; left. exists "select_movement_mode", (VStr item.1).
      rewrite Hc. split; [do 2 apply list_elem_of_further; apply list_elem_of_here |].
      split; [by left | done]. }
  right; right; right. split; [| done].
  rewrite !not_elem_of_cons. repeat split; try done. apply not_elem_of_nil.
Qed.

End SelectExtras.

(* ===================================================================== *)
(** * The further properties on the simulated controller                  *)
(* ===================================================================== *)

(** X2 on the simulated controller: the service registered for key 2
    of the table selects ratio 2. *)
Lemma scope_service_selects_ratio_2 :
  is_Some (ratios (mask_ratio_settings (sim.device (VInt 1) VNone)) !! 2)
  ∧ device_calls
      (w_trace (services.async_call
                  (remote.async_setup_entry (sim.device (VInt 1) VNone))
                  "set_aspect_ratio_2" ∅
                  (sim.world sim.healthy (sim.device (VInt 1) VNone))).1)
    = [("select_ratio", [VInt 2])].
Proof.
  assert (Hk : is_Some (ratios (mask_ratio_settings (sim.device (VInt 1) VNone)) !! 2)).
  { exists sim.ratio_scope. vm_compute. reflexivity. }
  split; [exact Hk |].
  destruct (ratio_services_select_their_key (sim.device (VInt 1) VNone) 2 ∅
              (sim.world sim.healthy (sim.device (VInt 1) VNone)) Hk)
    as (_ & Hcalls & _).
  exact (Hcalls ltac:(lia)).
Defined.

(** X3 on the simulated controller: [halt_motors] of the top motor makes
    the one call [halt("T")]. *)
Lemma halt_top_motor :
  device_calls
    (w_trace (services.async_call
                (remote.async_setup_entry (sim.device (VInt 1) VNone))
                "halt_motors" {[ "motor_id" := VStr "T" ]}
                (sim.world sim.healthy (sim.device (VInt 1) VNone))).1)
  = [("halt", [VStr "T"])].
Proof.
  destruct (motor_services_contract (sim.device (VInt 1) VNone)
              "halt_motors" "halt" {[ "motor_id" := VStr "T" ]}
              (sim.world sim.healthy (sim.device (VInt 1) VNone)))
    as (_ & _ & Hacc).
  - apply list_elem_of_further, list_elem_of_here.
  - destruct (Hacc "T" eq_refl) as (Hcalls & _).
    + exists "Top". vm_compute. reflexivity.
    + exact Hcalls.
Defined.

(** X4 on the simulated controller: updating ratio 2 makes the one call
    [update(2)]. *)
Lemma update_ratio_2_calls_update :
  vol.accepts (remote.update_ratio_schema (sim.device (VInt 1) VNone))
    {[ "ratio_id" := VInt 2 ]} = true
  ∧ device_calls
      (w_trace (services.async_call
                  (remote.async_setup_entry (sim.device (VInt 1) VNone))
                  "update_ratio" {[ "ratio_id" := VInt 2 ]}
                  (sim.world sim.healthy (sim.device (VInt 1) VNone))).1)
    = [("update", [VInt 2])].
Proof.
  assert (Hacc : vol.accepts (remote.update_ratio_schema (sim.device (VInt 1) VNone))
                   {[ "ratio_id" := VInt 2 ]} = true).
  { vm_compute. reflexivity. }
  split; [exact Hacc |].
  destruct (update_ratio_service_contract (sim.device (VInt 1) VNone) (VInt 2)
              (sim.world sim.healthy (sim.device (VInt 1) VNone)) Hacc)
    as (_ & Hcalls & _).
  exact Hcalls.
Defined.

(** X7 on the simulated controller: the Home button logs its line and
    calls [home()]. *)
Lemma pressing_home_button :
  button.async_press
    (button.mkDescription "mdi:home-circle-outline" "home" "Home Motor(s)"
       (await_device "home" []))
    (sim.world sim.healthy (sim.device (VInt 1) VNone))
  = (mkWorld sim.healthy (sim.device (VInt 1) VNone) [] []
       [Log DEBUG "Button pressed: %s"; DeviceCall "home" []],
     Return tt).
Proof.
  destruct (button_press_is_one_unguarded_call
              (button.mkDescription "mdi:home-circle-outline" "home" "Home Motor(s)"
                 (await_device "home" []))
              (sim.world sim.healthy (sim.device (VInt 1) VNone)))
    as (method & args & Hin & Hrun).
  - do 2 apply list_elem_of_further. apply list_elem_of_here.
  - rewrite Hrun. cbn [button.key] in Hin.
    rewrite !elem_of_cons, elem_of_nil in Hin.
    destruct Hin as [[=] | [[=] | [[= -> ->] | [[=] | [[=] | [[=] | [[=]
                     | [[=] | [[=] | [[=] | []]]]]]]]]]].
    vm_compute. reflexivity.
Defined.

(** X8 on the simulated controller: the label of the second ratio is
    offered, and selecting it calls [select_ratio]. *)
Lemma selecting_an_offered_ratio :
  ∃ k,
    device_calls
      (w_trace (select.async_select_option (fun _ => true)
                  (mkEntity SeymourSelect "ratio" "SN1-ratio" [])
                  (VStr "2.35:1")
                  (sim.world sim.healthy (sim.device (VInt 1) VNone))).1)
    = [("select_ratio", [VInt k])].
Proof.
  destruct (ratio_select_selects_what_it_offers (fun _ => true)
              (mkEntity SeymourSelect "ratio" "SN1-ratio" []) "2.35:1"
              (sim.world sim.healthy (sim.device (VInt 1) VNone))
              eq_refl eq_refl)
    as (Hoffered & _).
  destruct Hoffered as (k & info & _ & _ & _ & Hcalls).
  - apply (bool_decide_unpack _). vm_compute. reflexivity.
  - exists k. exact Hcalls.
Defined.

(** X11 on a controller whose [connect] raises [ValueError]: set-up
    raises it. *)
Lemma setup_raises_value_error :
  (init.async_setup_entry 21 (system_info (sim.device (VInt 1) VNone))
     (sim.world (sim.mkEnv [("connect", mkExn ValueError "bad reply")] None 0)
        (sim.device (VInt 1) VNone))).2
  = Raise (mkExn ValueError "bad reply").
Proof.
  rewrite (setup_lets_other_exceptions_through 21
             (system_info (sim.device (VInt 1) VNone))
             (sim.world (sim.mkEnv [("connect", mkExn ValueError "bad reply")] None 0)
                (sim.device (VInt 1) VNone))
             (init.setup_try_body 21
                (init.prepare (system_info (sim.device (VInt 1) VNone))
                   (sim.world
                      (sim.mkEnv [("connect", mkExn ValueError "bad reply")] None 0)
                      (sim.device (VInt 1) VNone))).1).1
             (mkExn ValueError "bad reply")).
  - reflexivity.
  - vm_compute. reflexivity.
  - vm_compute. reflexivity.
Defined.

(** X12 on the simulated controller: the stored entry is closed once,
    and a second unload touches nothing. *)
Lemma unloading_the_stored_entry :
  device_calls
    (w_trace (init.async_unload_entry true
                {[ const.DOMAIN := {[ "entry-1" := true ]} ]} "entry-1"
                (sim.world sim.healthy (sim.device (VInt 1) VNone))).1)
  = [("close", [])]
  ∧ init.async_unload_entry true
      (<[const.DOMAIN := delete "entry-1" {[ "entry-1" := true ]}]>
         {[ const.DOMAIN := {[ "entry-1" := true ]} ]}) "entry-1"
      (sim.world sim.silent (sim.device (VInt 1) VNone))
    = (sim.world sim.silent (sim.device (VInt 1) VNone),
       Return (<[const.DOMAIN := delete "entry-1" {[ "entry-1" := true ]}]>
                 {[ const.DOMAIN := {[ "entry-1" := true ]} ]}, true)).
Proof.
  destruct (unload_closes_stored_entry_once true
              {[ const.DOMAIN := {[ "entry-1" := true ]} ]}
              {[ "entry-1" := true ]} "entry-1"
              (sim.world sim.healthy (sim.device (VInt 1) VNone)))
    as (Hcalls & _ & _ & Hagain).
  - vm_compute. reflexivity.
  - vm_compute. reflexivity.
  - split; [exact Hcalls | apply Hagain].
Defined.

(** X14 for the Screen Width sensor on a device whose current ratio is 3,
    which the table does not hold. *)
Lemma width_sensor_read_outcomes :
  (∃ v,
     sensor.native_value
       (sensor.mkDescription "width" "Screen Width" None None
          (fun device => sensor.subscript_ratio device width))
       (sim.world sim.healthy (sim.device (VInt 3) VNone))
     = (sim.world sim.healthy (sim.device (VInt 3) VNone), Return v))
  ∨ (∃ msg,
       sensor.native_value
         (sensor.mkDescription "width" "Screen Width" None None
            (fun device => sensor.subscript_ratio device width))
         (sim.world sim.healthy (sim.device (VInt 3) VNone))
       = (push [Log WARNING msg]
            (sim.world sim.healthy (sim.device (VInt 3) VNone)), Return VNone))
  ∨ (∃ msg,
       sensor.native_value
         (sensor.mkDescription "width" "Screen Width" None None
            (fun device => sensor.subscript_ratio device width))
         (sim.world sim.healthy (sim.device (VInt 3) VNone))
       = (sim.world sim.healthy (sim.device (VInt 3) VNone),
          Raise (mkExn KeyError msg))
       ∧ "width" ∈ ["width"; "height"; "diagonal"]
       ∧ dict_get (ratios (mask_ratio_settings (sim.device (VInt 3) VNone)))
           (VInt 3) = None).
Proof.
  apply (sensors_raise_only_on_missing_ratio (sim.device (VInt 1) VNone)
           (sensor.mkDescription "width" "Screen Width" None None
              (fun device => sensor.subscript_ratio device width))
           (sim.world sim.healthy (sim.device (VInt 3) VNone))).
  unfold sensor.async_setup_entry. apply elem_of_app. left.
  do 4 apply list_elem_of_further. apply list_elem_of_here.
Defined.

(** X16 for the position sensor of the separator. *)
Lemma separator_position_sensor_reads_none :
  ∃ msg,
    sensor.native_value
      (sensor.mkDescription "motor_,_position" "Motor , Position"
         (Some ",") (Some (-21)) (fun device => Return VNone))
      (sim.world sim.healthy (sim.device (VInt 1) VNone))
    = (push [Log WARNING msg] (sim.world sim.healthy (sim.device (VInt 1) VNone)),
       Return VNone).
Proof.
  apply (separator_sensor_reads_none
           (sensor.mkDescription "motor_,_position" "Motor , Position"
              (Some ",") (Some (-21)) (fun device => Return VNone))
           (sim.world sim.healthy (sim.device (VInt 1) VNone))).
  apply list_elem_of_here.
Defined.

(** X17 on the simulated controller, whose [mask_ids] is ["TBLR"]: the
    sensors of ["T"] read motor 1 of the 16:9 ratio. *)
Lemma top_motor_sensors_read_motor_1 :
  ∃ position_sensor adjustment_sensor,
    sensor.motor_descriptions "T" = [position_sensor; adjustment_sensor]
    ∧ sensor.native_value position_sensor
        (sim.world sim.healthy (sim.device (VInt 1) VNone))
      = (sim.world sim.healthy (sim.device (VInt 1) VNone), Return (VInt 10))
    ∧ sensor.native_value adjustment_sensor
        (sim.world sim.healthy (sim.device (VInt 1) VNone))
      = (sim.world sim.healthy (sim.device (VInt 1) VNone), Return (VInt 0)).
Proof.
  destruct (motor_sensors_read_motor_at_their_place 0 "T" sim.ratio_16_9
              (mkMotorInfo (Some 10) (Some 0))
              (sim.world sim.healthy (sim.device (VInt 1) VNone)))
    as (position_sensor & adjustment_sensor & Hd & Hp & _ & Ha & _).
  - apply (bool_decide_unpack _). vm_compute. reflexivity.
  - apply (bool_decide_unpack _). vm_compute. reflexivity.
  - reflexivity.
  - vm_compute. reflexivity.
  - vm_compute. reflexivity.
  - exists position_sensor, adjustment_sensor.
    split; [exact Hd |]. split; [apply Hp | apply Ha]; reflexivity.
Defined.

